(** * Norwegian Singles training planner: the calculation core

    A shallow embedding of the calculation core of the planner
    ([lib/vdot.ts], [lib/paces.ts], [lib/plan-generator.ts], [types/index.ts])
    and of its locale helpers ([i18n/ui.ts]), with the properties its
    specification states about it and further properties of the code.

    JavaScript numbers are IEEE-754 binary64 values: they are modelled by
    Rocq's primitive floats, whose [+ - * /] and comparisons are the same
    operations.  Numbers that the program only ever uses as small integers
    (day and week indices, repetition counts, minutes from the constant
    tables, the bounds of the binary search) are modelled by [Z].

    A thrown exception is a [Throw] result.  Loops are recursive functions:
    on a bound of their iterations where the source makes one plain, on a
    fuel argument where it does not, with [None] for a loop that outlasts
    its fuel. *)

From Stdlib Require Import ZArith Floats Ascii String Lia Bool.
From Stdlib Require Uint63.
From stdpp Require Import base list.

Set Warnings "-inexact-float".

Local Open Scope string_scope.
Local Open Scope Z_scope.

(* ===================================================================== *)
(** ** JavaScript numbers                                                  *)
(* ===================================================================== *)

Definition number := float.

(** The number denoted by an integer: the primitive conversion where the
    integer is exactly representable, the rounding to nearest (ties to
    even) otherwise. *)
Definition of_Z (z : Z) : number :=
  if Z.abs z <? 9007199254740992 then
    if z <? 0 then (- of_uint63 (Uint63.of_Z (- z)))%float
    else of_uint63 (Uint63.of_Z z)
  else SF2Prim (binary_normalize prec emax z 0 false).

(** [ToBoolean] on a number: [0], [-0] and [NaN] are falsy. *)
Definition truthy (x : number) : bool := negb (is_nan x || is_zero x).

(** [isNaN]. *)
Definition isNaN (x : number) : bool := is_nan x.

Definition Math_abs (x : number) : number := abs x.

(** Below [2^52] in magnitude, adding and subtracting [2^52] rounds a
    non-negative number to an integer. *)
Definition two52 : number := 4503599627370496%float.

(** [Math.floor].  Zeros, [NaN], the infinities and the numbers from
    [2^52] on are integers already.  Otherwise the integer nearest to [x]
    is lowered by one when it lies above [x]; a negative [x] is the
    opposite of the ceiling of [-x]. *)
Definition Math_floor (x : number) : number :=
  if (abs x <? two52)%float && negb (x =? 0)%float then
    if (x <? 0)%float then
      let c := (- x + two52 - two52)%float in
      (- (if c <? - x then c + 1 else c))%float
    else
      let r := (x + two52 - two52)%float in
      if (x <? r)%float then (r - 1)%float else r
  else x.

(** [Math.round]: the floor when the fraction is below one half, the next
    integer otherwise (ties go towards +infinity); [-0] for
    [-0.5 <= x < 0]. *)
Definition Math_round (x : number) : number :=
  let f := Math_floor x in
  let r := if (x - f <? 0.5)%float then f else (f + 1)%float in
  if (r =? 0)%float && (x <? 0)%float then neg_zero else r.

(** The [%] operator on numbers: the remainder of the truncated division,
    exact, with the sign of the dividend. *)
Definition Number_remainder (n d : number) : number :=
  match Prim2SF n, Prim2SF d with
  | S754_nan, _ | _, S754_nan => nan
  | S754_infinity _, _ => nan
  | _, S754_zero _ => nan
  | _, S754_infinity _ => n
  | S754_zero _, _ => n
  | S754_finite sn mn en, S754_finite _ md ed =>
      let e0 := Z.min en ed in
      let r := Z.modulo (Z.shiftl (Zpos mn) (en - e0))
                        (Z.shiftl (Zpos md) (ed - e0)) in
      SF2Prim (binary_normalize prec emax (cond_Zopp sn r) e0 sn)
  end.

(* ===================================================================== *)
(** ** JavaScript strings                                                  *)
(* ===================================================================== *)

(** Strings are sequences of bytes (UTF-8 for the few non-ASCII characters
    of the program's literals). *)

(** [s.split(sep)] for a one-character separator: never empty, the empty
    string splits into one empty part. *)
Fixpoint split (sep : ascii) (s : string) : list string :=
  match s with
  | EmptyString => [EmptyString]
  | String c s' =>
      if Ascii.eqb c sep then EmptyString :: split sep s'
      else match split sep s' with
           | p :: ps => String c p :: ps
           | [] => [String c EmptyString]
           end
  end.

(** [ToBoolean] on a string: only the empty string is falsy. *)
Definition nonempty (s : string) : bool :=
  match s with EmptyString => false | String _ _ => true end.

Fixpoint repeat_string (c : ascii) (n : nat) : string :=
  match n with O => EmptyString | S n' => String c (repeat_string c n') end.

(** [s.padStart(n, c)] for a one-character filler. *)
Definition padStart (n : nat) (c : ascii) (s : string) : string :=
  repeat_string c (n - String.length s) ++ s.

Definition digit_char (d : Z) : ascii := ascii_of_N (Z.to_N (48 + d)).

Fixpoint decimal_digits (fuel : nat) (z : Z) (acc : string) : string :=
  match fuel with
  | O => acc
  | S fuel' =>
      let acc' := String (digit_char (z mod 10)) acc in
      if z <? 10 then acc' else decimal_digits fuel' (z / 10) acc'
  end.

(** Decimal digits of an integer, with a minus sign when negative. *)
Definition Z_toString (z : Z) : string :=
  let a := Z.abs z in
  let ds := decimal_digits (S (Z.to_nat (Z.log2 a))) a EmptyString in
  if z <? 0 then String "-"%char ds else ds.

(** [Number::toString] (radix 10).  Exact for [NaN], the infinities and
    integral values below [2^53] in magnitude, which is all that
    [Math.floor] and [Math.round] hand to it in this program on the times
    and paces it formats.  JavaScript prints the shortest digits that read
    back to the value: of a fraction, of an integer from [2^53] on (padded
    with zeros) and, from [1e21] on, with an exponent.  None of this is
    modelled: such values print the exact digits of their integer part. *)
Definition Number_toString (x : number) : string :=
  match Prim2SF x with
  | S754_nan => "NaN"
  | S754_infinity s => if s then "-Infinity" else "Infinity"
  | S754_zero _ => "0"
  | S754_finite s m e =>
      Z_toString (if 0 <=? e then Z.shiftl (cond_Zopp s (Zpos m)) e
                  else Z.shiftr (cond_Zopp s (Zpos m)) (- e))
  end.

(* ===================================================================== *)
(** ** [Number(string)]                                                    *)
(* ===================================================================== *)

(** The conversion the program applies to every part of a time string
    ([parts.map(Number)]): ECMAScript's StringToNumber.  Surrounding white
    space is dropped; the empty string is [0]; a decimal literal has an
    optional sign, digits with an optional fraction and an optional
    exponent, or is [Infinity]; [0x], [0o] and [0b] introduce unsigned
    integers; anything else is [NaN]. *)

(** One white-space or line-terminator character at the head of [s]. *)
Definition skip_one_ws (s : string) : option string :=
  match s with
  | String c r =>
      let n := nat_of_ascii c in
      if ((9 <=? n)%nat && (n <=? 13)%nat) || (n =? 32)%nat then Some r
      else match n, r with
           | 194%nat, String c1 r1 =>                     (* U+00A0 *)
               if (nat_of_ascii c1 =? 160)%nat then Some r1 else None
           | 239%nat, String c1 (String c2 r2) =>         (* U+FEFF *)
               if (nat_of_ascii c1 =? 187)%nat && (nat_of_ascii c2 =? 191)%nat
               then Some r2 else None
           | 225%nat, String c1 (String c2 r2) =>         (* U+1680 *)
               if (nat_of_ascii c1 =? 154)%nat && (nat_of_ascii c2 =? 128)%nat
               then Some r2 else None
           | 227%nat, String c1 (String c2 r2) =>         (* U+3000 *)
               if (nat_of_ascii c1 =? 128)%nat && (nat_of_ascii c2 =? 128)%nat
               then Some r2 else None
           | 226%nat, String c1 (String c2 r2) =>
               let n1 := nat_of_ascii c1 in
               let n2 := nat_of_ascii c2 in
               if (n1 =? 128)%nat &&
                  (((128 <=? n2)%nat && (n2 <=? 138)%nat)  (* U+2000..U+200A *)
                   || (n2 =? 168)%nat || (n2 =? 169)%nat   (* U+2028, U+2029 *)
                   || (n2 =? 175)%nat)                     (* U+202F *)
               then Some r2
               else if (n1 =? 129)%nat && (n2 =? 159)%nat  (* U+205F *)
               then Some r2 else None
           | _, _ => None
           end
  | EmptyString => None
  end.

Fixpoint skip_ws (fuel : nat) (s : string) : string :=
  match fuel with
  | O => s
  | S fuel' =>
      match skip_one_ws s with
      | Some r => skip_ws fuel' r
      | None => s
      end
  end.

Definition trim_start (s : string) : string := skip_ws (String.length s) s.

Definition only_ws (s : string) : bool :=
  match trim_start s with EmptyString => true | _ => false end.

(** The value of a digit in the given radix. *)
Definition digit_value (radix : Z) (c : ascii) : option Z :=
  let n := Z.of_nat (nat_of_ascii c) in
  let v := if (48 <=? n) && (n <=? 57) then n - 48
           else if (97 <=? n) && (n <=? 102) then n - 87
           else if (65 <=? n) && (n <=? 70) then n - 55
           else 16 in
  if v <? radix then Some v else None.

(** The longest prefix of digits: their value, their count and the rest. *)
Fixpoint read_digits (radix : Z) (s : string) (acc : Z) (count : Z)
  : Z * Z * string :=
  match s with
  | String c r =>
      match digit_value radix c with
      | Some v => read_digits radix r (acc * radix + v) (count + 1)
      | None => (acc, count, s)
      end
  | EmptyString => (acc, count, s)
  end.

(** [m * 10^e10] rounded to the nearest number, ties to even.  A negative
    exponent divides: the quotient keeps more than 53 bits and the
    remainder decides the rounding.  The first two tests only spare the
    computation of a huge power: beyond [1e310] the result is an infinity,
    and below [2^-1079] it is a zero, whatever the digits. *)
Definition decimal_to_number (neg : bool) (m e10 : Z) : number :=
  match m with
  | Zpos pm =>
      if 310 <=? e10 then (if neg then neg_infinity else infinity)
      else if Z.log2 m + 3 * e10 <? - 1080 then (if neg then neg_zero else 0%float)
      else if 0 <=? e10 then
        SF2Prim (binary_normalize prec emax (cond_Zopp neg (m * 10 ^ e10)) 0 neg)
      else
        let d := 10 ^ (- e10) in
        let s := Z.max 0 (Z.log2 d - Z.log2 m + 56) in
        let n := Z.shiftl m s in
        let q := n / d in
        let r := n mod d in
        let loc := if r =? 0 then loc_Exact else loc_Inexact (2 * r ?= d) in
        SF2Prim (binary_round_aux prec emax neg q (- s) loc)
  | _ => if neg then neg_zero else 0%float
  end.

(** An optional exponent part [e|E [+|-] digits]. *)
Definition read_exponent (s : string) : option (Z * string) :=
  match s with
  | String c r =>
      if Ascii.eqb c "e" || Ascii.eqb c "E" then
        let '(sgn, r1) :=
          match r with
          | String "+" r' => (1, r')
          | String "-" r' => (-1, r')
          | _ => (1, r)
          end in
        let '(v, k, rest) := read_digits 10 r1 0 0 in
        if k =? 0 then None else Some (sgn * v, rest)
      else Some (0, s)
  | EmptyString => Some (0, s)
  end.

(** An unsigned decimal literal followed by white space only. *)
Definition unsigned_decimal (neg : bool) (s : string) : number :=
  match index 0 "Infinity" s with
  | Some O =>
      if only_ws (substring 8 (String.length s - 8) s)
      then (if neg then neg_infinity else infinity) else nan
  | _ =>
      let '(ip, ik, r1) := read_digits 10 s 0 0 in
      let '(m, fk, r2) :=
        match r1 with
        | String "." r' =>
            let '(m, k, r'') := read_digits 10 r' ip 0 in (m, Some k, r'')
        | _ => (ip, None, r1)
        end in
      let digits := ik + default 0 fk in
      if digits =? 0 then nan
      else match read_exponent r2 with
           | Some (e, r3) =>
               if only_ws r3 then decimal_to_number neg m (e - default 0 fk)
               else nan
           | None => nan
           end
  end.

(** An unsigned integer literal in radix 2, 8 or 16, after its prefix. *)
Definition radix_integer (radix : Z) (s : string) : number :=
  let '(v, k, rest) := read_digits radix s 0 0 in
  if (k =? 0) || negb (only_ws rest) then nan else of_Z v.

(** [Number(s)]. *)
Definition Number (s : string) : number :=
  match trim_start s with
  | EmptyString => 0%float
  | String "0" (String c r) as t =>
      if Ascii.eqb c "x" || Ascii.eqb c "X" then radix_integer 16 r
      else if Ascii.eqb c "o" || Ascii.eqb c "O" then radix_integer 8 r
      else if Ascii.eqb c "b" || Ascii.eqb c "B" then radix_integer 2 r
      else unsigned_decimal false t
  | String "+" r => unsigned_decimal false r
  | String "-" r => unsigned_decimal true r
  | t => unsigned_decimal false t
  end.

(* ===================================================================== *)
(** ** The host's [Math.exp]                                               *)
(* ===================================================================== *)

(** ECMAScript leaves the precision of [Math.exp] to the implementation.
    The program is therefore modelled over any host; [fdlibm_host] below is
    the reference host, used to run it on concrete inputs. *)
Class HostMath := { Math_exp : number -> number }.

(* ===================================================================== *)
(** ** [types/index.ts]                                                    *)
(* ===================================================================== *)

Inductive Distance := D5K | D10K | D21K | D42K.

Module SessionType.
Inductive t := easy | threshold | long | test | rest | race.
End SessionType.

Module IntervalType.
Inductive t := short | medium | long.
End IntervalType.

Inductive RaceType := A | B.

(** Modelled from the spec: the [Unit] type ([km] or [mile]) that the plan
    generator imports; the declaration is missing from [types/index.ts]. *)
Inductive Unit := km | mile.

Definition DISTANCE_METERS (d : Distance) : number :=
  match d with
  | D5K => 5000
  | D10K => 10000
  | D21K => 21097.5
  | D42K => 42195
  end%float.

Definition Distance_label (d : Distance) : string :=
  match d with D5K => "5K" | D10K => "10K" | D21K => "21K" | D42K => "42K" end.

Module Race.
Record t := mk {
  id : string;
  name : string;
  date : string;
  type : RaceType;
  distance : Distance
}.
End Race.

(** Modelled from the spec: the [unit] field, which the plan generator
    reads as [input.unit] and which is missing from the interface in
    [types/index.ts]; when absent, the generator falls back on ['km']. *)
Module UserInput.
Record t := mk {
  targetDistance : Distance;
  time5K : option string;
  time10K : option string;
  trainingDays : Z;
  races : list Race.t;
  unit : option Unit
}.
End UserInput.

Module PaceRange.
Record t := mk { min : number; max : number }.
End PaceRange.

Module IntervalPaces.
Record t := mk { short : PaceRange.t; medium : PaceRange.t; long : PaceRange.t }.
End IntervalPaces.

Module Paces.
Record t := mk {
  threshold : number;
  easy : number;
  intervals : IntervalPaces.t
}.
End Paces.

Module Reps.
Record t := mk { min : Z; max : Z }.
End Reps.

Module IntervalSession.
Record t := mk {
  type : IntervalType.t;
  reps : Reps.t;
  duration : string;
  paceRange : PaceRange.t;
  recovery : Z
}.
End IntervalSession.

Module SessionPaces.
Record t := mk { target : number; range : option PaceRange.t }.
End SessionPaces.

Module TrainingSession.
Record t := mk {
  day : Z;
  type : SessionType.t;
  title : string;
  description : string;
  duration : option Z;
  intervals : option IntervalSession.t;
  paces : option SessionPaces.t;
  race : option Race.t
}.
End TrainingSession.

Module WeekPlan.
Record t := mk {
  weekNumber : Z;
  isTestWeek : bool;
  isRecoveryWeek : bool;
  sessions : list TrainingSession.t;
  totalVolume : option number
}.
End WeekPlan.

Module TrainingBlock.
Record t := mk {
  blockNumber : Z;
  weeks : list WeekPlan.t;
  startDate : option Z;
  endDate : option Z;
  vdot : number;
  paces : Paces.t
}.
End TrainingBlock.

Module ParsedTime.
Record t := mk {
  hours : number;
  minutes : number;
  seconds : number;
  totalSeconds : number
}.
End ParsedTime.

Module VDOTResult.
Record t := mk { vdot : number; distance : Distance; time : number }.
End VDOTResult.

Module Locale.
Inductive t := es | en.
End Locale.

(* ===================================================================== *)
(** ** [lib/vdot.ts]                                                       *)
(* ===================================================================== *)

Definition parseTime (timeStr : string) : option ParsedTime.t :=
  if negb (nonempty timeStr) then None
  else
    let parts := map Number (split ":" timeStr) in
    if existsb isNaN parts then None
    else
      let fields :=
        match parts with
        | [minutes; seconds] => Some (0%float, minutes, seconds)
        | [hours; minutes; seconds] => Some (hours, minutes, seconds)
        | _ => None
        end in
      match fields with
      | None => None
      | Some (hours, minutes, seconds) =>
          if (60 <=? minutes)%float || (60 <=? seconds)%float
             || (minutes <? 0)%float || (seconds <? 0)%float
             || (hours <? 0)%float
          then None
          else
            let totalSeconds := (hours * 3600 + minutes * 60 + seconds)%float in
            Some (ParsedTime.mk hours minutes seconds totalSeconds)
      end.

Definition formatPace (secondsPerKm : number) (unit : Unit) : string :=
  let pace := match unit with
              | mile => (secondsPerKm * 1.60934)%float
              | km => secondsPerKm
              end in
  let minutes := Math_floor (pace / 60)%float in
  let seconds := Math_round (Number_remainder pace 60%float) in
  Number_toString minutes ++ ":" ++ padStart 2 "0" (Number_toString seconds).

Definition formatTime (totalSeconds : number) : string :=
  let hours := Math_floor (totalSeconds / 3600)%float in
  let minutes :=
    Math_floor (Number_remainder totalSeconds 3600%float / 60)%float in
  let seconds := Math_round (Number_remainder totalSeconds 60%float) in
  if (0 <? hours)%float then
    Number_toString hours ++ ":" ++ padStart 2 "0" (Number_toString minutes)
      ++ ":" ++ padStart 2 "0" (Number_toString seconds)
  else Number_toString minutes ++ ":" ++ padStart 2 "0" (Number_toString seconds).

Section Host.
Context {host : HostMath}.

Definition calculateVDOT (distanceMeters timeSeconds : number) : number :=
  let timeMinutes := (timeSeconds / 60)%float in
  let velocity := (distanceMeters / timeMinutes)%float in
  let vo2 :=
    ((-4.6) + 0.182258 * velocity + 0.000104 * velocity * velocity)%float in
  let percentVO2max :=
    (0.8 + 0.1894393 * Math_exp ((-0.012778) * timeMinutes)
         + 0.2989558 * Math_exp ((-0.1932605) * timeMinutes))%float in
  let vdot := (vo2 / percentVO2max)%float in
  (Math_round (vdot * 10) / 10)%float.

(** The [while (high - low > 1)] loop of [calculateTimeFromVDOT].  [low],
    [high] and [mid] stay integers, so [Math.floor((low + high) / 2)] is
    the integer quotient and [Math.round((low + high) / 2)] the quotient of
    [low + high + 1].  [fuel] bounds the number of iterations; [None] says
    that it ran out while the loop condition still held. *)
Fixpoint searchLoop (fuel : nat) (vdot distanceMeters : number) (low high : Z)
  : option Z :=
  if high - low >? 1 then
    match fuel with
    | O => None
    | S fuel' =>
        let mid := (low + high) / 2 in
        let calculatedVdot := calculateVDOT distanceMeters (of_Z mid) in
        if (Math_abs (calculatedVdot - vdot) <? 0.1)%float then Some mid
        else if (vdot <? calculatedVdot)%float
             then searchLoop fuel' vdot distanceMeters mid high
             else searchLoop fuel' vdot distanceMeters low mid
    end
  else Some ((low + high + 1) / 2).

(** The bracket narrows by at least one second per iteration, so its
    initial width is enough fuel and the default is never taken (see
    [calculateTimeFromVDOT_within_15]). *)
Definition calculateTimeFromVDOT (vdot distanceMeters : number) : Z :=
  let low := 1 * 60 in
  let high := 6 * 3600 in
  default 0 (searchLoop (Z.to_nat (high - low)) vdot distanceMeters low high).

Definition getVDOTFromRace (distance : Distance) (timeStr : string)
  : option VDOTResult.t :=
  match parseTime timeStr with
  | None => None
  | Some parsed =>
      let distanceMeters := DISTANCE_METERS distance in
      let vdot := calculateVDOT distanceMeters (ParsedTime.totalSeconds parsed) in
      Some (VDOTResult.mk vdot distance (ParsedTime.totalSeconds parsed))
  end.

Definition estimateRaceTime (vdot : number) (distance : Distance) : Z :=
  calculateTimeFromVDOT vdot (DISTANCE_METERS distance).

Definition estimate5KFrom10K (time10K : string) : option string :=
  match parseTime time10K with
  | None => None
  | Some parsed =>
      let vdot :=
        calculateVDOT (DISTANCE_METERS D10K) (ParsedTime.totalSeconds parsed) in
      let time5K := calculateTimeFromVDOT vdot (DISTANCE_METERS D5K) in
      Some (formatTime (of_Z time5K))
  end.

Definition estimate10KFrom5K (time5K : string) : option string :=
  match parseTime time5K with
  | None => None
  | Some parsed =>
      let vdot :=
        calculateVDOT (DISTANCE_METERS D5K) (ParsedTime.totalSeconds parsed) in
      let time10K := calculateTimeFromVDOT vdot (DISTANCE_METERS D10K) in
      Some (formatTime (of_Z time10K))
  end.

End Host.

(* ===================================================================== *)
(** ** [lib/paces.ts]                                                      *)
(* ===================================================================== *)

Section HostPaces.
Context {host : HostMath}.

Definition calculateThresholdPace (vdot : number) : number :=
  let thresholdVdot := (vdot * 0.88)%float in
  let thresholdDistance := 15000%float in
  let thresholdTime :=
    of_Z (calculateTimeFromVDOT (thresholdVdot + 5)%float thresholdDistance) in
  (thresholdTime / (thresholdDistance / 1000))%float.

Definition calculateThresholdPaceFrom10K (time10KSeconds : number) : number :=
  let pace10K := (time10KSeconds / 10)%float in
  (pace10K * 1.05)%float.

Definition calculateEasyPace (vdot : number) : number :=
  let easyVdot := (vdot * 0.65)%float in
  let marathonTime :=
    of_Z (calculateTimeFromVDOT (easyVdot + 15)%float (DISTANCE_METERS D42K)) in
  (marathonTime / 42.195)%float.

Definition calculateEasyPaceFromThreshold (thresholdPace : number) : number :=
  (thresholdPace * 1.38)%float.

Definition calculateNSIntervalPaces (vdot : number) : IntervalPaces.t :=
  let pace15K := (of_Z (calculateTimeFromVDOT vdot 15000%float) / 15)%float in
  let paceHM :=
    (of_Z (calculateTimeFromVDOT vdot (DISTANCE_METERS D21K)) / 21.0975)%float in
  let pace30K := (of_Z (calculateTimeFromVDOT vdot 30000%float) / 30)%float in
  IntervalPaces.mk
    (PaceRange.mk (Math_floor (pace15K - 3)%float) (Math_floor (pace15K + 4)%float))
    (PaceRange.mk (Math_floor (paceHM - 3)%float) (Math_floor (paceHM + 4)%float))
    (PaceRange.mk (Math_floor (pace30K - 3)%float) (Math_floor (pace30K + 5)%float)).

Definition calculatePaces (vdot : number) : Paces.t :=
  let threshold := calculateThresholdPace vdot in
  let easy := calculateEasyPaceFromThreshold threshold in
  let intervals := calculateNSIntervalPaces vdot in
  Paces.mk (Math_round threshold) (Math_round easy) intervals.

Definition calculatePacesFrom10K (time10KSeconds : number) : Paces.t :=
  let threshold := calculateThresholdPaceFrom10K time10KSeconds in
  let easy := calculateEasyPaceFromThreshold threshold in
  let vdot := 56.9%float in
  let intervals := calculateNSIntervalPaces vdot in
  Paces.mk (Math_round threshold) (Math_round easy) intervals.

End HostPaces.

Module FormattedIntervals.
Record t := mk { short : string; medium : string; long : string }.
End FormattedIntervals.

Module FormattedPaces.
Record t := mk {
  threshold : string;
  easy : string;
  intervals : FormattedIntervals.t
}.
End FormattedPaces.

(** [formatPace] is called with its default unit, ['km']. *)
Definition getFormattedPaces (paces : Paces.t) : FormattedPaces.t :=
  let range (r : PaceRange.t) :=
    formatPace (PaceRange.min r) km ++ "–" ++ formatPace (PaceRange.max r) km in
  FormattedPaces.mk
    (formatPace (Paces.threshold paces) km)
    (formatPace (Paces.easy paces) km)
    (FormattedIntervals.mk
       (range (IntervalPaces.short (Paces.intervals paces)))
       (range (IntervalPaces.medium (Paces.intervals paces)))
       (range (IntervalPaces.long (Paces.intervals paces)))).

Definition validateOfficialExample : bool :=
  let time10K := (37 * 60)%float in
  let expectedThreshold := (3 * 60 + 50)%float in
  let expectedEasy := (5 * 60 + 18)%float in
  let threshold := calculateThresholdPaceFrom10K time10K in
  let easy := calculateEasyPaceFromThreshold threshold in
  let thresholdOk := (Math_abs (threshold - expectedThreshold) <=? 10)%float in
  let easyOk := (Math_abs (easy - expectedEasy) <=? 15)%float in
  thresholdOk && easyOk.

(** [NS_INTERVALS.byTime]: the duration label and the recovery of each
    interval type. *)
Definition NS_INTERVALS_byTime_duration (i : IntervalType.t) : string :=
  match i with
  | IntervalType.short => "3–4'"
  | IntervalType.medium => "6–8'"
  | IntervalType.long => "10–12'"
  end.

Definition NS_INTERVALS_byTime_recovery (i : IntervalType.t) : Z := 60.

(* ===================================================================== *)
(** ** [lib/plan-generator.ts]                                             *)
(* ===================================================================== *)

Inductive exn := Error (message : string) | TypeError (message : string).

Inductive result (A : Type) := Ok (a : A) | Throw (e : exn).
Arguments Ok {A} a.
Arguments Throw {A} e.

Definition WEEK_VOLUME_MULTIPLIERS : list number :=
  [1.0; 1.0; 1.0; 1.0; 1.0; 0.7]%float.

Module Durations.
Record t := mk { base : Z; max : Z; unload : Z }.
End Durations.

Definition EASY_RUN_DURATIONS (d : Distance) : Durations.t :=
  match d with
  | D5K => Durations.mk 45 45 30
  | D10K => Durations.mk 50 50 35
  | D21K => Durations.mk 60 60 40
  | D42K => Durations.mk 75 75 50
  end.

Definition LONG_RUN_DURATIONS (d : Distance) : Durations.t :=
  match d with
  | D5K => Durations.mk 70 70 45
  | D10K => Durations.mk 85 85 55
  | D21K => Durations.mk 105 105 70
  | D42K => Durations.mk 130 130 90
  end.

Module RepCounts.
Record t := mk { short : Z; medium : Z; long : Z }.
Definition get (c : t) (i : IntervalType.t) : Z :=
    match i with
    | IntervalType.short => short c
    | IntervalType.medium => medium c
    | IntervalType.long => long c
    end.
End RepCounts.

Definition INTERVAL_REPS_BY_DISTANCE (d : Distance) : list RepCounts.t :=
  match d with
  | D5K => replicate 5 (RepCounts.mk 10 5 3) ++ [RepCounts.mk 6 3 2]
  | D10K => replicate 5 (RepCounts.mk 12 6 3) ++ [RepCounts.mk 8 4 2]
  | D21K => replicate 5 (RepCounts.mk 12 6 4) ++ [RepCounts.mk 8 4 3]
  | D42K => replicate 5 (RepCounts.mk 14 8 5) ++ [RepCounts.mk 8 5 3]
  end.

Module SessionConfig.
Record t := mk { type : SessionType.t; intervalType : option IntervalType.t }.
End SessionConfig.

Definition BASE_WEEK_STRUCTURE : list SessionConfig.t :=
  [ SessionConfig.mk SessionType.easy None;                              (* Monday *)
    SessionConfig.mk SessionType.threshold (Some IntervalType.short);    (* Tuesday *)
    SessionConfig.mk SessionType.easy None;                              (* Wednesday *)
    SessionConfig.mk SessionType.threshold (Some IntervalType.medium);   (* Thursday *)
    SessionConfig.mk SessionType.easy None;                              (* Friday *)
    SessionConfig.mk SessionType.threshold (Some IntervalType.long);     (* Saturday *)
    SessionConfig.mk SessionType.long None ].                            (* Sunday *)

Definition removalPriority : list nat := [4; 0; 2; 5; 3]%nat.

(** [trainingDays] is an integer here, so [Math.floor] leaves it as it is. *)
Definition getWeekStructure (trainingDays : Z) : list SessionConfig.t :=
  let structure := BASE_WEEK_STRUCTURE in
  let targetDays := Z.max 3 (Z.min 7 trainingDays) in
  if targetDays =? 7 then structure
  else
    let daysToRemove := 7 - targetDays in
    let toRemove := take (Z.to_nat daysToRemove) removalPriority in
    fold_left
      (fun structure index =>
         if (index <? length structure)%nat
         then <[index := SessionConfig.mk SessionType.rest None]> structure
         else structure)
      toRemove structure.

Definition getEasyDuration (weekNumber : Z) (targetDistance : Distance) (_day : Z) : Z :=
  let config := EASY_RUN_DURATIONS targetDistance in
  if weekNumber =? 6 then Durations.unload config else Durations.base config.

Definition getLongDuration (weekNumber : Z) (targetDistance : Distance) : Z :=
  let config := LONG_RUN_DURATIONS targetDistance in
  if weekNumber =? 6 then Durations.unload config else Durations.base config.

(** [distanceConfig[weekNumber - 1] || distanceConfig[0]]. *)
Definition getIntervalReps (weekNumber : Z) (intervalType : IntervalType.t)
    (targetDistance : Distance) : Z :=
  let distanceConfig := INTERVAL_REPS_BY_DISTANCE targetDistance in
  let weekConfig :=
    match (if 0 <=? weekNumber - 1
           then distanceConfig !! Z.to_nat (weekNumber - 1) else None) with
    | Some c => c
    | None => default (RepCounts.mk 0 0 0) (distanceConfig !! 0%nat)
    end in
  RepCounts.get weekConfig intervalType.

Definition createSession (day : Z) (sessionConfig : SessionConfig.t)
    (paces : Paces.t) (weekNumber : Z) (targetDistance : Distance)
    (_isTestWeek : bool) (unit : Unit) : TrainingSession.t :=
  let type := SessionConfig.type sessionConfig in
  let intervalType := SessionConfig.intervalType sessionConfig in
  let unitLabel := match unit with km => "km" | mile => "mi" end in
  match type with
  | SessionType.easy =>
      let duration := getEasyDuration weekNumber targetDistance day in
      TrainingSession.mk day type "Easy Run"
        (Z_toString duration ++ " min @ easy pace")
        (Some duration) None
        (Some (SessionPaces.mk (Paces.easy paces) None)) None
  | SessionType.threshold =>
      let interval := default IntervalType.short intervalType in
      let paceRange :=
        match interval with
        | IntervalType.short => IntervalPaces.short (Paces.intervals paces)
        | IntervalType.medium => IntervalPaces.medium (Paces.intervals paces)
        | IntervalType.long => IntervalPaces.long (Paces.intervals paces)
        end in
      let reps := getIntervalReps weekNumber interval targetDistance in
      let intervalName :=
        match interval with
        | IntervalType.short => "Short"
        | IntervalType.medium => "Medium"
        | IntervalType.long => "Long"
        end in
      TrainingSession.mk day type ("NS " ++ intervalName ++ " Sub-T")
        (Z_toString reps ++ " Ã— " ++ NS_INTERVALS_byTime_duration interval
           ++ " @ " ++ formatPace (PaceRange.min paceRange) unit
           ++ "-" ++ formatPace (PaceRange.max paceRange) unit
           ++ "/" ++ unitLabel ++ " (60s rec)")
        None
        (Some (IntervalSession.mk interval (Reps.mk reps reps)
                 (NS_INTERVALS_byTime_duration interval) paceRange
                 (NS_INTERVALS_byTime_recovery interval)))
        (Some (SessionPaces.mk
                 (Math_round ((PaceRange.min paceRange + PaceRange.max paceRange) / 2)%float)
                 (Some paceRange)))
        None
  | SessionType.long =>
      let duration := getLongDuration weekNumber targetDistance in
      TrainingSession.mk day type "Long Run"
        (Z_toString duration ++ " min @ easy pace")
        (Some duration) None
        (Some (SessionPaces.mk (Paces.easy paces) None)) None
  | SessionType.test =>
      TrainingSession.mk day type "Test Day" "Time trial 5K or 10K - max effort"
        None None None None
  | SessionType.race =>
      TrainingSession.mk day type "Race Day" "Race" None None None None
  | SessionType.rest =>
      TrainingSession.mk day type "Rest" "Active recovery or complete rest"
        None None None None
  end.

Definition calculateWeekVolume (_weekNumber : Z)
    (sessions : list TrainingSession.t) : number :=
  let totalMinutes :=
    fold_left
      (fun (totalMinutes : number) session =>
         match TrainingSession.type session with
         | SessionType.easy | SessionType.long =>
             (totalMinutes + of_Z (default 0%Z (TrainingSession.duration session)))%float
         | SessionType.threshold =>
             match TrainingSession.intervals session with
             | Some intervals =>
                 let workMinutes :=
                   (of_Z (Reps.min (IntervalSession.reps intervals))
                    * match IntervalSession.type intervals with
                      | IntervalType.short => 3.5
                      | IntervalType.medium => 7
                      | IntervalType.long => 11
                      end)%float in
                 (totalMinutes + (15 + workMinutes + 10))%float
             | None => totalMinutes
             end
         | _ => totalMinutes
         end)
      sessions 0%float in
  Math_round (totalMinutes / 5.5)%float.

Definition generateWeekPlan (weekNumber trainingDays : Z) (paces : Paces.t)
    (targetDistance : Distance) (unit : Unit) : WeekPlan.t :=
  let isTestWeek := weekNumber =? 6 in
  let structure := getWeekStructure trainingDays in
  let sessions :=
    imap
      (fun index config =>
         if isTestWeek && (index =? 5)%nat
         then createSession (Z.of_nat index + 1)
                (SessionConfig.mk SessionType.test None)
                paces weekNumber targetDistance true unit
         else createSession (Z.of_nat index + 1) config
                paces weekNumber targetDistance isTestWeek unit)
      structure in
  let totalVolume := calculateWeekVolume weekNumber sessions in
  WeekPlan.mk weekNumber isTestWeek isTestWeek sessions (Some totalVolume).

(** [input.unit] may be absent; the parameter of [generateWeekPlan] then
    takes its default, ['km']. *)
Definition generateTrainingBlock (blockNumber : Z) (input : UserInput.t)
    (vdot : number) (paces : Paces.t) : TrainingBlock.t :=
  let weeks :=
    map (fun week =>
           generateWeekPlan week (UserInput.trainingDays input) paces
             (UserInput.targetDistance input)
             (default km (UserInput.unit input)))
        [1; 2; 3; 4; 5; 6] in
  TrainingBlock.mk blockNumber weeks None None vdot paces.

(** The session written on the race day. *)
Definition raceSession (race : Race.t) (raceDay : Z) : TrainingSession.t :=
  TrainingSession.mk raceDay SessionType.race
    ("Race Day: " ++ Race.name race)
    (Distance_label (Race.distance race) ++ " race - "
       ++ match Race.type race with A => "Priority" | B => "Tune-up" end)
    None None None (Some race).

(** What the taper loop writes over a session of the taper window; a
    session that is neither a threshold nor a long run stays as it is. *)
Definition taperSession (session : TrainingSession.t) : TrainingSession.t :=
  match TrainingSession.type session with
  | SessionType.threshold =>
      TrainingSession.mk
        (TrainingSession.day session) (TrainingSession.type session)
        "NS Intervals (Taper)" "Reduced volume - maintain intensity"
        (TrainingSession.duration session) (TrainingSession.intervals session)
        (TrainingSession.paces session) (TrainingSession.race session)
  | SessionType.long =>
      TrainingSession.mk
        (TrainingSession.day session) SessionType.easy
        "Easy Run (Taper)" "40 min @ easy pace"
        (Some 40) (TrainingSession.intervals session)
        (TrainingSession.paces session) (TrainingSession.race session)
  | _ => session
  end.

(** The inner loop [while (currentDay >= 0 && daysToTaper > 0)] over the
    sessions of [week].  It runs at most [currentDay + 1] times; [n] is
    that bound, so the loop condition is false when [n] reaches [0].
    Reading [session.type] past the end of the array throws. *)
Fixpoint taperDays_loop (n : nat) (sessions : list TrainingSession.t)
    (currentDay daysToTaper : Z)
  : result (list TrainingSession.t * Z * Z) :=
  match n with
  | O => Ok (sessions, currentDay, daysToTaper)
  | S n' =>
      if (0 <=? currentDay) && (0 <? daysToTaper) then
        match sessions !! Z.to_nat currentDay with
        | None =>
            Throw (TypeError "Cannot read properties of undefined (reading 'type')")
        | Some session =>
            taperDays_loop n'
              (<[Z.to_nat currentDay := taperSession session]> sessions)
              (currentDay - 1) (daysToTaper - 1)
        end
      else Ok (sessions, currentDay, daysToTaper)
  end.

(** The outer loop [while (daysToTaper > 0 && currentWeek >= 0)].  The
    inner loop always reads and writes [week.sessions], the sessions of the
    race week, whatever [currentWeek] is.  [None] says that [fuel]
    iterations were not enough. *)
Fixpoint taperWeeks_loop (fuel : nat) (sessions : list TrainingSession.t)
    (daysToTaper currentWeek currentDay : Z)
  : option (result (list TrainingSession.t)) :=
  if (0 <? daysToTaper) && (0 <=? currentWeek) then
    match fuel with
    | O => None
    | S fuel' =>
        match taperDays_loop (Z.to_nat (currentDay + 1)) sessions
                currentDay daysToTaper with
        | Throw e => Some (Throw e)
        | Ok (sessions', currentDay', daysToTaper') =>
            if (0 <? daysToTaper') && (0 <? currentWeek)
            then taperWeeks_loop fuel' sessions' daysToTaper' (currentWeek - 1) 6
            else taperWeeks_loop fuel' sessions' daysToTaper' currentWeek currentDay'
        end
    end
  else Some (Ok sessions).

(** [raceWeek] and [raceDay] are integers.  [fuel] bounds the iterations
    of the outer taper loop: the result is [None] when they do not
    suffice. *)
Definition applyRaceTapering (fuel : nat) (block : TrainingBlock.t)
    (race : Race.t) (raceWeek raceDay : Z)
  : option (result TrainingBlock.t) :=
  let taperDays := match Race.type race with A => 7 | B => 3 end in
  let weekIndex := raceWeek - 1 in
  if (weekIndex <? 0)
     || (Z.of_nat (length (TrainingBlock.weeks block)) <=? weekIndex)
  then Some (Ok block)
  else
    match TrainingBlock.weeks block !! Z.to_nat weekIndex with
    | None =>
        Some (Throw (TypeError "Cannot read properties of undefined (reading 'sessions')"))
    | Some week0 =>
        let dayIndex := raceDay - 1 in
        let sessions0 := WeekPlan.sessions week0 in
        let sessions1 :=
          if (0 <=? dayIndex) && (dayIndex <? Z.of_nat (length sessions0))
          then <[Z.to_nat dayIndex := raceSession race raceDay]> sessions0
          else sessions0 in
        match taperWeeks_loop fuel sessions1 taperDays weekIndex (dayIndex - 1) with
        | None => None
        | Some (Throw e) => Some (Throw e)
        | Some (Ok sessions) =>
            let week :=
              WeekPlan.mk (WeekPlan.weekNumber week0) (WeekPlan.isTestWeek week0)
                (WeekPlan.isRecoveryWeek week0) sessions
                (WeekPlan.totalVolume week0) in
            Some (Ok (TrainingBlock.mk
                        (TrainingBlock.blockNumber block)
                        (<[Z.to_nat weekIndex := week]> (TrainingBlock.weeks block))
                        (TrainingBlock.startDate block)
                        (TrainingBlock.endDate block)
                        (TrainingBlock.vdot block)
                        (TrainingBlock.paces block)))
        end
    end.

(** The helper of [createTrainingPlan]: total seconds, or [null]. *)
Definition parseTimeString (timeStr : string) : option number :=
  let parts := map Number (split ":" timeStr) in
  if existsb isNaN parts then None
  else
    match parts with
    | [p0; p1] => Some (p0 * 60 + p1)%float
    | [p0; p1; p2] => Some (p0 * 3600 + p1 * 60 + p2)%float
    | _ => None
    end.

(** [if (input.time10K)]: an absent or empty string is falsy. *)
Definition given (field : option string) : option string :=
  match field with
  | Some s => if nonempty s then Some s else None
  | None => None
  end.

(** [WEEK_VOLUME_MULTIPLIERS[weekNumber - 1] * 100]: an index outside the
    array reads [undefined], and [undefined * 100] is [NaN]. *)
Definition getWeekLoadPercentage (weekNumber : Z) : number :=
  let multiplier :=
    if 0 <=? weekNumber - 1
    then WEEK_VOLUME_MULTIPLIERS !! Z.to_nat (weekNumber - 1) else None in
  Math_round (default nan multiplier * 100)%float.

Section HostPlan.
Context {host : HostMath}.

(** [if (input.time10K)] holds for a present, non-empty string;
    [if (parsed)] is false for [null], [0], [-0] and [NaN]. *)
Definition createTrainingPlan (input : UserInput.t) : result TrainingBlock.t :=
  let vdot :=
    match given (UserInput.time10K input) with
    | Some time10K =>
        match parseTimeString time10K with
        | Some parsed =>
            if truthy parsed
            then Ok (calculateVDOT (DISTANCE_METERS D10K) parsed)
            else Throw (Error "Invalid 10K time format")
        | None => Throw (Error "Invalid 10K time format")
        end
    | None =>
        match given (UserInput.time5K input) with
        | Some time5K =>
            match parseTimeString time5K with
            | Some parsed =>
                if truthy parsed
                then Ok (calculateVDOT (DISTANCE_METERS D5K) parsed)
                else Throw (Error "Invalid 5K time format")
            | None => Throw (Error "Invalid 5K time format")
            end
        | None => Throw (Error "At least one race time is required")
        end
    end in
  match vdot with
  | Throw e => Throw e
  | Ok vdot =>
      let paces := calculatePaces vdot in
      let block := generateTrainingBlock 1 input vdot paces in
      Ok block
  end.

End HostPlan.

(* ===================================================================== *)
(** ** [lib/plan-generator.ts], the earlier revision                       *)
(* ===================================================================== *)

(** The revision of the plan generator with progressive weekly volume.
    Its [calculateWeekVolume], [applyRaceTapering], [parseTimeString] and
    [BASE_WEEK_STRUCTURE] are those above; its tables, its week structure,
    its durations and its sessions differ. *)
Module Earlier.

Definition WEEK_VOLUME_MULTIPLIERS : list number :=
  [0.80; 0.90; 1.00; 0.95; 1.00; 0.60]%float.

Definition EASY_RUN_DURATIONS (d : Distance) : Durations.t :=
  match d with
  | D5K => Durations.mk 30 45 25
  | D10K => Durations.mk 35 50 30
  | D21K => Durations.mk 45 60 35
  | D42K => Durations.mk 50 70 40
  end.

Definition LONG_RUN_DURATIONS (d : Distance) : Durations.t :=
  match d with
  | D5K => Durations.mk 50 70 40
  | D10K => Durations.mk 60 85 45
  | D21K => Durations.mk 75 110 55
  | D42K => Durations.mk 90 140 65
  end.

Definition INTERVAL_REPS_BY_DISTANCE (d : Distance) : list RepCounts.t :=
  match d with
  | D5K =>
      [ RepCounts.mk 10 4 3; RepCounts.mk 12 5 3; RepCounts.mk 14 6 3;
        RepCounts.mk 12 5 3; RepCounts.mk 14 6 3; RepCounts.mk 8 3 2 ]
  | D10K =>
      [ RepCounts.mk 8 5 3; RepCounts.mk 10 6 3; RepCounts.mk 12 6 3;
        RepCounts.mk 10 6 3; RepCounts.mk 12 6 3; RepCounts.mk 6 4 2 ]
  | D21K =>
      [ RepCounts.mk 6 5 3; RepCounts.mk 8 6 3; RepCounts.mk 10 6 3;
        RepCounts.mk 8 6 3; RepCounts.mk 10 6 3; RepCounts.mk 6 4 3 ]
  | D42K =>
      [ RepCounts.mk 6 5 4; RepCounts.mk 8 6 4; RepCounts.mk 10 6 4;
        RepCounts.mk 8 6 4; RepCounts.mk 10 6 4; RepCounts.mk 6 4 3 ]
  end.

(** [array.slice(start)] for an integer [start]: a negative one counts from
    the end. *)
Definition slice_from {A : Type} (start : Z) (l : list A) : list A :=
  let len := Z.of_nat (length l) in
  drop (Z.to_nat (if start <? 0 then Z.max (len + start) 0 else Z.min start len)) l.

(** [array.sort((a, b) => b - a)]. *)
Fixpoint insert_descending (x : nat) (l : list nat) : list nat :=
  match l with
  | [] => [x]
  | y :: l' => if (y <=? x)%nat then x :: l else y :: insert_descending x l'
  end.

Definition sort_descending (l : list nat) : list nat :=
  foldr insert_descending [] l.

Definition easyDayIndices : list nat := [0; 2; 4]%nat.

Definition getWeekStructure (trainingDays : Z) : list SessionConfig.t :=
  if 7 <=? trainingDays then BASE_WEEK_STRUCTURE
  else
    let structure := BASE_WEEK_STRUCTURE in
    let daysToRemove := 7 - trainingDays in
    let indicesToRemove := sort_descending (slice_from (- daysToRemove) easyDayIndices) in
    fold_left
      (fun structure index =>
         if (index <? length structure)%nat
         then <[index := SessionConfig.mk SessionType.rest None]> structure
         else structure)
      indicesToRemove structure.

(** [progressionSteps[weekNumber - 1] || config.base]: the base duration
    stands in for an index outside the steps and for a step of [0]. *)
Definition step_or_base (progressionSteps : list Z) (weekNumber base : Z) : Z :=
  match (if 0 <=? weekNumber - 1
         then progressionSteps !! Z.to_nat (weekNumber - 1) else None) with
  | Some minutes => if minutes =? 0 then base else minutes
  | None => base
  end.

Definition getEasyDuration (weekNumber : Z) (targetDistance : Distance) : Z :=
  let config := EASY_RUN_DURATIONS targetDistance in
  if weekNumber =? 6 then Durations.unload config
  else
    let progressionSteps :=
      [ Durations.base config; Durations.base config + 5; Durations.max config;
        Durations.max config - 5; Durations.max config; Durations.unload config ] in
    step_or_base progressionSteps weekNumber (Durations.base config).

Definition getLongDuration (weekNumber : Z) (targetDistance : Distance) : Z :=
  let config := LONG_RUN_DURATIONS targetDistance in
  if weekNumber =? 6 then Durations.unload config
  else
    let progressionSteps :=
      [ Durations.base config; Durations.base config + 10; Durations.max config;
        Durations.max config - 10; Durations.max config; Durations.unload config ] in
    step_or_base progressionSteps weekNumber (Durations.base config).

Definition getIntervalReps (weekNumber : Z) (intervalType : IntervalType.t)
    (targetDistance : Distance) : Z :=
  let distanceConfig := INTERVAL_REPS_BY_DISTANCE targetDistance in
  let weekConfig :=
    match (if 0 <=? weekNumber - 1
           then distanceConfig !! Z.to_nat (weekNumber - 1) else None) with
    | Some c => c
    | None => default (RepCounts.mk 0 0 0) (distanceConfig !! 0%nat)
    end in
  RepCounts.get weekConfig intervalType.

(** [formatPace] is called without a unit and takes its default, ['km']. *)
Definition createSession (day : Z) (sessionConfig : SessionConfig.t)
    (paces : Paces.t) (weekNumber : Z) (targetDistance : Distance)
    (_isTestWeek : bool) : TrainingSession.t :=
  let type := SessionConfig.type sessionConfig in
  let intervalType := SessionConfig.intervalType sessionConfig in
  match type with
  | SessionType.easy =>
      let duration := getEasyDuration weekNumber targetDistance in
      TrainingSession.mk day type "Easy Run"
        (Z_toString duration ++ " min @ easy pace")
        (Some duration) None
        (Some (SessionPaces.mk (Paces.easy paces) None)) None
  | SessionType.threshold =>
      let interval := default IntervalType.short intervalType in
      let paceRange :=
        match interval with
        | IntervalType.short => IntervalPaces.short (Paces.intervals paces)
        | IntervalType.medium => IntervalPaces.medium (Paces.intervals paces)
        | IntervalType.long => IntervalPaces.long (Paces.intervals paces)
        end in
      let reps := getIntervalReps weekNumber interval targetDistance in
      let intervalName :=
        match interval with
        | IntervalType.short => "Short"
        | IntervalType.medium => "Medium"
        | IntervalType.long => "Long"
        end in
      TrainingSession.mk day type ("NS " ++ intervalName ++ " Intervals")
        (Z_toString reps ++ " Ã— " ++ NS_INTERVALS_byTime_duration interval
           ++ " @ " ++ formatPace (PaceRange.min paceRange) km
           ++ "-" ++ formatPace (PaceRange.max paceRange) km
           ++ "/km (60s rec)")
        None
        (Some (IntervalSession.mk interval (Reps.mk reps reps)
                 (NS_INTERVALS_byTime_duration interval) paceRange
                 (NS_INTERVALS_byTime_recovery interval)))
        (Some (SessionPaces.mk
                 (Math_round ((PaceRange.min paceRange + PaceRange.max paceRange) / 2)%float)
                 (Some paceRange)))
        None
  | SessionType.long =>
      let duration := getLongDuration weekNumber targetDistance in
      TrainingSession.mk day type "Long Run"
        (Z_toString duration ++ " min @ easy pace")
        (Some duration) None
        (Some (SessionPaces.mk (Paces.easy paces) None)) None
  | SessionType.test =>
      TrainingSession.mk day type "Test Day" "Time trial 5K or 10K - max effort"
        None None None None
  | SessionType.race =>
      TrainingSession.mk day type "Race Day" "Race" None None None None
  | SessionType.rest =>
      TrainingSession.mk day type "Rest" "Active recovery or complete rest"
        None None None None
  end.

(** In the test week the Saturday session becomes the test if it is a
    threshold session. *)
Definition generateWeekPlan (weekNumber trainingDays : Z) (paces : Paces.t)
    (targetDistance : Distance) : WeekPlan.t :=
  let isTestWeek := weekNumber =? 6 in
  let structure := getWeekStructure trainingDays in
  let sessions :=
    imap
      (fun index config =>
         if isTestWeek && (index =? 5)%nat
            && match SessionConfig.type config with
               | SessionType.threshold => true
               | _ => false
               end
         then createSession (Z.of_nat index + 1)
                (SessionConfig.mk SessionType.test None)
                paces weekNumber targetDistance true
         else createSession (Z.of_nat index + 1) config
                paces weekNumber targetDistance isTestWeek)
      structure in
  let totalVolume := calculateWeekVolume weekNumber sessions in
  WeekPlan.mk weekNumber isTestWeek isTestWeek sessions (Some totalVolume).

Definition generateTrainingBlock (blockNumber : Z) (input : UserInput.t)
    (vdot : number) (paces : Paces.t) : TrainingBlock.t :=
  let weeks :=
    map (fun week =>
           generateWeekPlan week (UserInput.trainingDays input) paces
             (UserInput.targetDistance input))
        [1; 2; 3; 4; 5; 6] in
  TrainingBlock.mk blockNumber weeks None None vdot paces.

Definition getWeekLoadPercentage (weekNumber : Z) : number :=
  let multiplier :=
    if 0 <=? weekNumber - 1
    then WEEK_VOLUME_MULTIPLIERS !! Z.to_nat (weekNumber - 1) else None in
  Math_round (default nan multiplier * 100)%float.

End Earlier.

(* ===================================================================== *)
(** ** [i18n/ui.ts]                                                        *)
(* ===================================================================== *)

Module I18n.

Definition defaultLocale : Locale.t := Locale.es.

Definition locales : list Locale.t := [Locale.es; Locale.en].

(** A locale as the string it is in the program. *)
Definition Locale_string (locale : Locale.t) : string :=
  match locale with Locale.es => "es" | Locale.en => "en" end.

Definition Locale_eqb (a b : Locale.t) : bool :=
  match a, b with
  | Locale.es, Locale.es | Locale.en, Locale.en => true
  | _, _ => false
  end.

(** The translations of a locale, in the order of the source. *)
Definition ui_es : list (string * string) :=
  [ ("nav.home", "Inicio");
    ("nav.plan", "Mi Plan");
    ("nav.method", "El Método");
    ("hero.title", "Entrena como los");
    ("hero.titleAccent", "Noruegos");
    ("hero.subtitle", "Planificación de entrenamiento basada en el método Norwegian Singles. Ritmos conservadores, descansos cortos, resultados excepcionales.");
    ("hero.cta", "Crear mi plan");
    ("form.title", "Configura tu entrenamiento");
    ("form.targetDistance", "Distancia objetivo");
    ("form.time5K", "Marca actual 5K");
    ("form.time10K", "Marca actual 10K");
    ("form.timePlaceholder", "mm:ss");
    ("form.timeHint", "Si solo introduces una, estimaremos la otra");
    ("form.trainingDays", "Días de entrenamiento");
    ("form.trainingDaysHint", "Recomendamos 5-6 días para resultados óptimos");
    ("form.submit", "Generar plan");
    ("form.validation.required", "Introduce al menos una marca");
    ("form.validation.format", "Formato inválido (usa mm:ss)");
    ("distance.5K", "5K");
    ("distance.10K", "10K");
    ("distance.21K", "Media Maratón");
    ("distance.42K", "Maratón");
    ("session.easy", "Fácil");
    ("session.threshold", "Umbral");
    ("session.long", "Tirada Larga");
    ("session.test", "Test");
    ("session.rest", "Descanso");
    ("session.race", "Carrera");
    ("pace.threshold", "Umbral");
    ("pace.easy", "Fácil");
    ("pace.unit", "min/km");
    ("pace.intervals.short", "Cortos (3-4')");
    ("pace.intervals.medium", "Medios (6-8')");
    ("pace.intervals.long", "Largos (10-12')");
    ("plan.title", "Tu Plan de Entrenamiento");
    ("plan.week", "Semana");
    ("plan.block", "Bloque");
    ("plan.testWeek", "Semana de Test");
    ("plan.paces", "Tus Ritmos");
    ("plan.intervals", "Intervalos NS");
    ("plan.addRace", "Añadir carrera");
    ("plan.recalculate", "Recalcular");
    ("day.monday", "Lunes");
    ("day.tuesday", "Martes");
    ("day.wednesday", "Miércoles");
    ("day.thursday", "Jueves");
    ("day.friday", "Viernes");
    ("day.saturday", "Sábado");
    ("day.sunday", "Domingo");
    ("day.mon", "Lun");
    ("day.tue", "Mar");
    ("day.wed", "Mié");
    ("day.thu", "Jue");
    ("day.fri", "Vie");
    ("day.sat", "Sáb");
    ("day.sun", "Dom");
    ("race.title", "Carreras");
    ("race.add", "Añadir carrera");
    ("race.name", "Nombre");
    ("race.date", "Fecha");
    ("race.type", "Tipo");
    ("race.typeA", "Carrera A (prioritaria)");
    ("race.typeB", "Carrera B (secundaria)");
    ("race.remove", "Eliminar");
    ("intervals.type", "Tipo");
    ("intervals.structure", "Estructura");
    ("intervals.pace", "Ritmo objetivo");
    ("intervals.recovery", "Recuperación");
    ("intervals.byTime", "Por tiempo");
    ("intervals.byDistance", "Por distancia");
    ("method.title", "El Método Norwegian Singles");
    ("method.principle1.title", "El umbral manda");
    ("method.principle1.desc", "El trabajo de calidad representa el 20-25% del volumen semanal. El resto es rodaje fácil.");
    ("method.principle2.title", "Nunca al fallo");
    ("method.principle2.desc", "Ritmos conservadores y sostenibles. Podrías hacer más, pero no lo haces.");
    ("method.principle3.title", "Descansos cortos");
    ("method.principle3.desc", "60 segundos de recuperación para mantener el estado de lactato elevado.");
    ("method.principle4.title", "Sistema repetible");
    ("method.principle4.desc", "Bloques de 6 semanas con test y recalibración. La consistencia gana.");
    ("footer.credit", "Basado en el método de entrenamiento Norwegian Singles");
    ("footer.disclaimer", "Esta aplicación es una herramienta de planificación. Consulta con un profesional antes de iniciar cualquier programa de entrenamiento.");
    ("footer.dev", "Desarrollado por");
    ("loading", "Cargando...");
    ("error", "Error");
    ("save", "Guardar");
    ("cancel", "Cancelar");
    ("edit", "Editar");
    ("delete", "Eliminar") ].

Definition ui_en : list (string * string) :=
  [ ("nav.home", "Home");
    ("nav.plan", "My Plan");
    ("nav.method", "The Method");
    ("hero.title", "Train like the");
    ("hero.titleAccent", "Norwegians");
    ("hero.subtitle", "Training planning based on the Norwegian Singles method. Conservative paces, short recoveries, exceptional results.");
    ("hero.cta", "Create my plan");
    ("form.title", "Configure your training");
    ("form.targetDistance", "Target distance");
    ("form.time5K", "Current 5K time");
    ("form.time10K", "Current 10K time");
    ("form.timePlaceholder", "mm:ss");
    ("form.timeHint", "If you only enter one, we'll estimate the other");
    ("form.trainingDays", "Training days");
    ("form.trainingDaysHint", "We recommend 5-6 days for optimal results");
    ("form.submit", "Generate plan");
    ("form.validation.required", "Enter at least one time");
    ("form.validation.format", "Invalid format (use mm:ss)");
    ("distance.5K", "5K");
    ("distance.10K", "10K");
    ("distance.21K", "Half Marathon");
    ("distance.42K", "Marathon");
    ("session.easy", "Easy");
    ("session.threshold", "Threshold");
    ("session.long", "Long Run");
    ("session.test", "Test");
    ("session.rest", "Rest");
    ("session.race", "Race");
    ("pace.threshold", "Threshold");
    ("pace.easy", "Easy");
    ("pace.unit", "min/km");
    ("pace.intervals.short", "Short (3-4')");
    ("pace.intervals.medium", "Medium (6-8')");
    ("pace.intervals.long", "Long (10-12')");
    ("plan.title", "Your Training Plan");
    ("plan.week", "Week");
    ("plan.block", "Block");
    ("plan.testWeek", "Test Week");
    ("plan.paces", "Your Paces");
    ("plan.intervals", "NS Intervals");
    ("plan.addRace", "Add race");
    ("plan.recalculate", "Recalculate");
    ("day.monday", "Monday");
    ("day.tuesday", "Tuesday");
    ("day.wednesday", "Wednesday");
    ("day.thursday", "Thursday");
    ("day.friday", "Friday");
    ("day.saturday", "Saturday");
    ("day.sunday", "Sunday");
    ("day.mon", "Mon");
    ("day.tue", "Tue");
    ("day.wed", "Wed");
    ("day.thu", "Thu");
    ("day.fri", "Fri");
    ("day.sat", "Sat");
    ("day.sun", "Sun");
    ("race.title", "Races");
    ("race.add", "Add race");
    ("race.name", "Name");
    ("race.date", "Date");
    ("race.type", "Type");
    ("race.typeA", "Race A (priority)");
    ("race.typeB", "Race B (secondary)");
    ("race.remove", "Remove");
    ("intervals.type", "Type");
    ("intervals.structure", "Structure");
    ("intervals.pace", "Target pace");
    ("intervals.recovery", "Recovery");
    ("intervals.byTime", "By time");
    ("intervals.byDistance", "By distance");
    ("method.title", "The Norwegian Singles Method");
    ("method.principle1.title", "Threshold rules");
    ("method.principle1.desc", "Quality work represents 20-25% of weekly volume. The rest is easy running.");
    ("method.principle2.title", "Never to failure");
    ("method.principle2.desc", "Conservative and sustainable paces. You could do more, but you don't.");
    ("method.principle3.title", "Short recoveries");
    ("method.principle3.desc", "60 seconds recovery to maintain elevated lactate state.");
    ("method.principle4.title", "Repeatable system");
    ("method.principle4.desc", "6-week blocks with test and recalibration. Consistency wins.");
    ("footer.credit", "Based on the Norwegian Singles training method");
    ("footer.disclaimer", "This app is a planning tool. Consult a professional before starting any training program.");
    ("footer.dev", "Built by");
    ("loading", "Loading...");
    ("error", "Error");
    ("save", "Save");
    ("cancel", "Cancel");
    ("edit", "Edit");
    ("delete", "Delete") ].

Definition ui (locale : Locale.t) : list (string * string) :=
  match locale with Locale.es => ui_es | Locale.en => ui_en end.

(** [dictionary[key]], for the keys of the dictionaries. *)
Definition entry (dictionary : list (string * string)) (key : string)
  : option string :=
  snd <$> List.find (fun kv => String.eqb (fst kv) key) dictionary.

(** [a || b] on an optional string: [undefined] and the empty string are
    falsy. *)
Definition or_else (a : option string) (b : string) : string :=
  match a with
  | Some v => if nonempty v then v else b
  | None => b
  end.

(** [ui[locale][key] || ui[defaultLocale][key] || key], for a [key] of type
    [TranslationKey]. *)
Definition t (locale : Locale.t) (key : string) : string :=
  or_else (entry (ui locale) key) (or_else (entry (ui defaultLocale) key) key).

Definition getTranslations (locale : Locale.t) : list (string * string) :=
  ui locale.

Definition useTranslations (locale : Locale.t) : string -> string :=
  fun key => t locale key.

(** [array.join(sep)]. *)
Fixpoint join (sep : string) (parts : list string) : string :=
  match parts with
  | [] => ""
  | [p] => p
  | p :: ps => p ++ sep ++ join sep ps
  end.

(** [locales.includes(segment)], with the locale that [segment] is. *)
Definition locale_of (segment : string) : option Locale.t :=
  List.find (fun locale => String.eqb (Locale_string locale) segment) locales.

(** [path.split('/').filter(Boolean)]. *)
Definition path_segments (path : string) : list string :=
  List.filter nonempty (split "/" path).

Definition getLocaleFromPath (path : string) : Locale.t :=
  let segments := path_segments path in
  match segments with
  | firstSegment :: _ => default defaultLocale (locale_of firstSegment)
  | [] => defaultLocale
  end.

Definition getPathInLocale (path : string) (targetLocale : Locale.t) : string :=
  let currentLocale := getLocaleFromPath path in
  if Locale_eqb currentLocale targetLocale then path
  else
    let segments := path_segments path in
    let segments :=
      match segments with
      | first :: rest =>
          match locale_of first with
          | Some _ => Locale_string targetLocale :: rest
          | None => Locale_string targetLocale :: segments
          end
      | [] => [Locale_string targetLocale]
      end in
    "/" ++ join "/" segments.

End I18n.

(* ===================================================================== *)
(** ** A concrete host                                                     *)
(* ===================================================================== *)

(** [Math.exp] as V8 computes it: the algorithm of fdlibm's [e_exp.c]
    (argument reduction by multiples of [ln 2], a degree-5 polynomial on the
    reduced argument, scaling by [2^k]). *)

(** The conversion of a number to a C [int] (truncation), for the numbers
    of magnitude below [2^53]: the 53-bit mantissa shifted down by what the
    exponent leaves of it. *)
Definition trunc_Z (x : number) : Z :=
  let a := abs x in
  if (1 <=? a)%float && (a <? 9007199254740992)%float then
    let '(m, e) := frshiftexp a in
    let n := Uint63.to_Z
               (PrimInt63.lsr (normfr_mantissa m)
                  (PrimInt63.sub (Uint63.of_Z 2154) e)) in
    if (x <? 0)%float then - n else n
  else 0.

Definition pow2 (k : Z) : number := Z.ldexp 1%float k.

Local Open Scope float_scope.

Definition fdlibm_exp_poly (x hi lo : number) (k : Z) : number :=
  let P1 := 1.66666666666666019037e-01 in
  let P2 := (-2.77777777770155933842e-03) in
  let P3 := 6.61375632143793436117e-05 in
  let P4 := (-1.65339022054652515390e-06) in
  let P5 := 4.13813679705723846039e-08 in
  let twom1000 := 9.33263618503218878990e-302 in
  let two1023 := 8.988465674311579539e307 in
  let t := x * x in
  let c := x - t * (P1 + t * (P2 + t * (P3 + t * (P4 + t * P5)))) in
  if (k =? 0)%Z then 1 - ((x * c) / (c - 2) - x)
  else
    let y := 1 - ((lo - (x * c) / (2 - c)) - hi) in
    if (-1021 <=? k)%Z then
      if (k =? 1024)%Z then y * 2 * two1023 else y * pow2 k
    else y * pow2 (k + 1000) * twom1000.

(** The tests that [e_exp.c] makes on the high word of [|x|] are written
    as comparisons of [|x|] with the number of that high word (and a zero
    low word): the order of the bit patterns is the order of the numbers. *)
Definition fdlibm_exp (x : number) : number :=
  let o_threshold := 7.09782712893383973096e+02 in
  let u_threshold := (-7.45133219101941108420e+02) in
  let ln2HI := 6.93147180369123816490e-01 in
  let ln2LO := 1.90821492927058770002e-10 in
  let invln2 := 1.44269504088896338700e+00 in
  let E := 2.718281828459045 in
  let ax := abs x in
  let xsb := get_sign x in
  if is_nan x then x + x
  else if is_infinity x then (if xsb then 0 else x)
  else if (0x1.62e42p+9 <=? ax) && (o_threshold <? x) then infinity
  else if (0x1.62e42p+9 <=? ax) && (x <? u_threshold) then 0
  else if (0x1.62e43p-2 <=? ax) then            (* hx > 0x3fd62e42 *)
    if (ax <? 0x1.0a2b2p+0) then                (* hx < 0x3ff0a2b2 *)
      if x =? 1 then E
      else
        let hi := if xsb then x + ln2HI else x - ln2HI in
        let lo := if xsb then - ln2LO else ln2LO in
        let k := if xsb then (-1)%Z else 1%Z in
        fdlibm_exp_poly (hi - lo) hi lo k
    else
      let k := trunc_Z (invln2 * x + (if xsb then -0.5 else 0.5)) in
      let t := of_Z k in
      let hi := x - t * ln2HI in
      let lo := t * ln2LO in
      fdlibm_exp_poly (hi - lo) hi lo k
  else if (ax <? 0x1p-28) then 1 + x            (* hx < 0x3e300000 *)
  else fdlibm_exp_poly x 0 0 0%Z.

Definition fdlibm_host : HostMath := {| Math_exp := fdlibm_exp |}.

Local Close Scope float_scope.

(* ===================================================================== *)
(** ** Vocabulary of the statements                                        *)
(* ===================================================================== *)

(** The fields a time string denotes, by position: [mm:ss] or [h:mm:ss]. *)
Definition timeFields (timeStr : string) : option (number * number * number) :=
  match map Number (split ":" timeStr) with
  | [minutes; seconds] => Some (0%float, minutes, seconds)
  | [hours; minutes; seconds] => Some (hours, minutes, seconds)
  | _ => None
  end.

(** A field outside its range: minutes or seconds of 60 or more, or a
    negative field. *)
Definition outOfRange (f : number * number * number) : bool :=
  let '(hours, minutes, seconds) := f in
  (60 <=? minutes)%float || (60 <=? seconds)%float
  || (minutes <? 0)%float || (seconds <? 0)%float || (hours <? 0)%float.

(** The specification's "integer part": a non-empty run of decimal digits. *)
Definition spec_integer_part (part : string) : bool :=
  nonempty part
  && forallb (fun c => (48 <=? nat_of_ascii c)%nat && (nat_of_ascii c <=? 57)%nat)
       (list_ascii_of_string part).

(** What a session is in the weekly template: its type and, for a
    threshold session, its interval type. *)
Definition sessionKind (s : TrainingSession.t)
  : SessionType.t * option IntervalType.t :=
  (TrainingSession.type s,
   option_map IntervalSession.type (TrainingSession.intervals s)).

Definition canonicalWeek : list (SessionType.t * option IntervalType.t) :=
  [ (SessionType.easy, None);
    (SessionType.threshold, Some IntervalType.short);
    (SessionType.easy, None);
    (SessionType.threshold, Some IntervalType.medium);
    (SessionType.easy, None);
    (SessionType.threshold, Some IntervalType.long);
    (SessionType.long, None) ].

Definition restConfig : SessionConfig.t := SessionConfig.mk SessionType.rest None.

Definition isRest (c : SessionConfig.t) : bool :=
  match SessionConfig.type c with SessionType.rest => true | _ => false end.

(** [trainingDays] clamped to [3..7]. *)
Definition clampDays (trainingDays : Z) : Z := Z.max 3 (Z.min 7 trainingDays).

(** The kind of session a template entry asks for. *)
Definition configKind (c : SessionConfig.t)
  : SessionType.t * option IntervalType.t :=
  (SessionConfig.type c,
   match SessionConfig.type c with
   | SessionType.threshold =>
       Some (default IntervalType.short (SessionConfig.intervalType c))
   | _ => None
   end).

(** The total a time string is taken to mean by [createTrainingPlan]: what
    [parseTimeString] returns, unless that is [null], [0], [-0] or [NaN]. *)
Definition usableTime (timeStr : string) : option number :=
  match parseTimeString timeStr with
  | Some parsed => if truthy parsed then Some parsed else None
  | None => None
  end.

(** A block of six weeks numbered 1 to 6, each of seven sessions. *)
Definition sixWeekBlock (block : TrainingBlock.t) : Prop :=
  map WeekPlan.weekNumber (TrainingBlock.weeks block) = [1; 2; 3; 4; 5; 6]
  /\ Forall (fun w => length (WeekPlan.sessions w) = 7%nat)
        (TrainingBlock.weeks block).

(** The length of the taper window of a race. *)
Definition taperDaysOf (race : Race.t) : Z :=
  match Race.type race with A => 7 | B => 3 end.

(** A block to run the tapering on: the plan for a 10K in 37:00 (VDOT 56.9)
    with 7 training days, and a priority race. *)
Definition examplePaces : Paces.t :=
  (Paces.mk 234 323
     (IntervalPaces.mk (PaceRange.mk 224 231) (PaceRange.mk 229 236)
        (PaceRange.mk 235 243)))%float.

Definition exampleInput : UserInput.t :=
  UserInput.mk D10K None (Some "37:00") 7 [] None.

Definition exampleBlock : TrainingBlock.t :=
  generateTrainingBlock 1 exampleInput 56.9%float examplePaces.

Definition exampleRace : Race.t := Race.mk "race-1" "City 10K" "2026-05-17" A D10K.

(** The distances the program computes a VDOT for: the 5K and 10K of
    [createTrainingPlan] and the distances [calculateTimeFromVDOT] is asked
    to invert at. *)
Definition planDistances : list number :=
  [5000; 10000; 15000; 21097.5; 30000; 42195]%float.

(** [P] holds at the [n] integers from [start] on. *)
Fixpoint forallFrom (n : nat) (start : Z) (P : Z -> bool) : bool :=
  match n with
  | O => true
  | S n' => P start && forallFrom n' (start + 1) P
  end.


(** [Math.floor] and [Math.round] read off the mantissa and the exponent
    of a finite number [m * 2^e]: the arithmetic shift is the floor of the
    division by [2^(-e)], and rounding is the floor of [x + 1/2].  They are
    the yardstick that [Math_floor] and [Math_round] are checked against. *)
Definition floor_by_bits (x : number) : number :=
  match Prim2SF x with
  | S754_finite s m e =>
      if 0 <=? e then x
      else SF2Prim (binary_normalize prec emax
                      (Z.shiftr (cond_Zopp s (Zpos m)) (- e)) 0 s)
  | _ => x
  end.

Definition round_by_bits (x : number) : number :=
  match Prim2SF x with
  | S754_finite s m e =>
      if 0 <=? e then x
      else SF2Prim (binary_normalize prec emax
                      (Z.shiftr (2 * cond_Zopp s (Zpos m) + 2 ^ (- e)) (1 - e))
                      0 s)
  | _ => x
  end.

(** Numbers around the cases that matter to rounding: zeros, halves, the
    neighbours of one half, the edge of [2^52], huge and special values. *)
Definition roundingCases : list number :=
  [ 0; -0; 0.5; -0.5; 0.49999999999999994; -0.49999999999999994;
    0.50000000000000011; 1; -1; 1.5; -1.5; 2.5; -2.5; 3.5; -3.5; 0.3; -0.3;
    0.9999999999999999; -0.9999999999999999; 1e-300; -1e-300; 5e-324;
    233.1; 568.5; -568.5; 123456789.5; 2251799813685247.75;
    -2251799813685247.75; 4503599627370495.5; -4503599627370495.5;
    4503599627370496; 4503599627370497; -4503599627370497;
    9007199254740991; 1e300; -1e300; infinity; neg_infinity; nan ]%float.

(** Two numbers are the same number, [NaN] and the sign of zero included. *)
Definition same (x y : number) : bool := PrimFloat.Leibniz.eqb x y.

(* ===================================================================== *)
(** ** Vocabulary of the further properties                                *)
(* ===================================================================== *)

(** [s] does not contain the character [sep]. *)
Fixpoint free_of (sep : ascii) (s : string) : bool :=
  match s with
  | EmptyString => true
  | String c s' => negb (Ascii.eqb c sep) && free_of sep s'
  end.

(** The number of occurrences of the character [c] in [s]. *)
Fixpoint count_char (c : ascii) (s : string) : nat :=
  match s with
  | EmptyString => 0%nat
  | String c' s' => ((if Ascii.eqb c' c then 1 else 0) + count_char c s')%nat
  end.

(** Two digits, as [k.toString().padStart(2, '0')] prints them. *)
Definition pad2 (k : Z) : string := padStart 2 "0" (Z_toString k).

(** A whole number of seconds on the clock: [m:ss] below one hour,
    [h:mm:ss] from one hour on. *)
Definition clock (n : Z) : string :=
  let h := n / 3600 in
  let m := n mod 3600 / 60 in
  let s := n mod 60 in
  if 0 <? h then Z_toString h ++ ":" ++ pad2 m ++ ":" ++ pad2 s
  else Z_toString m ++ ":" ++ pad2 s.

(** The fields of a whole number of seconds. *)
Definition clockFields (n : Z) : ParsedTime.t :=
  ParsedTime.mk (of_Z (n / 3600)) (of_Z (n mod 3600 / 60)) (of_Z (n mod 60))
    (of_Z n).

(** What the program needs of a number below 60 and of its digits. *)
Definition sexagesimal (k : Z) : bool :=
  free_of ":" (Z_toString k) && free_of ":" (pad2 k)
  && nonempty (Z_toString k)
  && same (Number (Z_toString k)) (of_Z k)
  && same (Number (pad2 k)) (of_Z k)
  && String.eqb (Number_toString (of_Z k)) (Z_toString k)
  && negb (isNaN (of_Z k))
  && negb (60 <=? of_Z k)%float && negb (of_Z k <? 0)%float.

(** The fields of a whole number of seconds as [formatTime] and
    [formatPace] compute them, and their total as [parseTime] adds it up. *)
Definition clockArithmetic (n : Z) : bool :=
  let x := of_Z n in
  same (Math_floor (x / 3600)%float) (of_Z (n / 3600))
  && same (Math_floor (Number_remainder x 3600%float / 60)%float)
          (of_Z (n mod 3600 / 60))
  && same (Math_round (Number_remainder x 60%float)) (of_Z (n mod 60))
  && same (of_Z (n / 3600) * 3600 + of_Z (n mod 3600 / 60) * 60
           + of_Z (n mod 60))%float x
  && same (Math_floor (x / 60)%float) (of_Z (n / 60)).

(** The whole paces between 150 and 600 s/km at which [formatPace] prints
    60 seconds in miles. *)
Definition mileSixty : list Z := [298; 410; 559].

(** The two tests of the binary search at a time of [t] seconds: the VDOT
    of [t] is within the tolerance of the target; it lies above the
    target. *)
Definition withinTolerance `{host : HostMath} (vdot distanceMeters : number)
    (t : Z) : bool :=
  (Math_abs (calculateVDOT distanceMeters (of_Z t) - vdot) <? 0.1)%float.

Definition aboveTarget `{host : HostMath} (vdot distanceMeters : number)
    (t : Z) : bool :=
  (vdot <? calculateVDOT distanceMeters (of_Z t))%float.

(** The VDOT of [k] tenths: the values that [calculateVDOT] returns. *)
Definition tenths (k : Z) : number := (of_Z k / 10)%float.

(** On the reference host, the time found for [k] tenths has a VDOT within
    one tenth of them. *)
Definition roundTripTenths (distanceMeters : number) (k : Z) : bool :=
  let vdot := tenths k in
  let t := calculateTimeFromVDOT (host := fdlibm_host) vdot distanceMeters in
  let back := calculateVDOT (host := fdlibm_host) distanceMeters (of_Z t) in
  (Math_abs (back - vdot) <=? 0.1)%float
  && (same back (tenths (k - 1)) || same back vdot || same back (tenths (k + 1))).

(** The race time of [k] tenths of VDOT on the reference host. *)
Definition raceTime (distance : Distance) (k : Z) : Z :=
  estimateRaceTime (host := fdlibm_host) (tenths k) distance.

Definition raceDistances : list Distance := [D5K; D10K; D21K; D42K].

(** The [n] values of [f] from [start] on never rise, starting below
    [previous]. *)
Fixpoint nonincreasingZFrom (n : nat) (f : Z -> Z) (start : Z) (previous : Z)
  : bool :=
  match n with
  | O => true
  | S n' =>
      let current := f start in
      (current <=? previous) && nonincreasingZFrom n' f (start + 1) current
  end.

(** The seconds that the two estimates compute, on the reference host. *)
Definition seconds5KFrom10K (t : Z) : Z :=
  calculateTimeFromVDOT (host := fdlibm_host)
    (calculateVDOT (host := fdlibm_host) (DISTANCE_METERS D10K) (of_Z t))
    (DISTANCE_METERS D5K).

Definition seconds10KFrom5K (t : Z) : Z :=
  calculateTimeFromVDOT (host := fdlibm_host)
    (calculateVDOT (host := fdlibm_host) (DISTANCE_METERS D5K) (of_Z t))
    (DISTANCE_METERS D10K).

(** The pace range that [calculateNSIntervalPaces] derives from a race time
    of [t] seconds over [kilometres]: from [below] to [above] the race
    pace. *)
Definition intervalRange (t : Z) (kilometres below above : number) : PaceRange.t :=
  let pace := (of_Z t / kilometres)%float in
  PaceRange.mk (Math_floor (pace - below)%float) (Math_floor (pace + above)%float).

(** The target pace of a threshold session: the rounded midpoint of its
    range. *)
Definition midpoint (r : PaceRange.t) : number :=
  Math_round ((PaceRange.min r + PaceRange.max r) / 2)%float.

(** A pace range of whole seconds, [width] wide, with its midpoint inside. *)
Definition rangeShape (width : number) (r : PaceRange.t) : bool :=
  same (PaceRange.max r - PaceRange.min r)%float width
  && (PaceRange.min r <? PaceRange.max r)%float
  && (PaceRange.min r <=? midpoint r)%float && (midpoint r <=? PaceRange.max r)%float
  && same (Math_floor (PaceRange.min r)) (PaceRange.min r)
  && same (Math_floor (PaceRange.max r)) (PaceRange.max r).

(** The pace range of an interval type. *)
Definition rangeOf (paces : Paces.t) (interval : IntervalType.t) : PaceRange.t :=
  match interval with
  | IntervalType.short => IntervalPaces.short (Paces.intervals paces)
  | IntervalType.medium => IntervalPaces.medium (Paces.intervals paces)
  | IntervalType.long => IntervalPaces.long (Paces.intervals paces)
  end.

(** The order of the training zones: the interval paces slow down from
    short to long, and all of them are faster than the easy pace. *)
Definition zonesOrdered (paces : Paces.t) : bool :=
  let short := rangeOf paces IntervalType.short in
  let medium := rangeOf paces IntervalType.medium in
  let long := rangeOf paces IntervalType.long in
  (0 <? PaceRange.min short)%float
  && (PaceRange.min short <? PaceRange.min medium)%float
  && (PaceRange.min medium <? PaceRange.min long)%float
  && (PaceRange.max short <? PaceRange.max medium)%float
  && (PaceRange.max medium <? PaceRange.max long)%float
  && (PaceRange.max long <? Paces.easy paces)%float.

(** Threshold and easy pace for a threshold time of [t] seconds over 15 km,
    as whole seconds. *)
Definition wholePaces (t : Z) : bool :=
  let threshold := (of_Z t / (15000 / 1000))%float in
  let easy := calculateEasyPaceFromThreshold threshold in
  let pt := trunc_Z (Math_round threshold) in
  let pe := trunc_Z (Math_round easy) in
  same (of_Z pt) (Math_round threshold) && same (of_Z pe) (Math_round easy)
  && (0 <=? pt) && (pt <? pe) && (pe <? 3600).

(** What a session of a generated plan holds, by its type. *)
Definition sessionShape (paces : Paces.t) (s : TrainingSession.t) : Prop :=
  TrainingSession.race s = None /\
  match TrainingSession.type s with
  | SessionType.easy | SessionType.long =>
      (exists minutes,
         TrainingSession.duration s = Some minutes /\ 30 <= minutes <= 130)
      /\ TrainingSession.intervals s = None
      /\ TrainingSession.paces s = Some (SessionPaces.mk (Paces.easy paces) None)
  | SessionType.threshold =>
      TrainingSession.duration s = None
      /\ exists i,
           TrainingSession.intervals s = Some i
           /\ Reps.min (IntervalSession.reps i) = Reps.max (IntervalSession.reps i)
           /\ 2 <= Reps.min (IntervalSession.reps i) <= 14
           /\ IntervalSession.recovery i = 60
           /\ IntervalSession.paceRange i = rangeOf paces (IntervalSession.type i)
           /\ TrainingSession.paces s
              = Some (SessionPaces.mk (midpoint (IntervalSession.paceRange i))
                        (Some (IntervalSession.paceRange i)))
  | SessionType.test | SessionType.rest =>
      TrainingSession.duration s = None
      /\ TrainingSession.intervals s = None
      /\ TrainingSession.paces s = None
  | SessionType.race => False
  end.

(** A template entry that is not a race. *)
Definition plainConfig (c : SessionConfig.t) : bool :=
  match SessionConfig.type c with SessionType.race => false | _ => true end.

(** The sessions of a week that are not rest days. *)
Definition trainingSessions (week : WeekPlan.t) : list TrainingSession.t :=
  List.filter
    (fun s =>
       match TrainingSession.type s with SessionType.rest => false | _ => true end)
    (WeekPlan.sessions week).

(** The volumes of the weeks of a block. *)
Definition blockVolumes (block : TrainingBlock.t) : list (option number) :=
  map WeekPlan.totalVolume (TrainingBlock.weeks block).

(** A session after the taper loops: as it was, or tapered. *)
Definition asBeforeOrTapered (session session' : TrainingSession.t) : Prop :=
  session' = session \/ session' = taperSession session.

(** A segment of a path: not empty, without a slash. *)
Definition segment (s : string) : Prop :=
  free_of "/" s = true /\ nonempty s = true.

(** The segments of a path that follow its locale prefix, if it has one. *)
Definition path_content (path : string) : list string :=
  match I18n.path_segments path with
  | first :: rest =>
      match I18n.locale_of first with Some _ => rest | None => first :: rest end
  | [] => []
  end.

(** The keys of the translations. *)
Definition translationKeys : list string := map fst (I18n.ui I18n.defaultLocale).

(** [key] has a translation in [locale], which [t] returns. *)
Definition translated (locale : Locale.t) (key : string) : bool :=
  match I18n.entry (I18n.ui locale) key with
  | Some text => nonempty text && String.eqb (I18n.t locale key) text
  | None => false
  end.

(** Day [i + 1] is one of the [taperDays] days before the race, counted
    backwards from the race day and round the week. *)
Definition taperWindow (taperDays raceDay : Z) (i : nat) : bool :=
  let back := (raceDay - 1 - Z.of_nat i) mod 7 in
  (1 <=? back) && (back <=? taperDays).

(** The sessions with those of the days in [visited] tapered. *)
Definition tapered (visited : nat -> bool) (sessions : list TrainingSession.t)
  : list TrainingSession.t :=
  imap (fun i session => if visited i then taperSession session else session)
    sessions.

(** A session without its description. *)
Definition withoutDescription (s : TrainingSession.t) :=
  (TrainingSession.day s, TrainingSession.type s, TrainingSession.title s,
   TrainingSession.duration s, TrainingSession.intervals s,
   TrainingSession.paces s, TrainingSession.race s).

(** Two sessions that differ at most by their description, and not at all
    unless they are threshold sessions. *)
Definition sameButDescription (s s' : TrainingSession.t) : Prop :=
  withoutDescription s' = withoutDescription s
  /\ (TrainingSession.type s <> SessionType.threshold -> s' = s).

(** Two weeks that differ at most by the descriptions of their threshold
    sessions. *)
Definition sameButDescriptions (week week' : WeekPlan.t) : Prop :=
  WeekPlan.weekNumber week' = WeekPlan.weekNumber week
  /\ WeekPlan.isTestWeek week' = WeekPlan.isTestWeek week
  /\ WeekPlan.isRecoveryWeek week' = WeekPlan.isRecoveryWeek week
  /\ WeekPlan.totalVolume week' = WeekPlan.totalVolume week
  /\ Forall2 sameButDescription (WeekPlan.sessions week) (WeekPlan.sessions week').

(** The input with another choice of unit. *)
Definition withUnit (input : UserInput.t) (unit : option Unit) : UserInput.t :=
  UserInput.mk (UserInput.targetDistance input) (UserInput.time5K input)
    (UserInput.time10K input) (UserInput.trainingDays input)
    (UserInput.races input) unit.

(** The number of training days the earlier revision grants. *)
Definition grantedDays (trainingDays : Z) : Z := Z.max 4 (Z.min 7 trainingDays).

(** The volume of a week of the earlier revision. *)
Definition weekVolume (weekNumber trainingDays : Z) (paces : Paces.t)
    (targetDistance : Distance) : number :=
  default nan
    (WeekPlan.totalVolume
       (Earlier.generateWeekPlan weekNumber trainingDays paces targetDistance)).

(** The binary64 values from 16 up to 128, in units of [2^-56]: a mantissa
    of 53 bits with an exponent from -48 to -46. *)
Definition fixed56 (x : number) : option Z :=
  match Prim2SF x with
  | S754_finite false m e =>
      if (Z.pos (digits2_pos m) =? 53) && (-48 <=? e) && (e <=? -46)
      then Some (Z.pos m * 2 ^ (e + 56))
      else None
  | _ => None
  end.

(** [0.1] in units of [2^-56]. *)
Definition tolerance56 : Z := 7205759403792794.

(** No binary64 value [v] of exponent [e] has [lower + 0.1 <= v <= upper - 0.1],
    all in units of [2^-56]. *)
Definition noValueBetween (upper lower e : Z) : bool :=
  let g := 2 ^ (e + 56) in
  let lo := Z.max (lower + tolerance56) (2 ^ 52 * g) in
  let hi := Z.min (upper - tolerance56) (2 ^ 53 * g - 1) in
  hi <? ((lo + g - 1) / g) * g.

(** Two VDOTs [a], [b] of consecutive seconds between which the search
    cannot stop for a target from 30 to 85: [a] is not above 30, or [b] is
    above 85, or [a] is not above [b], or every binary64 value from [b] up
    to [a] is within the tolerance of one of them. *)
Definition stepCovered (a b : number) : bool :=
  (a <=? 30)%float || (85 <? b)%float || (a <=? b)%float
  || match fixed56 a, fixed56 b with
     | Some upper, Some lower =>
         (upper - lower <? 2 ^ 60)
         && noValueBetween upper lower (-48) && noValueBetween upper lower (-47)
         && noValueBetween upper lower (-46)
     | _, _ => false
     end.

(** [P] holds of the values of [f] at every two consecutive integers from
    [start - 1] on, [n] times, [previous] being the value at [start - 1]. *)
Fixpoint forallStepsFrom (n : nat) (f : Z -> number) (start : Z)
    (previous : number) (P : number -> number -> bool) : bool :=
  match n with
  | O => true
  | S n' =>
      let current := f start in
      P previous current && forallStepsFrom n' f (start + 1) current P
  end.

Definition searchCovered (distanceMeters : number) : bool :=
  let vdotOf := fun t => calculateVDOT (host := fdlibm_host) distanceMeters (of_Z t) in
  (85 <? vdotOf 61%Z)%float && (vdotOf 21599%Z <=? 30)%float
  && forallStepsFrom (Z.to_nat 21540) vdotOf 61 (vdotOf 60) stepCovered.

(* ===================================================================== *)
(** ** The builtins on concrete inputs                                     *)
(* ===================================================================== *)

Example Math_round_ties :
  map Math_round [2.5; -2.5; 0.5; -0.5; 0.49999999999999994; -0.3; 568.5]%float
    = [3; -2; 1; -0; 0; -0; 569]%float.
Proof. vm_compute. reflexivity. Qed.

Example Math_floor_values :
  map Math_floor [2.5; -2.5; -0.3; 0.3; -0; 233.93333333333334]%float
    = [2; -3; -1; 0; -0; 233]%float.
Proof. vm_compute. reflexivity. Qed.

(** [Math_floor] and [Math_round] agree with the floor and the rounding
    read off the bits, on the edge cases and on a sweep of sevenths between
    -150 and 150. *)
Lemma Math_floor_round_by_bits :
  forallb (fun x => same (Math_floor x) (floor_by_bits x)
                    && same (Math_round x) (round_by_bits x))
    roundingCases = true
  /\ forallFrom 2100 0
       (fun k => let x := (of_Z k / 7 - 150)%float in
                 same (Math_floor x) (floor_by_bits x)
                 && same (Math_round x) (round_by_bits x)) = true.
Proof. split; vm_compute; reflexivity. Qed.

Example Number_values :
  map Number ["37"; "00"; ""; " 12 "; "1.5"; ".5"; "1e3"; "0x1F"; "-0";
              "Infinity"; "abc"; "12a"; "1 2"; "."; "-"]
    = [37; 0; 0; 12; 1.5; 0.5; 1000; 31; -0; infinity; nan; nan; nan; nan; nan]%float.
Proof. vm_compute. reflexivity. Qed.

Example split_values :
  map (split ":") ["37:00"; "1:02:03"; ""; ":"; "5"]
    = [["37"; "00"]; ["1"; "02"; "03"]; [""]; [""; ""]; ["5"]].
Proof. reflexivity. Qed.

Example formatPace_values :
  [formatPace 233.1%float km; formatPace 224%float km;
   formatPace 234%float mile; formatPace 59.6%float km]
    = ["3:53"; "3:44"; "6:17"; "0:60"].
Proof. vm_compute. reflexivity. Qed.

Example fdlibm_exp_values :
  map fdlibm_exp [0; 1; -1; 0.5; -0.4728; -7.1506; neg_infinity]%float
    = [1; 2.718281828459045; 0.36787944117144233; 1.6487212707001282;
       0.6232547096553257; 0.0007843933041094292; 0]%float.
Proof. vm_compute. reflexivity. Qed.

(** The specification's scenario: 10K in 37:00 is VDOT 56.9 on the
    reference host. *)
Example calculateVDOT_37_00 :
  calculateVDOT (host := fdlibm_host) 10000%float 2220%float = 56.9%float.
Proof. vm_compute. reflexivity. Qed.

(* ===================================================================== *)
(** ** Time parsing                                                        *)
(* ===================================================================== *)

Lemma existsb_isNaN_true (parts : list number) :
  existsb isNaN parts = true <-> exists x, x ∈ parts /\ isNaN x = true.
Proof.
  rewrite existsb_exists. split; intros (x & Hx & Hn); exists x; split; auto.
  - by apply list_elem_of_In.
  - by apply list_elem_of_In.
Qed.

Lemma parseTime_unfold (timeStr : string) :
  parseTime timeStr =
    if negb (nonempty timeStr) then None
    else if existsb isNaN (map Number (split ":" timeStr)) then None
    else match timeFields timeStr with
         | None => None
         | Some (hours, minutes, seconds) =>
             if outOfRange (hours, minutes, seconds) then None
             else Some (ParsedTime.mk hours minutes seconds
                          (hours * 3600 + minutes * 60 + seconds)%float)
         end.
Proof.
  unfold parseTime, timeFields, outOfRange.
  destruct (negb (nonempty timeStr)); [reflexivity|].
  destruct (existsb isNaN _); [reflexivity|].
  destruct (map Number (split ":" timeStr)) as [|a [|b [|c [|d l]]]]; reflexivity.
Qed.

Lemma timeFields_None (timeStr : string) :
  timeFields timeStr = None <->
  (length (split ":" timeStr) <> 2 /\ length (split ":" timeStr) <> 3)%nat.
Proof.
  unfold timeFields. rewrite <- (length_map Number (split ":" timeStr)).
  destruct (map Number (split ":" timeStr)) as [|a [|b [|c [|d l]]]];
    simpl; split; try discriminate; try lia; auto; intros [? ?]; lia.
Qed.

(** C8, the claim as stated fails: a time string with a fractional part
    ("1.5:30") is accepted although "1.5" is not an integer part; its minutes
    field is 1.5 and its total is 120 seconds. *)
Lemma parseTime_accepts_fractional_part :
  forallb spec_integer_part (split ":" "1.5:30") = false /\
  parseTime "1.5:30" = Some (ParsedTime.mk 0 1.5 30 120)%float.
Proof. split; vm_compute; reflexivity. Qed.

(** C8, amended: [parseTime] never throws; it returns [null] precisely when
    the string is empty, a part converts to [NaN] under [Number], the number
    of parts is neither 2 nor 3, minutes or seconds are 60 or more, or a
    field is negative; on success the fields are the converted parts (not
    necessarily integers) and [totalSeconds = hours*3600 + minutes*60 +
    seconds]. *)
Theorem parseTime_null_iff (timeStr : string) :
  (parseTime timeStr = None <->
     timeStr = ""
     \/ (exists part, part ∈ split ":" timeStr /\ isNaN (Number part) = true)
     \/ (length (split ":" timeStr) <> 2 /\ length (split ":" timeStr) <> 3)%nat
     \/ (exists f, timeFields timeStr = Some f /\ outOfRange f = true))
  /\
  (forall t, parseTime timeStr = Some t ->
     timeFields timeStr
       = Some (ParsedTime.hours t, ParsedTime.minutes t, ParsedTime.seconds t)
     /\ ParsedTime.totalSeconds t
        = (ParsedTime.hours t * 3600 + ParsedTime.minutes t * 60
           + ParsedTime.seconds t)%float).
Proof.
  rewrite parseTime_unfold. split.
  - destruct timeStr as [|c r]; simpl negb; cbv iota.
    { split; auto. }
    destruct (existsb isNaN _) eqn:Hnan.
    { split; auto. intros _. right. left.
      apply existsb_isNaN_true in Hnan as (x & Hx & Hn).
      apply list_elem_of_fmap in Hx as (p & -> & Hp). eauto. }
    destruct (timeFields _) as [[[h m] s]|] eqn:Hf.
    + destruct (outOfRange (h, m, s)) eqn:Hr.
      * split; auto. intros _. do 3 right. eauto.
      * split; [discriminate|].
        intros [H|[(p & Hp & Hn)|[H|(f & Hf' & Hr')]]].
        -- discriminate.
        -- assert (existsb isNaN (map Number (split ":" (String c r))) = true)
             as Hex; [|congruence].
           apply existsb_isNaN_true. exists (Number p). split; auto.
           apply list_elem_of_fmap. eauto.
        -- apply timeFields_None in H. congruence.
        -- congruence.
    + split; auto. intros _. right. right. left. by apply timeFields_None.
  - intros t. destruct (negb (nonempty timeStr)); [discriminate|].
    destruct (existsb isNaN _); [discriminate|].
    destruct (timeFields _) as [[[h m] s]|]; [|discriminate].
    destruct (outOfRange _); [discriminate|].
    intros [= <-]. simpl. auto.
Qed.

(** C8, amended, at "37:00": two parts, 2220 seconds. *)
Lemma parseTime_null_iff_witness :
  parseTime "37:00" = Some (ParsedTime.mk 0 37 0 2220)%float
  /\ ParsedTime.totalSeconds (ParsedTime.mk 0 37 0 2220)%float
     = (0 * 3600 + 37 * 60 + 0)%float.
Proof.
  split; [vm_compute; reflexivity|].
  apply (proj2 (parseTime_null_iff "37:00") (ParsedTime.mk 0 37 0 2220)%float).
  vm_compute. reflexivity.
Defined.

(* ===================================================================== *)
(** ** The binary search of [calculateTimeFromVDOT]                        *)
(* ===================================================================== *)

Section SearchLoop.
Context {host : HostMath}.
Variables vdot distanceMeters : number.

Lemma mid_between (low high : Z) :
  high - low > 1 -> low < (low + high) / 2 < high.
Proof.
  intros H. pose proof (Z.div_mod (low + high) 2 ltac:(lia)).
  pose proof (Z.mod_pos_bound (low + high) 2 ltac:(lia)). lia.
Qed.

(** One iteration either returns [mid] or continues with a bracket inside
    the old one that is strictly narrower, still at least one second wide
    and at most half the old width (rounded up). *)
Lemma searchLoop_step (fuel : nat) (low high : Z) :
  high - low > 1 ->
  searchLoop (S fuel) vdot distanceMeters low high = Some ((low + high) / 2)
  \/ exists low' high',
       searchLoop (S fuel) vdot distanceMeters low high
         = searchLoop fuel vdot distanceMeters low' high'
       /\ low <= low' /\ high' <= high
       /\ 1 <= high' - low' < high - low
       /\ 2 * (high' - low') <= high - low + 1.
Proof.
  intros Hw. pose proof (mid_between low high Hw) as Hm.
  pose proof (Z.div_mod (low + high) 2 ltac:(lia)).
  pose proof (Z.mod_pos_bound (low + high) 2 ltac:(lia)).
  cbn [searchLoop]. destruct (high - low >? 1) eqn:Hg; [|lia].
  destruct (Math_abs _ <? _)%float; [by left|]. right.
  destruct (vdot <? _)%float.
  - exists ((low + high) / 2), high. split; [reflexivity|lia].
  - exists low, ((low + high) / 2). split; [reflexivity|lia].
Qed.

Lemma searchLoop_exit (fuel : nat) (low : Z) :
  searchLoop fuel vdot distanceMeters low (low + 1) = Some (low + 1).
Proof.
  destruct fuel; cbn [searchLoop];
    (destruct (low + 1 - low >? 1) eqn:Hg; [lia|]);
    f_equal; replace (low + (low + 1) + 1) with ((low + 1) * 2) by lia;
    apply Z.div_mul; lia.
Qed.

(** A bracket of width at most [2^fuel] is settled within [fuel]
    iterations, and the time returned lies in it. *)
Lemma searchLoop_returns (fuel : nat) :
  forall low high,
    low < high -> high - low <= 2 ^ Z.of_nat fuel ->
    exists t, searchLoop fuel vdot distanceMeters low high = Some t /\ low < t <= high.
Proof.
  induction fuel as [|fuel IH]; intros low high Hlt Hw.
  - change (2 ^ Z.of_nat 0) with 1 in Hw. assert (high = low + 1) as -> by lia.
    exists (low + 1). split; [apply searchLoop_exit|lia].
  - destruct (Z_gt_le_dec (high - low) 1) as [Hg|Hg].
    + rewrite Nat2Z.inj_succ, Z.pow_succ_r in Hw by lia.
      pose proof (mid_between low high Hg) as Hm.
      destruct (searchLoop_step fuel low high Hg)
        as [->|(l' & h' & -> & Hl & Hh & Hw1 & Hw2)].
      * eexists; split; [reflexivity|lia].
      * destruct (IH l' h' ltac:(lia) ltac:(lia)) as (t & Ht & Hb).
        exists t. split; [exact Ht|lia].
    + assert (high = low + 1) as -> by lia.
      exists (low + 1). split; [apply searchLoop_exit|lia].
Qed.

(** More fuel does not change a result. *)
Lemma searchLoop_more_fuel (fuel : nat) :
  forall low high t,
    searchLoop fuel vdot distanceMeters low high = Some t ->
    forall fuel', (fuel <= fuel')%nat ->
    searchLoop fuel' vdot distanceMeters low high = Some t.
Proof.
  induction fuel as [|fuel IH]; intros low high t Hb fuel' Hle.
  - cbn [searchLoop] in Hb. destruct (high - low >? 1) eqn:Hg; [discriminate|].
    destruct fuel'; cbn [searchLoop]; rewrite Hg; exact Hb.
  - destruct fuel' as [|fuel']; [lia|].
    cbn [searchLoop] in *. destruct (high - low >? 1); [|exact Hb].
    destruct (Math_abs _ <? _)%float; [exact Hb|].
    destruct (vdot <? _)%float; apply IH with (fuel' := fuel') in Hb; auto; lia.
Qed.

(** The search range of one minute to six hours needs at most 15
    iterations, and the time found lies in [61, 21600]. *)
Lemma calculateTimeFromVDOT_within_15 :
  searchLoop 15 vdot distanceMeters 60 21600
    = Some (calculateTimeFromVDOT vdot distanceMeters)
  /\ 61 <= calculateTimeFromVDOT vdot distanceMeters <= 21600.
Proof.
  destruct (searchLoop_returns 15 60 21600) as (t & Ht & Hb); [lia|vm_compute; discriminate|].
  unfold calculateTimeFromVDOT.
  change (1 * 60) with 60. change (6 * 3600) with 21600.
  rewrite (searchLoop_more_fuel 15 60 21600 t Ht (Z.to_nat (21600 - 60)))
    by (apply Nat2Z.inj_le; rewrite Z2Nat.id; lia).
  simpl default. split; [exact Ht|lia].
Qed.

End SearchLoop.

(** C9: [calculateTimeFromVDOT] terminates for every [vdot] and distance,
    on any host: the loop over [60 s, 21600 s] returns within 15 iterations
    (so within the 17 of the claim), because an iteration that does not
    return leaves a bracket strictly narrower than before, at most half as
    wide (rounded up) and never below one second. *)
Theorem calculateTimeFromVDOT_terminates `{host : HostMath}
    (vdot distanceMeters : number) :
  (forall fuel, (15 <= fuel)%nat ->
     searchLoop fuel vdot distanceMeters 60 21600
       = Some (calculateTimeFromVDOT vdot distanceMeters))
  /\ (forall fuel low high, high - low > 1 ->
        searchLoop (S fuel) vdot distanceMeters low high = Some ((low + high) / 2)
        \/ exists low' high',
             searchLoop (S fuel) vdot distanceMeters low high
               = searchLoop fuel vdot distanceMeters low' high'
             /\ low <= low' /\ high' <= high
             /\ 1 <= high' - low' < high - low
             /\ 2 * (high' - low') <= high - low + 1).
Proof.
  split.
  - intros fuel Hf.
    apply (searchLoop_more_fuel vdot distanceMeters 15); [|exact Hf].
    apply calculateTimeFromVDOT_within_15.
  - intros fuel low high. apply searchLoop_step.
Qed.

(** C9 at a concrete input: 17 iterations are enough for a 5K at VDOT 56.9
    on the reference host. *)
Lemma calculateTimeFromVDOT_terminates_witness :
  (15 <= 17)%nat /\
  searchLoop (host := fdlibm_host) 17 56.9%float 5000%float 60 21600
    = Some (calculateTimeFromVDOT (host := fdlibm_host) 56.9%float 5000%float).
Proof.
  split; [lia|].
  apply (proj1 (calculateTimeFromVDOT_terminates (host := fdlibm_host)
                  56.9%float 5000%float)).
  lia.
Defined.

(* ===================================================================== *)
(** ** Paces                                                               *)
(* ===================================================================== *)

Lemma forallFrom_spec (n : nat) (P : Z -> bool) :
  forall start, forallFrom n start P = true ->
  forall t, start <= t < start + Z.of_nat n -> P t = true.
Proof.
  induction n as [|n IH]; intros start H t Ht; [lia|].
  cbn [forallFrom] in H. apply andb_prop in H as [H0 H].
  destruct (Z.eq_dec t start) as [->|Hne]; [exact H0|].
  apply (IH (start + 1) H). lia.
Qed.

(** Threshold and easy pace, rounded as [calculatePaces] rounds them, for a
    threshold time of [t] seconds over 15 km. *)
Lemma threshold_lt_easy_table :
  forallFrom (Z.to_nat 21540) 61
    (fun t =>
       let threshold := (of_Z t / (15000 / 1000))%float in
       (Math_round threshold
          <? Math_round (calculateEasyPaceFromThreshold threshold))%float)
    = true.
Proof. vm_compute. reflexivity. Qed.

(** C7: for every [vdot > 0], on every host, the paces returned by
    [calculatePaces] have [threshold < easy].  The threshold time is a whole
    number of seconds between 61 and 21600 whatever the search finds, and
    the two rounded paces are compared for each; the proof makes no use of
    [vdot > 0], so the same holds for every [vdot]. *)
Theorem calculatePaces_threshold_lt_easy `{host : HostMath} (vdot : number) :
  (0 <? vdot)%float = true ->
  (Paces.threshold (calculatePaces vdot) <? Paces.easy (calculatePaces vdot))%float
    = true.
Proof.
  intros _.
  unfold calculatePaces, calculateThresholdPace. cbn [Paces.threshold Paces.easy].
  set (t := calculateTimeFromVDOT _ _).
  assert (61 <= t <= 21600) as Ht by apply calculateTimeFromVDOT_within_15.
  apply (forallFrom_spec _ _ _ threshold_lt_easy_table t).
  rewrite Z2Nat.id; lia.
Qed.

(** C7 at VDOT 56.9 on the reference host: threshold 234 s/km, easy
    323 s/km. *)
Lemma calculatePaces_threshold_lt_easy_witness :
  (0 <? 56.9)%float = true /\
  (Paces.threshold (calculatePaces (host := fdlibm_host) 56.9%float)
     <? Paces.easy (calculatePaces (host := fdlibm_host) 56.9%float))%float = true.
Proof.
  split; [reflexivity|].
  apply (calculatePaces_threshold_lt_easy (host := fdlibm_host) 56.9%float).
  reflexivity.
Defined.

(* ===================================================================== *)
(** ** The weekly structure                                                *)
(* ===================================================================== *)

Lemma clampDays_cases (trainingDays : Z) :
  clampDays trainingDays = 3 \/ clampDays trainingDays = 4
  \/ clampDays trainingDays = 5 \/ clampDays trainingDays = 6
  \/ clampDays trainingDays = 7.
Proof. unfold clampDays. lia. Qed.

(** The structure depends on [trainingDays] through its clamped value only. *)
Lemma getWeekStructure_clamped (trainingDays : Z) :
  getWeekStructure trainingDays = getWeekStructure (clampDays trainingDays).
Proof.
  unfold getWeekStructure, clampDays.
  replace (Z.max 3 (Z.min 7 (Z.max 3 (Z.min 7 trainingDays))))
    with (Z.max 3 (Z.min 7 trainingDays)) by lia.
  reflexivity.
Qed.

Lemma getWeekStructure_full (trainingDays : Z) :
  7 <= trainingDays -> getWeekStructure trainingDays = BASE_WEEK_STRUCTURE.
Proof.
  intros H. rewrite getWeekStructure_clamped.
  replace (clampDays trainingDays) with 7 by (unfold clampDays; lia).
  reflexivity.
Qed.

Lemma getWeekStructure_length (trainingDays : Z) :
  length (getWeekStructure trainingDays) = 7%nat.
Proof.
  rewrite getWeekStructure_clamped.
  destruct (clampDays_cases trainingDays) as [->|[->|[->|[->| ->]]]]; reflexivity.
Qed.

(** C3: whatever [trainingDays] is, the week structure keeps its 7 entries
    and turns into ['rest'] exactly the first [7 - clamp(trainingDays)] days
    of the list Friday, Monday, Wednesday, Saturday, Thursday, that is of
    the indices 4, 0, 2, 5, 3 in this order, leaving every other day as in
    the template; Tuesday (threshold-short) and Sunday (long) are never
    rest; and every generated week has one session per day, numbered 1 to
    7. *)
Theorem getWeekStructure_rest_days (trainingDays : Z) :
  let structure := getWeekStructure trainingDays in
  let removed :=
    take (Z.to_nat (7 - clampDays trainingDays)) [4; 0; 2; 5; 3]%nat in
  3 <= clampDays trainingDays <= 7
  /\ length structure = 7%nat
  /\ (forall i : nat,
        structure !! i
          = if bool_decide (i ∈ removed) then
              (if bool_decide (i < 7)%nat then Some restConfig else None)
            else BASE_WEEK_STRUCTURE !! i)
  /\ length (filter (fun c => isRest c = true) structure)
       = Z.to_nat (7 - clampDays trainingDays)
  /\ structure !! 1%nat
       = Some (SessionConfig.mk SessionType.threshold (Some IntervalType.short))
  /\ structure !! 6%nat = Some (SessionConfig.mk SessionType.long None)
  /\ (forall weekNumber paces targetDistance unit,
        map TrainingSession.day
            (WeekPlan.sessions
               (generateWeekPlan weekNumber trainingDays paces targetDistance unit))
          = [1; 2; 3; 4; 5; 6; 7]).
Proof.
  cbv zeta. split; [unfold clampDays; lia|].
  unfold generateWeekPlan. cbn [WeekPlan.sessions].
  rewrite getWeekStructure_clamped.
  destruct (clampDays_cases trainingDays) as [->|[->|[->|[->| ->]]]];
    (split; [reflexivity|]);
    (split; [intros i; do 8 (try destruct i as [|i]); reflexivity|]);
    (split; [reflexivity|]); (split; [reflexivity|]); (split; [reflexivity|]);
    intros weekNumber paces targetDistance unit;
    destruct (weekNumber =? 6); reflexivity.
Qed.

(* ===================================================================== *)
(** ** Week and block generation                                           *)
(* ===================================================================== *)

Lemma sessionKind_createSession day config paces weekNumber targetDistance
    isTestWeek unit :
  sessionKind (createSession day config paces weekNumber targetDistance
                 isTestWeek unit)
    = configKind config.
Proof. destruct config as [[] [[]|]]; reflexivity. Qed.

(** The kinds of the sessions of a generated week: those of the structure,
    except that index 5 of week 6 is a test. *)
Lemma generateWeekPlan_kinds weekNumber trainingDays paces targetDistance unit :
  map sessionKind
      (WeekPlan.sessions
         (generateWeekPlan weekNumber trainingDays paces targetDistance unit))
    = imap (fun index config =>
              if (weekNumber =? 6) && (index =? 5)%nat
              then (SessionType.test, None) else configKind config)
           (getWeekStructure trainingDays).
Proof.
  unfold generateWeekPlan. cbn [WeekPlan.sessions].
  apply list_eq. intros i.
  rewrite list_lookup_fmap, !list_lookup_imap.
  destruct (getWeekStructure trainingDays !! i) as [c|]; [|reflexivity].
  cbn [fmap option_fmap option_map]. f_equal.
  destruct ((weekNumber =? 6) && (i =? 5)%nat);
    [reflexivity|apply sessionKind_createSession].
Qed.

Lemma generateWeekPlan_length weekNumber trainingDays paces targetDistance unit :
  length (WeekPlan.sessions
            (generateWeekPlan weekNumber trainingDays paces targetDistance unit))
    = 7%nat.
Proof.
  unfold generateWeekPlan. cbn [WeekPlan.sessions].
  rewrite length_imap. apply getWeekStructure_length.
Qed.

Lemma generateTrainingBlock_sixWeekBlock blockNumber input vdot paces :
  sixWeekBlock (generateTrainingBlock blockNumber input vdot paces).
Proof.
  split; [reflexivity|].
  unfold generateTrainingBlock. cbn [TrainingBlock.weeks map].
  repeat constructor; apply generateWeekPlan_length.
Qed.

(** C2: in a block generated for 7 training days (or more: the count is
    clamped), weeks 1 to 5 have the seven sessions of the canonical template
    easy, threshold-short, easy, threshold-medium, easy, threshold-long, long,
    and week 6 has them with a test in the Saturday slot (index 5); and
    whatever [trainingDays] is, index 5 of week 6 is a test, also where the
    day reduction had put a rest day (as it does for 3 training days). *)
Theorem generateTrainingBlock_template blockNumber input vdot paces :
  let block := generateTrainingBlock blockNumber input vdot paces in
  (7 <= UserInput.trainingDays input ->
     map (fun w => (WeekPlan.weekNumber w, map sessionKind (WeekPlan.sessions w)))
         (TrainingBlock.weeks block)
       = [ (1, canonicalWeek); (2, canonicalWeek); (3, canonicalWeek);
           (4, canonicalWeek); (5, canonicalWeek);
           (6, <[5%nat := (SessionType.test, None)]> canonicalWeek) ])
  /\ (exists week6 saturday,
        TrainingBlock.weeks block !! 5%nat = Some week6
        /\ WeekPlan.weekNumber week6 = 6
        /\ WeekPlan.sessions week6 !! 5%nat = Some saturday
        /\ TrainingSession.type saturday = SessionType.test)
  /\ (UserInput.trainingDays input <= 3 ->
        getWeekStructure (UserInput.trainingDays input) !! 5%nat
          = Some restConfig).
Proof.
  cbv zeta. unfold generateTrainingBlock. cbn [TrainingBlock.weeks map].
  split; [|split].
  - intros H7. rewrite !generateWeekPlan_kinds, getWeekStructure_full by exact H7.
    reflexivity.
  - eexists. cbn [lookup list_lookup]. 
    pose proof (generateWeekPlan_kinds 6 (UserInput.trainingDays input) paces
                  (UserInput.targetDistance input)
                  (default km (UserInput.unit input))) as Hk.
    pose proof (getWeekStructure_length (UserInput.trainingDays input)) as Hl.
    apply (f_equal (fun l => l !! 5%nat)) in Hk.
    rewrite list_lookup_fmap, list_lookup_imap in Hk.
    destruct (getWeekStructure (UserInput.trainingDays input) !! 5%nat) as [c|] eqn:Hc.
    + destruct (WeekPlan.sessions _ !! 5%nat) as [s|] eqn:Hs; [|discriminate].
      exists s. repeat split; auto.
      cbn in Hk. injection Hk as Hk. unfold sessionKind in Hk. congruence.
    + apply lookup_ge_None in Hc. lia.
  - intros H3. rewrite getWeekStructure_clamped.
    replace (clampDays (UserInput.trainingDays input)) with 3
      by (unfold clampDays; lia).
    reflexivity.
Qed.

(** C2 for the 10K input of the specification's scenario, with 7 training
    days. *)
Lemma generateTrainingBlock_template_witness :
  let input := UserInput.mk D10K None (Some "37:00") 7 [] None in
  let paces := calculatePaces (host := fdlibm_host) 56.9%float in
  map (fun w => (WeekPlan.weekNumber w, map sessionKind (WeekPlan.sessions w)))
      (TrainingBlock.weeks (generateTrainingBlock 1 input 56.9%float paces))
    = [ (1, canonicalWeek); (2, canonicalWeek); (3, canonicalWeek);
        (4, canonicalWeek); (5, canonicalWeek);
        (6, <[5%nat := (SessionType.test, None)]> canonicalWeek) ].
Proof.
  cbv zeta.
  apply (proj1 (generateTrainingBlock_template 1
                  (UserInput.mk D10K None (Some "37:00") 7 [] None) 56.9%float
                  (calculatePaces (host := fdlibm_host) 56.9%float))).
  simpl. lia.
Defined.

(* ===================================================================== *)
(** ** [createTrainingPlan]                                                *)
(* ===================================================================== *)

(** C1, the claim as stated fails: the 10K time "0:00" does not fail
    parsing ([parseTimeString] returns 0), yet no block is returned: the
    plan is refused with "Invalid 10K time format". *)
Lemma createTrainingPlan_refuses_zero_time :
  parseTimeString "0:00" = Some 0%float /\
  createTrainingPlan (host := fdlibm_host)
    (UserInput.mk D10K None (Some "0:00") 7 [] None)
    = Throw (Error "Invalid 10K time format").
Proof. split; vm_compute; reflexivity. Qed.

(** C1, amended: on every host and for every input, [createTrainingPlan]
    raises "At least one race time is required" when neither [time10K] nor
    [time5K] is a non-empty string; otherwise it uses the 10K time when that
    is a non-empty string and the 5K time if not, raises "Invalid 10K time
    format" (resp. "Invalid 5K time format") when the string it uses fails
    parsing or parses to a total that is zero or NaN, and else returns a
    block of six weeks whose VDOT is computed from that time. *)
Theorem createTrainingPlan_outcome `{host : HostMath} (input : UserInput.t) :
  match given (UserInput.time10K input), given (UserInput.time5K input) with
  | None, None =>
      createTrainingPlan input = Throw (Error "At least one race time is required")
  | Some time10K, _ =>
      match usableTime time10K with
      | None => createTrainingPlan input = Throw (Error "Invalid 10K time format")
      | Some seconds =>
          exists block,
            createTrainingPlan input = Ok block
            /\ sixWeekBlock block
            /\ TrainingBlock.vdot block
               = calculateVDOT (DISTANCE_METERS D10K) seconds
      end
  | None, Some time5K =>
      match usableTime time5K with
      | None => createTrainingPlan input = Throw (Error "Invalid 5K time format")
      | Some seconds =>
          exists block,
            createTrainingPlan input = Ok block
            /\ sixWeekBlock block
            /\ TrainingBlock.vdot block
               = calculateVDOT (DISTANCE_METERS D5K) seconds
      end
  end.
Proof.
  unfold createTrainingPlan, usableTime.
  destruct (given (UserInput.time10K input)) as [t10|].
  - destruct (parseTimeString t10) as [x|]; [|reflexivity].
    destruct (truthy x); [|reflexivity].
    eexists. split; [reflexivity|].
    split; [apply generateTrainingBlock_sixWeekBlock|reflexivity].
  - destruct (given (UserInput.time5K input)) as [t5|]; [|reflexivity].
    destruct (parseTimeString t5) as [x|]; [|reflexivity].
    destruct (truthy x); [|reflexivity].
    eexists. split; [reflexivity|].
    split; [apply generateTrainingBlock_sixWeekBlock|reflexivity].
Qed.

(* ===================================================================== *)
(** ** Race tapering                                                       *)
(* ===================================================================== *)

(** The inner loop: started on a day inside the week, it rewrites
    [k = max 0 (min (currentDay + 1) daysToTaper)] sessions without
    throwing, those of the [k] days up to [currentDay], and leaves both
    counters lowered by [k]. *)
Lemma taperDays_loop_result (sessions : list TrainingSession.t)
    (currentDay daysToTaper : Z) :
  currentDay < Z.of_nat (length sessions) ->
  let k := Z.max 0 (Z.min (currentDay + 1) daysToTaper) in
  exists sessions',
    taperDays_loop (Z.to_nat (currentDay + 1)) sessions currentDay daysToTaper
      = Ok (sessions', currentDay - k, daysToTaper - k)
    /\ length sessions' = length sessions
    /\ forall i : nat,
         sessions' !! i
           = if (currentDay - k <? Z.of_nat i) && (Z.of_nat i <=? currentDay)
             then taperSession <$> sessions !! i
             else sessions !! i.
Proof.
  cbv zeta.
  remember (Z.to_nat (currentDay + 1)) as n eqn:Hn.
  revert sessions currentDay daysToTaper Hn.
  induction n as [|n IH]; intros sessions cd d Hn Hlen.
  - exists sessions. cbn [taperDays_loop]. split; [|split; [reflexivity|]].
    + do 2 f_equal; [f_equal|]; lia.
    + intros i.
      destruct ((cd - Z.max 0 (Z.min (cd + 1) d) <? Z.of_nat i)
                && (Z.of_nat i <=? cd)) eqn:Hi; [lia|reflexivity].
  - cbn [taperDays_loop].
    assert (0 <= cd) as Hcd by lia.
    destruct (0 <=? cd) eqn:H0; [|lia]. cbn [andb].
    destruct (0 <? d) eqn:Hd.
    + destruct (sessions !! Z.to_nat cd) as [s|] eqn:Hs.
      * destruct (IH (<[Z.to_nat cd := taperSession s]> sessions) (cd - 1) (d - 1))
          as (sessions' & Hr & Hl & Hc).
        { lia. }
        { rewrite length_insert. lia. }
        exists sessions'. rewrite length_insert in Hl.
        split; [|split; [exact Hl|]].
        { rewrite Hr. do 2 f_equal; [f_equal|]; lia. }
        intros i. rewrite Hc.
        replace (cd - 1 - Z.max 0 (Z.min (cd - 1 + 1) (d - 1)))
          with (cd - Z.max 0 (Z.min (cd + 1) d)) by lia.
        destruct (Nat.eq_dec i (Z.to_nat cd)) as [->|Hne].
        -- rewrite Z2Nat.id by lia.
           rewrite list_lookup_insert_eq by (apply lookup_lt_is_Some; eauto).
           rewrite Hs.
           destruct (cd - Z.max 0 (Z.min (cd + 1) d) <? cd) eqn:H1; [|lia].
           destruct (cd <=? cd - 1) eqn:H2; [lia|].
           destruct (cd <=? cd) eqn:H3; [|lia].
           rewrite andb_false_r. reflexivity.
        -- rewrite list_lookup_insert_ne by auto.
           destruct (cd - Z.max 0 (Z.min (cd + 1) d) <? Z.of_nat i) eqn:H1;
             [|reflexivity]. cbn [andb].
           destruct (Z.of_nat i <=? cd - 1) eqn:H2,
                    (Z.of_nat i <=? cd) eqn:H3; try reflexivity; lia.
      * apply lookup_ge_None in Hs. lia.
    + exists sessions. split; [|split; [reflexivity|]].
      * do 2 f_equal; [f_equal|]; lia.
      * intros i.
        destruct ((cd - Z.max 0 (Z.min (cd + 1) d) <? Z.of_nat i)
                  && (Z.of_nat i <=? cd)) eqn:Hi; [lia|reflexivity].
Qed.

Lemma taperWeeks_loop_done (fuel : nat) sessions currentWeek currentDay :
  taperWeeks_loop fuel sessions 0 currentWeek currentDay = Some (Ok sessions).
Proof. destruct fuel; reflexivity. Qed.

(** The outer loop returns within two iterations when the days before the
    race in its week cover the taper, or when there is an earlier week to
    wrap from. *)
Lemma taperWeeks_loop_returns (fuel : nat) sessions daysToTaper currentWeek
    currentDay :
  (2 <= fuel)%nat -> length sessions = 7%nat ->
  0 <= daysToTaper <= 7 -> 0 <= currentWeek -> currentDay < 7 ->
  1 <= currentWeek \/ daysToTaper <= currentDay + 1 ->
  exists sessions',
    taperWeeks_loop fuel sessions daysToTaper currentWeek currentDay
      = Some (Ok sessions')
    /\ length sessions' = 7%nat.
Proof.
  intros Hfuel Hlen Hd Hw Hcd Hcase.
  destruct fuel as [|[|fuel]]; [lia|lia|].
  destruct (Z.eq_dec daysToTaper 0) as [->|Hd0].
  { exists sessions. split; [apply taperWeeks_loop_done|exact Hlen]. }
  cbn [taperWeeks_loop].
  destruct (0 <? daysToTaper) eqn:H1; [|lia].
  destruct (0 <=? currentWeek) eqn:H2; [|lia]. cbn [andb].
  destruct (taperDays_loop_result sessions currentDay daysToTaper)
    as (s1 & -> & Hl1 & _); [lia|].
  set (k := Z.max 0 (Z.min (currentDay + 1) daysToTaper)).
  destruct (Z.eq_dec (daysToTaper - k) 0) as [Hk|Hk].
  - rewrite Hk. cbn [Z.ltb Z.compare andb].
    exists s1. destruct (0 <=? currentWeek); (split; [reflexivity|lia]).
  - assert (0 < daysToTaper - k) as Hpos by lia.
    assert (1 <= currentWeek) as Hw1 by lia.
    destruct (0 <? daysToTaper - k) eqn:H3; [|lia].
    destruct (0 <? currentWeek) eqn:H4; [|lia]. cbn [andb].
    destruct (0 <=? currentWeek - 1) eqn:H5; [|lia].
    destruct (taperDays_loop_result s1 6 (daysToTaper - k)) as (s2 & Hr2 & Hl2 & _);
      [lia|].
    change (Z.to_nat (6 + 1)) with 7%nat in *.
    replace (daysToTaper - k - Z.max 0 (Z.min (6 + 1) (daysToTaper - k)))
      with 0 in Hr2 by lia.
    rewrite Hr2. cbn [Z.ltb Z.compare andb].
    exists s2. rewrite taperWeeks_loop_done. split; [reflexivity|lia].
Qed.

(** In week 1 the outer loop never exits when more days remain to taper
    than there are days before the race: [currentWeek] stays 0,
    [daysToTaper] stays positive and [currentDay] negative. *)
Lemma taperWeeks_loop_week1_diverges (fuel : nat) :
  forall sessions daysToTaper currentDay,
    currentDay < Z.of_nat (length sessions) ->
    Z.max 0 (currentDay + 1) < daysToTaper ->
    taperWeeks_loop fuel sessions daysToTaper 0 currentDay = None.
Proof.
  induction fuel as [|fuel IH]; intros sessions d cd Hcd Hd;
    cbn [taperWeeks_loop]; (destruct (0 <? d) eqn:H1; [|lia]);
    cbn [Z.leb Z.compare andb]; [reflexivity|].
  destruct (taperDays_loop_result sessions cd d) as (s1 & -> & Hl1 & _); [lia|].
  rewrite andb_false_r. apply IH; lia.
Qed.

(** The block of the example is the plan [createTrainingPlan] returns for
    its input on the reference host. *)
Lemma exampleBlock_created :
  createTrainingPlan (host := fdlibm_host) exampleInput = Ok exampleBlock.
Proof. vm_compute. reflexivity. Qed.

(** A tapered threshold session keeps its type, repetitions and paces; a
    tapered long run becomes a 40-minute easy run. *)
Lemma taperSession_threshold (session : TrainingSession.t) :
  TrainingSession.type session = SessionType.threshold ->
  let session' := taperSession session in
  TrainingSession.type session' = SessionType.threshold
  /\ TrainingSession.title session' = "NS Intervals (Taper)"
  /\ TrainingSession.intervals session' = TrainingSession.intervals session
  /\ TrainingSession.paces session' = TrainingSession.paces session
  /\ TrainingSession.day session' = TrainingSession.day session.
Proof. unfold taperSession. intros ->. cbn. auto. Qed.

Lemma taperSession_long (session : TrainingSession.t) :
  TrainingSession.type session = SessionType.long ->
  let session' := taperSession session in
  TrainingSession.type session' = SessionType.easy
  /\ TrainingSession.description session' = "40 min @ easy pace"
  /\ TrainingSession.duration session' = Some 40
  /\ TrainingSession.day session' = TrainingSession.day session.
Proof. unfold taperSession. intros ->. cbn. auto. Qed.

Lemma taperDaysOf_bounds (race : Race.t) : 3 <= taperDaysOf race <= 7.
Proof. unfold taperDaysOf. destruct (Race.type race); lia. Qed.

(** Week 1 placements whose taper window starts before the block: the call
    never returns, whatever the fuel. *)
Lemma applyRaceTapering_week1_never_returns (fuel : nat) block race raceDay week0 :
  TrainingBlock.weeks block !! 0%nat = Some week0 ->
  raceDay <= taperDaysOf race ->
  raceDay <= Z.of_nat (length (WeekPlan.sessions week0)) + 1 ->
  applyRaceTapering fuel block race 1 raceDay = None.
Proof.
  intros Hw Hd Hlen. unfold applyRaceTapering.
  change (1 - 1) with 0. change (Z.to_nat 0) with 0%nat.
  cbn [Z.ltb Z.compare orb].
  assert (0 < length (TrainingBlock.weeks block))%nat as Hl
    by (apply lookup_lt_is_Some; eauto).
  destruct (Z.of_nat (length (TrainingBlock.weeks block)) <=? 0) eqn:H0; [lia|].
  rewrite Hw. fold (taperDaysOf race).
  pose proof (taperDaysOf_bounds race) as Ht.
  rewrite taperWeeks_loop_week1_diverges; [reflexivity| |lia].
  destruct ((0 <=? raceDay - 1)
            && (raceDay - 1 <? Z.of_nat (length (WeekPlan.sessions week0))));
    rewrite ?length_insert; lia.
Qed.

(** Where the taper fits in the days before the race in its own week, the
    call does what is expected of it: the race day becomes the race
    session, the [taperDays] sessions before it are tapered, and the other
    sessions of the week stay. *)
Lemma applyRaceTapering_within_week (fuel : nat) block race raceWeek raceDay week :
  (1 <= fuel)%nat ->
  1 <= raceWeek ->
  TrainingBlock.weeks block !! Z.to_nat (raceWeek - 1) = Some week ->
  taperDaysOf race < raceDay <= Z.of_nat (length (WeekPlan.sessions week)) ->
  exists block' week',
    applyRaceTapering fuel block race raceWeek raceDay = Some (Ok block')
    /\ TrainingBlock.weeks block' !! Z.to_nat (raceWeek - 1) = Some week'
    /\ forall i : nat,
         WeekPlan.sessions week' !! i
           = if Z.of_nat i =? raceDay - 1 then Some (raceSession race raceDay)
             else if (raceDay - 1 - taperDaysOf race <=? Z.of_nat i)
                     && (Z.of_nat i <? raceDay - 1)
                  then taperSession <$> WeekPlan.sessions week !! i
                  else WeekPlan.sessions week !! i.
Proof.
  intros Hfuel Hw Hweek Hday.
  pose proof (taperDaysOf_bounds race) as Ht.
  assert (Z.to_nat (raceWeek - 1) < length (TrainingBlock.weeks block))%nat as Hl
    by (apply lookup_lt_is_Some; eauto).
  unfold applyRaceTapering. fold (taperDaysOf race).
  destruct ((raceWeek - 1 <? 0) || _) eqn:Hg; [lia|].
  rewrite Hweek.
  destruct ((0 <=? raceDay - 1)
            && (raceDay - 1 <? Z.of_nat (length (WeekPlan.sessions week))))
    eqn:Hin; [|lia].
  set (sessions1 := <[Z.to_nat (raceDay - 1) := raceSession race raceDay]>
                      (WeekPlan.sessions week)).
  assert (length sessions1 = length (WeekPlan.sessions week)) as Hl1
    by apply length_insert.
  destruct fuel as [|fuel]; [lia|]. cbn [taperWeeks_loop].
  destruct (0 <? taperDaysOf race) eqn:H1; [|lia].
  destruct (0 <=? raceWeek - 1) eqn:H2; [|lia]. cbn [andb].
  destruct (taperDays_loop_result sessions1 (raceDay - 1 - 1) (taperDaysOf race))
    as (s' & -> & Hl' & Hc); [lia|].
  replace (Z.max 0 (Z.min (raceDay - 1 - 1 + 1) (taperDaysOf race)))
    with (taperDaysOf race) in * by lia.
  rewrite Z.sub_diag. cbn [Z.ltb Z.compare andb].
  rewrite taperWeeks_loop_done.
  eexists. eexists. split; [reflexivity|]. cbn [TrainingBlock.weeks].
  split; [apply list_lookup_insert_eq; exact Hl|].
  intros i. cbn [WeekPlan.sessions]. rewrite Hc. subst sessions1.
  destruct (Z.of_nat i =? raceDay - 1) eqn:Hi.
  - assert (i = Z.to_nat (raceDay - 1)) as -> by lia.
    destruct (raceDay - 1 - 1 - taperDaysOf race <? Z.of_nat (Z.to_nat (raceDay - 1)));
      cbn [andb];
      (destruct (Z.of_nat (Z.to_nat (raceDay - 1)) <=? raceDay - 1 - 1) eqn:H3; [lia|]);
      apply list_lookup_insert_eq; lia.
  - rewrite list_lookup_insert_ne by lia.
    destruct (raceDay - 1 - 1 - taperDaysOf race <? Z.of_nat i) eqn:H3,
             (Z.of_nat i <=? raceDay - 1 - 1) eqn:H4,
             (raceDay - 1 - taperDaysOf race <=? Z.of_nat i) eqn:H5,
             (Z.of_nat i <? raceDay - 1) eqn:H6;
      cbn [andb]; try reflexivity; lia.
Qed.

(** C6, the code at two placements of a priority race (7 taper days) in
    the example block.  Race on Wednesday of week 2: two taper days fall in
    week 2 and five should fall in week 1, from its Sunday backwards; the
    call leaves week 1 as it was and rewrites instead the Sunday, Saturday
    and Thursday that follow the race in week 2.  Race on Wednesday of
    week 1: the call never returns. *)
Theorem applyRaceTapering_wraps_inside_race_week :
  (exists block' week2,
     applyRaceTapering 2 exampleBlock exampleRace 2 3 = Some (Ok block')
     /\ TrainingBlock.weeks block' !! 0%nat = TrainingBlock.weeks exampleBlock !! 0%nat
     /\ TrainingBlock.weeks block' !! 1%nat = Some week2
     /\ map (fun s => (TrainingSession.type s, TrainingSession.title s))
            (WeekPlan.sessions week2)
        = [ (SessionType.easy, "Easy Run");
            (SessionType.threshold, "NS Intervals (Taper)");
            (SessionType.race, "Race Day: City 10K");
            (SessionType.threshold, "NS Intervals (Taper)");
            (SessionType.easy, "Easy Run");
            (SessionType.threshold, "NS Intervals (Taper)");
            (SessionType.easy, "Easy Run (Taper)") ])
  /\ (forall fuel, applyRaceTapering fuel exampleBlock exampleRace 1 3 = None).
Proof.
  split.
  - eexists. eexists. split; [vm_compute; reflexivity|].
    split; [reflexivity|]. split; reflexivity.
  - intros fuel.
    eapply applyRaceTapering_week1_never_returns;
      [reflexivity|vm_compute; discriminate|vm_compute; discriminate].
Qed.

(** C10: a call that returns leaves [blockNumber], [vdot], [paces] and the
    dates as they were and every week but the race week equal to the input
    week; a [raceWeek] outside the weeks of the block (outside 1..6 for a
    block of six weeks) returns the block itself; and the call does return,
    within two iterations of the outer loop, for a race week of seven
    sessions and a race day up to 8 when the race is in week 2 or later or
    its taper fits in the days before it. *)
Theorem applyRaceTapering_frame (fuel : nat) block race raceWeek raceDay :
  (raceWeek < 1 \/ Z.of_nat (length (TrainingBlock.weeks block)) < raceWeek ->
     applyRaceTapering fuel block race raceWeek raceDay = Some (Ok block))
  /\ (forall block',
        applyRaceTapering fuel block race raceWeek raceDay = Some (Ok block') ->
        TrainingBlock.blockNumber block' = TrainingBlock.blockNumber block
        /\ TrainingBlock.vdot block' = TrainingBlock.vdot block
        /\ TrainingBlock.paces block' = TrainingBlock.paces block
        /\ TrainingBlock.startDate block' = TrainingBlock.startDate block
        /\ TrainingBlock.endDate block' = TrainingBlock.endDate block
        /\ length (TrainingBlock.weeks block') = length (TrainingBlock.weeks block)
        /\ forall i : nat,
             i <> Z.to_nat (raceWeek - 1) ->
             TrainingBlock.weeks block' !! i = TrainingBlock.weeks block !! i)
  /\ (forall week,
        (2 <= fuel)%nat ->
        TrainingBlock.weeks block !! Z.to_nat (raceWeek - 1) = Some week ->
        length (WeekPlan.sessions week) = 7%nat ->
        1 <= raceWeek -> raceDay <= 8 ->
        2 <= raceWeek \/ taperDaysOf race < raceDay ->
        exists block',
          applyRaceTapering fuel block race raceWeek raceDay = Some (Ok block')).
Proof.
  unfold applyRaceTapering. fold (taperDaysOf race).
  split; [|split].
  - intros H.
    destruct ((raceWeek - 1 <? 0)
              || (Z.of_nat (length (TrainingBlock.weeks block)) <=? raceWeek - 1))
      eqn:Hg; [reflexivity|lia].
  - intros block'.
    destruct ((raceWeek - 1 <? 0) || _) eqn:Hg.
    { intros [= <-]. repeat split; reflexivity. }
    destruct (TrainingBlock.weeks block !! Z.to_nat (raceWeek - 1)) as [week0|];
      [|discriminate].
    destruct (taperWeeks_loop _ _ _ _ _) as [[sessions|e]|]; try discriminate.
    intros [= <-]. cbn.
    repeat split; try reflexivity.
    + apply length_insert.
    + intros i Hi. apply list_lookup_insert_ne. auto.
  - intros week Hfuel Hweek Hlen Hw Hday Hcase.
    assert (Z.to_nat (raceWeek - 1) < length (TrainingBlock.weeks block))%nat as Hl
      by (apply lookup_lt_is_Some; eauto).
    destruct ((raceWeek - 1 <? 0) || _) eqn:Hg; [lia|].
    rewrite Hweek.
    set (sessions1 := if (0 <=? raceDay - 1) && _ then _ else _).
    assert (length sessions1 = 7%nat) as Hl1.
    { subst sessions1. destruct (_ && _); rewrite ?length_insert; exact Hlen. }
    destruct (taperWeeks_loop_returns fuel sessions1 (taperDaysOf race)
                (raceWeek - 1) (raceDay - 1 - 1)) as (s' & -> & _); eauto.
    + pose proof (taperDaysOf_bounds race). lia.
    + lia.
    + lia.
    + lia.
Qed.

(** C10 on the example: a priority race on Wednesday of week 2 returns a
    block. *)
Lemma applyRaceTapering_frame_witness :
  exists block', applyRaceTapering 2 exampleBlock exampleRace 2 3 = Some (Ok block').
Proof.
  refine (proj2 (proj2 (applyRaceTapering_frame 2 exampleBlock exampleRace 2 3))
            _ _ _ _ _ _ _).
  - lia.
  - reflexivity.
  - reflexivity.
  - lia.
  - lia.
  - left. lia.
Defined.

(* ===================================================================== *)
(** ** Monotonicity of [calculateVDOT]                                     *)
(* ===================================================================== *)

Lemma SFleb_trans (x y z : spec_float) :
  SFleb x y = true -> SFleb y z = true -> SFleb x z = true.
Proof.
  unfold SFleb, SFcompare.
  destruct x as [sx|sx| |sx mx ex], y as [sy|sy| |sy my ey],
           z as [sz|sz| |sz mz ez];
    try discriminate; try reflexivity;
    repeat match goal with s : bool |- _ => destruct s end;
    try discriminate; try reflexivity;
    destruct (Z.compare_spec ex ey), (Z.compare_spec ey ez),
             (Z.compare_spec ex ez);
    try discriminate; try reflexivity; try lia; subst;
    change (Pos.compare_cont Eq ?a ?b) with (Pos.compare a b);
    destruct (Pos.compare_spec mx my), (Pos.compare_spec my mz),
             (Pos.compare_spec mx mz);
    simpl; try discriminate; try reflexivity; try lia.
Qed.

Lemma leb_trans (x y z : number) :
  (x <=? y)%float = true -> (y <=? z)%float = true -> (x <=? z)%float = true.
Proof. rewrite !leb_spec. apply SFleb_trans. Qed.






(* ===================================================================== *)
(** ** Times and paces on the clock                                        *)
(* ===================================================================== *)

Lemma same_eq (x y : number) : same x y = true -> x = y.
Proof. apply Leibniz.eqb_spec. Qed.

Lemma split_app_sep (sep : ascii) (a b : string) :
  free_of sep a = true ->
  split sep (a ++ String sep b) = a :: split sep b.
Proof.
  induction a as [|c a IH]; cbn [free_of append split]; intros H.
  - rewrite Ascii.eqb_refl. reflexivity.
  - apply andb_prop in H as [Hc H]. apply negb_true_iff in Hc. rewrite Hc.
    rewrite (IH H). reflexivity.
Qed.

Lemma split_free_id (sep : ascii) (a : string) :
  free_of sep a = true -> split sep a = [a].
Proof.
  induction a as [|c a IH]; cbn [free_of split]; intros H; [reflexivity|].
  apply andb_prop in H as [Hc H]. apply negb_true_iff in Hc. rewrite Hc.
  rewrite (IH H). reflexivity.
Qed.

Lemma nonempty_app (a b : string) : nonempty a = true -> nonempty (a ++ b) = true.
Proof. destruct a; [discriminate|reflexivity]. Qed.

Lemma sexagesimal_table : forallFrom 60 0 sexagesimal = true.
Proof. vm_compute. reflexivity. Qed.

Lemma sexagesimal_spec (k : Z) :
  0 <= k < 60 ->
  free_of ":" (Z_toString k) = true /\ free_of ":" (pad2 k) = true
  /\ nonempty (Z_toString k) = true
  /\ Number (Z_toString k) = of_Z k /\ Number (pad2 k) = of_Z k
  /\ Number_toString (of_Z k) = Z_toString k
  /\ isNaN (of_Z k) = false
  /\ (60 <=? of_Z k)%float = false /\ (of_Z k <? 0)%float = false.
Proof.
  intros Hk.
  pose proof (forallFrom_spec _ _ _ sexagesimal_table k ltac:(lia)) as H.
  unfold sexagesimal in H.
  repeat (apply andb_prop in H as [H ?]).
  repeat match goal with
         | H : same _ _ = true |- _ => apply same_eq in H
         | H : String.eqb _ _ = true |- _ => apply String.eqb_eq in H
         | H : negb _ = true |- _ => apply negb_true_iff in H
         end.
  repeat split; assumption.
Qed.

Lemma clockArithmetic_table :
  forallFrom (Z.to_nat 21601) 0 clockArithmetic = true.
Proof. vm_compute. reflexivity. Qed.

Lemma clockArithmetic_spec (n : Z) :
  0 <= n <= 21600 ->
  let x := of_Z n in
  Math_floor (x / 3600)%float = of_Z (n / 3600)
  /\ Math_floor (Number_remainder x 3600%float / 60)%float = of_Z (n mod 3600 / 60)
  /\ Math_round (Number_remainder x 60%float) = of_Z (n mod 60)
  /\ (of_Z (n / 3600) * 3600 + of_Z (n mod 3600 / 60) * 60 + of_Z (n mod 60))%float
     = x
  /\ Math_floor (x / 60)%float = of_Z (n / 60).
Proof.
  intros Hn.
  pose proof (forallFrom_spec _ _ _ clockArithmetic_table n
                ltac:(rewrite Z2Nat.id; lia)) as H.
  unfold clockArithmetic in H.
  repeat (apply andb_prop in H as [H ?]).
  repeat match goal with
         | H : same _ _ = true |- _ => apply same_eq in H
         end.
  cbv zeta. repeat split; assumption.
Qed.

Lemma clock_parts (n : Z) :
  0 <= n ->
  0 <= n / 3600 /\ 0 <= n mod 3600 / 60 < 60 /\ 0 <= n mod 60 < 60
  /\ (n / 3600 = 0 -> n mod 3600 / 60 = n / 60).
Proof.
  intros Hn.
  pose proof (Z.div_mod n 3600 ltac:(lia)).
  pose proof (Z.mod_pos_bound n 3600 ltac:(lia)).
  pose proof (Z.mod_pos_bound n 60 ltac:(lia)).
  pose proof (Z.div_pos n 3600 ltac:(lia) ltac:(lia)).
  pose proof (Z.div_pos (n mod 3600) 60 ltac:(lia) ltac:(lia)).
  assert (n mod 3600 / 60 < 60) by (apply Z.div_lt_upper_bound; lia).
  repeat split; try lia.
  intros Hz. f_equal. lia.
Qed.

(** [formatTime] prints a whole number of seconds up to six hours as the
    clock shows it. *)
Lemma formatTime_whole (n : Z) :
  0 <= n <= 21600 -> formatTime (of_Z n) = clock n.
Proof.
  intros Hn. destruct (clockArithmetic_spec n Hn) as (Hh & Hm & Hs & _ & _).
  destruct (clock_parts n ltac:(lia)) as (H0 & H1 & H2 & _).
  assert (n / 3600 < 60) as H3 by (apply Z.div_lt_upper_bound; lia).
  unfold formatTime, clock. rewrite Hh, Hm, Hs.
  destruct (sexagesimal_spec (n / 3600) ltac:(lia)) as (_ & _ & _ & _ & _ & -> & _).
  destruct (sexagesimal_spec (n mod 3600 / 60) ltac:(lia))
    as (_ & _ & _ & _ & _ & -> & _).
  destruct (sexagesimal_spec (n mod 60) ltac:(lia)) as (_ & _ & _ & _ & _ & -> & _).
  fold (pad2 (n mod 3600 / 60)). fold (pad2 (n mod 60)).
  assert (n / 3600 <= 6) as H6 by (apply Z.div_le_upper_bound; lia).
  assert (n / 3600 = 0 \/ n / 3600 = 1 \/ n / 3600 = 2 \/ n / 3600 = 3
          \/ n / 3600 = 4 \/ n / 3600 = 5 \/ n / 3600 = 6)
    as [->|[->|[->|[->|[->|[->| ->]]]]]] by lia; reflexivity.
Qed.

(** [parseTime] reads a clock string back into its fields. *)
Lemma parseTime_clock (n : Z) :
  0 <= n <= 21600 -> parseTime (clock n) = Some (clockFields n).
Proof.
  intros Hn. destruct (clockArithmetic_spec n Hn) as (_ & _ & _ & Ht & _).
  destruct (clock_parts n ltac:(lia)) as (H0 & H1 & H2 & _).
  assert (n / 3600 < 60) as H3 by (apply Z.div_lt_upper_bound; lia).
  destruct (sexagesimal_spec (n / 3600) ltac:(lia))
    as (Fh & _ & Eh & Nh & _ & _ & NaNh & _ & Neg_h).
  destruct (sexagesimal_spec (n mod 3600 / 60) ltac:(lia))
    as (Fm & Fm2 & Em & Nm & Nm2 & _ & NaNm & Bm & Neg_m).
  destruct (sexagesimal_spec (n mod 60) ltac:(lia))
    as (_ & Fs2 & _ & _ & Ns2 & _ & NaNs & Bs & Neg_s).
  rewrite parseTime_unfold. unfold clock, clockFields, timeFields, outOfRange.
  destruct (0 <? n / 3600) eqn:Hh.
  - rewrite nonempty_app by exact Eh. cbn [negb].
    change (Z_toString (n / 3600) ++ ":" ++ pad2 (n mod 3600 / 60) ++ ":"
              ++ pad2 (n mod 60))
      with (Z_toString (n / 3600)
              ++ String ":" (pad2 (n mod 3600 / 60) ++ String ":" (pad2 (n mod 60)))).
    rewrite split_app_sep by exact Fh. rewrite split_app_sep by exact Fm2.
    rewrite split_free_id by exact Fs2.
    cbn [map]. rewrite Nh, Nm2, Ns2. cbn [existsb]. rewrite NaNh, NaNm, NaNs.
    cbn [orb]. rewrite Bm, Bs, Neg_m, Neg_s, Neg_h. cbn [orb].
    rewrite Ht. reflexivity.
  - assert (n / 3600 = 0) as E0 by lia. rewrite E0 in *.
    rewrite nonempty_app by exact Em. cbn [negb].
    change (Z_toString (n mod 3600 / 60) ++ ":" ++ pad2 (n mod 60))
      with (Z_toString (n mod 3600 / 60) ++ String ":" (pad2 (n mod 60))).
    rewrite split_app_sep by exact Fm. rewrite split_free_id by exact Fs2.
    cbn [map]. rewrite Nm, Ns2. cbn [existsb]. rewrite NaNm, NaNs.
    cbn [orb]. rewrite Bm, Bs, Neg_m, Neg_s.
    change (0 <? 0)%float with false. cbn [orb].
    change (of_Z 0) with 0%float in Ht. rewrite Ht. reflexivity.
Qed.

(** [formatPace] prints a whole pace below one hour per kilometre as the
    clock shows it. *)
Lemma formatPace_whole (p : Z) :
  0 <= p < 3600 -> formatPace (of_Z p) km = clock p.
Proof.
  intros Hp. destruct (clockArithmetic_spec p ltac:(lia)) as (_ & _ & Hs & _ & Hm).
  destruct (clock_parts p ltac:(lia)) as (H0 & H1 & H2 & Hq).
  assert (p / 3600 = 0) as E0 by (apply Z.div_small; lia).
  unfold formatPace, clock. rewrite Hm, Hs, E0, (Hq E0).
  assert (0 <= p / 60 < 60) as H3 by (rewrite <- (Hq E0); exact H1).
  destruct (sexagesimal_spec (p / 60) ltac:(lia)) as (_ & _ & _ & _ & _ & -> & _).
  destruct (sexagesimal_spec (p mod 60) ltac:(lia)) as (_ & _ & _ & _ & _ & -> & _).
  reflexivity.
Qed.

(** X1: a whole number of seconds up to six hours (the range of the times
    the program computes) is printed by [formatTime] as [m:ss] below one hour
    and as [h:mm:ss] from one hour on, and [parseTime] reads the string back
    into the same hours, minutes, seconds and total. *)
Theorem formatTime_parseTime_round_trip (n : Z) :
  0 <= n <= 21600 ->
  formatTime (of_Z n) = clock n
  /\ parseTime (formatTime (of_Z n)) = Some (clockFields n).
Proof.
  intros Hn. rewrite (formatTime_whole n Hn).
  split; [reflexivity|apply parseTime_clock; exact Hn].
Qed.

(** X1 at 3661 seconds: "1:01:01". *)
Lemma formatTime_parseTime_round_trip_witness :
  formatTime (of_Z 3661) = "1:01:01"
  /\ parseTime (formatTime (of_Z 3661)) = Some (clockFields 3661).
Proof.
  destruct (formatTime_parseTime_round_trip 3661 ltac:(lia)) as [H1 H2].
  split; [exact H1|exact H2].
Defined.

(** X2: with the default unit, [formatPace] prints a whole pace below one
    hour per kilometre as [m:ss] with seconds below 60, and [parseTime] reads
    the string back as the same number of seconds. *)
Theorem formatPace_km_round_trip (p : Z) :
  0 <= p < 3600 ->
  formatPace (of_Z p) km = clock p
  /\ parseTime (formatPace (of_Z p) km) = Some (clockFields p)
  /\ ParsedTime.hours (clockFields p) = 0%float.
Proof.
  intros Hp. rewrite (formatPace_whole p Hp).
  split; [reflexivity|]. split; [apply parseTime_clock; lia|].
  cbn [clockFields ParsedTime.hours]. rewrite Z.div_small by lia. reflexivity.
Qed.

(** X2 at 234 s/km: "3:54". *)
Lemma formatPace_km_round_trip_witness :
  formatPace (of_Z 234) km = "3:54"
  /\ parseTime (formatPace (of_Z 234) km) = Some (clockFields 234).
Proof.
  destruct (formatPace_km_round_trip 234 ltac:(lia)) as (H1 & H2 & _).
  split; [exact H1|exact H2].
Defined.

Lemma formatPace_mile_table :
  forallFrom 451 150
    (fun p =>
       Bool.eqb
         (match parseTime (formatPace (of_Z p) mile) with
          | None => true
          | Some _ => false
          end)
         (existsb (Z.eqb p) mileSixty)) = true.
Proof. vm_compute. reflexivity. Qed.

(** X3: in miles, [formatPace] does not carry a rounded-up minute.  Among
    the whole paces from 150 to 600 s/km it prints 60 seconds at 298, 410
    and 559 ("7:60", "10:60", "14:60"), strings that [parseTime] refuses;
    at every other pace of that range it prints a time that [parseTime]
    accepts. *)
Theorem formatPace_mile_sixty (p : Z) :
  150 <= p <= 600 ->
  (parseTime (formatPace (of_Z p) mile) = None <-> p ∈ mileSixty)
  /\ map (fun p => formatPace (of_Z p) mile) mileSixty = ["7:60"; "10:60"; "14:60"].
Proof.
  intros Hp. split; [|vm_compute; reflexivity].
  pose proof (forallFrom_spec _ _ _ formatPace_mile_table p ltac:(lia)) as H.
  apply Bool.eqb_prop in H.
  assert (existsb (Z.eqb p) mileSixty = true <-> p ∈ mileSixty) as Hin.
  { rewrite existsb_exists. split.
    - intros (x & Hx & E). apply Z.eqb_eq in E. subst x. by apply list_elem_of_In.
    - intros Hx. exists p. split; [by apply list_elem_of_In|apply Z.eqb_refl]. }
  rewrite <- Hin, <- H.
  destruct (parseTime _); split; congruence.
Qed.

(** X3 at 298 s/km: "7:60" is not a time. *)
Lemma formatPace_mile_sixty_witness :
  parseTime (formatPace (of_Z 298) mile) = None.
Proof.
  apply (proj1 (formatPace_mile_sixty 298 ltac:(lia))).
  unfold mileSixty. apply list_elem_of_In. simpl. auto.
Defined.

(* ===================================================================== *)
(** ** What the binary search returns                                      *)
(* ===================================================================== *)

Lemma isNaN_Prim2SF (x : number) : isNaN x = true <-> Prim2SF x = S754_nan.
Proof.
  unfold isNaN, is_nan. rewrite FloatAxioms.eqb_spec. unfold SFeqb, SFcompare.
  destruct (Prim2SF x) as [s|s| |s m e]; try (split; [discriminate|discriminate]).
  - destruct s; split; discriminate.
  - split; reflexivity.
  - rewrite Z.compare_refl.
    change (Pos.compare_cont Eq m m) with (Pos.compare m m).
    rewrite Pos.compare_refl. destruct s; split; discriminate.
Qed.

Lemma ltb_nan_l (x y : number) : isNaN x = true -> (x <? y)%float = false.
Proof.
  intros H. apply isNaN_Prim2SF in H. rewrite ltb_spec, H. reflexivity.
Qed.

Lemma abs_sub_nan (x y : number) :
  isNaN y = true -> isNaN (Math_abs (x - y)%float) = true.
Proof.
  intros H. apply isNaN_Prim2SF in H. apply isNaN_Prim2SF.
  unfold Math_abs. rewrite abs_spec, sub_spec, H.
  destruct (Prim2SF x); reflexivity.
Qed.

Section SearchResult.
Context {host : HostMath}.
Variables vdot distanceMeters : number.

Lemma searchLoop_unfold (fuel : nat) (low high : Z) :
  searchLoop (S fuel) vdot distanceMeters low high =
    if high - low >? 1 then
      if withinTolerance vdot distanceMeters ((low + high) / 2)
      then Some ((low + high) / 2)
      else if aboveTarget vdot distanceMeters ((low + high) / 2)
           then searchLoop fuel vdot distanceMeters ((low + high) / 2) high
           else searchLoop fuel vdot distanceMeters low ((low + high) / 2)
    else Some ((low + high + 1) / 2).
Proof. reflexivity. Qed.

(** What the loop returns from a bracket whose lower end lies above the
    target and whose upper end does not, unless they are the ends of the
    search range: a time within the tolerance, or the time at which the VDOT
    stops lying above the target. *)
Lemma searchLoop_result (fuel : nat) :
  forall low high t,
    low < high ->
    (low = 60 \/ aboveTarget vdot distanceMeters low = true) ->
    (high = 21600 \/ aboveTarget vdot distanceMeters high = false) ->
    searchLoop fuel vdot distanceMeters low high = Some t ->
    withinTolerance vdot distanceMeters t = true
    \/ ((t = 61 \/ aboveTarget vdot distanceMeters (t - 1) = true)
        /\ (t = 21600 \/ aboveTarget vdot distanceMeters t = false)).
Proof.
  assert (forall low high t, low < high -> ~ high - low > 1 ->
            (low + high + 1) / 2 = t -> t = high /\ low = t - 1) as Hexit.
  { intros low high t Hlt Hw <-. assert (high = low + 1) as -> by lia.
    replace (low + (low + 1) + 1) with ((low + 1) * 2) by lia.
    rewrite Z.div_mul by lia. lia. }
  induction fuel as [|fuel IH]; intros low high t Hlt Hlow Hhigh.
  - cbn [searchLoop]. destruct (high - low >? 1) eqn:Hw; [discriminate|].
    intros [= Ht]. apply Hexit in Ht as [-> ->]; [|lia|lia]. right.
    split; [destruct Hlow as [Hl|Hl]; [left; lia|right; exact Hl]|exact Hhigh].
  - rewrite searchLoop_unfold. destruct (high - low >? 1) eqn:Hw.
    + pose proof (mid_between low high ltac:(lia)) as Hm.
      destruct (withinTolerance vdot distanceMeters ((low + high) / 2)) eqn:Hc.
      { intros [= <-]. left. exact Hc. }
      destruct (aboveTarget vdot distanceMeters ((low + high) / 2)) eqn:Ha.
      * apply IH; [lia|right; exact Ha|exact Hhigh].
      * apply IH; [lia|exact Hlow|right; exact Ha].
    + intros [= Ht]. apply Hexit in Ht as [-> ->]; [|lia|lia]. right.
      split; [destruct Hlow as [Hl|Hl]; [left; lia|right; exact Hl]|exact Hhigh].
Qed.

End SearchResult.

(** X4: on every host, for every target VDOT and distance,
    [calculateTimeFromVDOT] returns a whole number of seconds [t] from 61 to
    21600, and either the VDOT of [t] is within 0.1 of the target (strictly,
    as the loop tests it), or [t] is where the loop's comparison flips: the
    VDOT of [t - 1] lies above the target unless [t] is 61, and the VDOT of
    [t] does not unless [t] is 21600.  An unreachable target is not reported:
    a [NaN] target gives 61 seconds. *)
Theorem calculateTimeFromVDOT_result `{host : HostMath}
    (vdot distanceMeters : number) :
  let t := calculateTimeFromVDOT vdot distanceMeters in
  61 <= t <= 21600
  /\ (withinTolerance vdot distanceMeters t = true
      \/ ((t = 61 \/ aboveTarget vdot distanceMeters (t - 1) = true)
          /\ (t = 21600 \/ aboveTarget vdot distanceMeters t = false)))
  /\ (isNaN vdot = true -> t = 61).
Proof.
  cbv zeta.
  destruct (calculateTimeFromVDOT_within_15 vdot distanceMeters) as [Hs Hb].
  pose proof (searchLoop_result vdot distanceMeters 15 60 21600 _ ltac:(lia)
                ltac:(left; reflexivity) ltac:(left; reflexivity) Hs) as Hr.
  split; [exact Hb|]. split; [exact Hr|].
  intros Hnan. destruct Hr as [Hw|[[H61|Ha] _]].
  - unfold withinTolerance in Hw.
    pose proof (abs_sub_nan
                  (calculateVDOT distanceMeters
                     (of_Z (calculateTimeFromVDOT vdot distanceMeters)))
                  vdot Hnan) as Hn.
    rewrite (ltb_nan_l _ _ Hn) in Hw. discriminate.
  - exact H61.
  - unfold aboveTarget in Ha. rewrite (ltb_nan_l _ _ Hnan) in Ha. discriminate.
Qed.

(** X4 on the reference host: a [NaN] target over 5 km gives 61 seconds. *)
Lemma calculateTimeFromVDOT_result_witness :
  isNaN nan = true
  /\ calculateTimeFromVDOT (host := fdlibm_host) nan 5000%float = 61.
Proof.
  split; [reflexivity|].
  apply (proj2 (proj2 (calculateTimeFromVDOT_result (host := fdlibm_host)
                         nan 5000%float))).
  reflexivity.
Defined.

(* ===================================================================== *)
(** ** The round trip through the binary search                            *)
(* ===================================================================== *)

(** *** Binary64 subtraction and comparison on the values from 16 to 128 *)

Lemma digits2_pos_log2 (p : positive) :
  Z.pos (digits2_pos p) = Z.log2 (Z.pos p) + 1.
Proof.
  assert (forall q, digits2_pos q = Pos.size q) as Hsize
    by (induction q as [q IH|q IH|]; cbn; rewrite ?IH; reflexivity).
  destruct p as [p|p|]; cbn [digits2_pos Z.log2]; rewrite ?Hsize; lia.
Qed.

Lemma digits2_pos_bounds (p : positive) :
  2 ^ (Z.pos (digits2_pos p) - 1) <= Z.pos p < 2 ^ Z.pos (digits2_pos p).
Proof.
  rewrite digits2_pos_log2.
  pose proof (Z.log2_spec (Z.pos p) ltac:(lia)) as H.
  replace (Z.log2 (Z.pos p) + 1 - 1) with (Z.log2 (Z.pos p)) by lia.
  replace (Z.log2 (Z.pos p) + 1) with (Z.succ (Z.log2 (Z.pos p))) by lia.
  exact H.
Qed.

Lemma digits2_pos_le (p : positive) (n : Z) :
  Z.pos p < 2 ^ n -> Z.pos (digits2_pos p) <= n.
Proof.
  intros H. rewrite digits2_pos_log2.
  destruct (Z_lt_le_dec n 0) as [Hn|Hn].
  - rewrite Z.pow_neg_r in H by lia. lia.
  - apply Z.log2_lt_pow2 in H; lia.
Qed.

Lemma iter_xO_spec (p k : positive) :
  Z.pos (Pos.iter xO p k) = Z.pos p * 2 ^ Z.pos k
  /\ digits2_pos (Pos.iter xO p k) = (digits2_pos p + k)%positive.
Proof.
  induction k as [|k IH] using Pos.peano_ind.
  - cbn [Pos.iter]. split; [lia|]. cbn [digits2_pos]. lia.
  - rewrite Pos.iter_succ. destruct IH as [IH1 IH2]. split.
    + rewrite Pos2Z.inj_xO, IH1, Pos2Z.inj_succ, Z.pow_succ_r by lia. lia.
    + cbn [digits2_pos]. rewrite IH2. lia.
Qed.

(** A positive integer of at most 53 bits, within the exponent range, is
    rounded to itself: to the mantissa of 53 bits that has its value. *)
Lemma binary_round_exact (s : bool) (z : positive) (e : Z) :
  Z.pos (digits2_pos z) <= 53 ->
  -1021 <= Z.pos (digits2_pos z) + e <= 1024 ->
  exists m' e',
    binary_round prec emax s z e = S754_finite s m' e'
    /\ Z.pos (digits2_pos m') = 53
    /\ e' = Z.pos (digits2_pos z) + e - 53
    /\ Z.pos m' = Z.pos z * 2 ^ (e - e').
Proof.
  intros Hd He. unfold binary_round.
  set (d := Z.pos (digits2_pos z)) in *.
  assert (fexp prec emax (d + e) = d + e - 53) as Hf
    by (unfold fexp, emin, prec, emax; lia).
  rewrite Hf. unfold shl_align.
  assert (forall m ez, Z.pos (digits2_pos m) = 53 -> -1074 <= ez <= 971 ->
            binary_round_aux prec emax s (Z.pos m) ez loc_Exact
            = S754_finite s m ez) as Haux.
  { intros m ez Hm Hez. unfold binary_round_aux, shr_fexp.
    cbn [Zdigits2]. rewrite Hm.
    assert (fexp prec emax (53 + ez) - ez = 0) as ->
      by (unfold fexp, emin, prec, emax; lia).
    cbn [shr_record_of_loc shr shr_m loc_of_shr_record round_nearest_even
         Zdigits2].
    rewrite Hm.
    assert (fexp prec emax (53 + ez) - ez = 0) as ->
      by (unfold fexp, emin, prec, emax; lia).
    cbn [shr shr_m].
    destruct (ez <=? emax - prec) eqn:E; [reflexivity|].
    unfold emax, prec in E. lia. }
  destruct (d + e - 53 - e) as [|k|k] eqn:Hk.
  - exists z, e. rewrite Haux by (fold d; lia).
    repeat split; try (fold d; lia).
    replace (e - e) with 0 by lia. lia.
  - lia.
  - destruct (iter_xO_spec z k) as [Hv Hdig].
    exists (Pos.iter xO z k), (d + e - 53).
    rewrite Haux by (rewrite ?Hdig; fold d; lia).
    repeat split.
    + rewrite Hdig. fold d. lia.
    + rewrite Hv. f_equal. f_equal. lia.
Qed.

(** The order of two positive finite values. *)
Lemma SFcompare_finite (m1 : positive) (e1 : Z) (m2 : positive) (e2 : Z) :
  SFcompare (S754_finite false m1 e1) (S754_finite false m2 e2)
  = Some match e1 ?= e2 with
         | Lt => Lt
         | Gt => Gt
         | Eq => Z.pos m1 ?= Z.pos m2
         end.
Proof. reflexivity. Qed.

Lemma Prim2SF_tolerance :
  Prim2SF 0.1 = S754_finite false 7205759403792794 (-56).
Proof. vm_compute. reflexivity. Qed.

(** The test [|x| < 0.1] on a rounded integer of at most 53 bits, in units
    of [2^e]. *)
Lemma binary_round_lt_tolerance (s : bool) (z : positive) (e : Z) :
  Z.pos z < 2 ^ 53 -> -56 <= e <= 0 ->
  SFltb (SFabs (binary_round prec emax s z e)) (Prim2SF 0.1)
    = (Z.pos z * 2 ^ (e + 56) <? tolerance56).
Proof.
  intros Hz He.
  pose proof (digits2_pos_le z 53 Hz) as Hd.
  pose proof (digits2_pos_bounds z) as Hb.
  assert (1 <= Z.pos (digits2_pos z)) as Hd1 by lia.
  destruct (binary_round_exact s z e Hd ltac:(lia)) as (m' & e' & -> & Hm' & He' & Hv).
  pose proof (digits2_pos_bounds m') as Hb'. rewrite Hm' in Hb'.
  change (2 ^ (53 - 1)) with 4503599627370496 in Hb'.
  change (2 ^ 53) with 9007199254740992 in Hb', Hz.
  rewrite Prim2SF_tolerance. cbn [SFabs]. unfold SFltb.
  rewrite SFcompare_finite.
  unfold tolerance56.
  assert (0 <= e - e') as Hs by lia.
  destruct (Z.compare_spec e' (-56)) as [Heq|Hlt|Hgt].
  - assert (e + 56 = e - e') as -> by lia. rewrite <- Hv.
    destruct (Z.compare_spec (Z.pos m') 7205759403792794) as [H|H|H]; symmetry;
      [apply Z.ltb_ge|apply Z.ltb_lt|apply Z.ltb_ge]; clear - H; lia.
  - symmetry. apply Z.ltb_lt.
    assert (e - e' = (e + 56) + (- 56 - e')) as Hsplit by (clear - Hs; lia).
    rewrite Hsplit, Z.pow_add_r in Hv by (clear - He Hlt; lia).
    assert (2 <= 2 ^ (-56 - e')) as Hp.
    { change 2 with (2 ^ 1) at 1. apply Z.pow_le_mono_r; clear - Hlt; lia. }
    assert (0 < 2 ^ (e + 56)) as Hq by (apply Z.pow_pos_nonneg; clear - He; lia).
    clear - Hv Hp Hq Hb'. nia.
  - symmetry. apply Z.ltb_ge.
    assert (e + 56 = (e - e') + (e' + 56)) as Hsplit by (clear - Hs; lia).
    rewrite Hsplit, Z.pow_add_r by (clear - Hs Hgt; lia).
    assert (2 <= 2 ^ (e' + 56)) as Hp.
    { change 2 with (2 ^ 1) at 1. apply Z.pow_le_mono_r; clear - Hgt; lia. }
    clear - Hv Hp Hb'. nia.
Qed.

Lemma shl_align_value (mx : positive) (ex ez : Z) :
  ez <= ex -> Z.pos (fst (shl_align mx ex ez)) = Z.pos mx * 2 ^ (ex - ez).
Proof.
  intros H. unfold shl_align.
  destruct (ez - ex) as [|d|d] eqn:Hd; cbn [fst].
  - replace (ex - ez) with 0 by lia. lia.
  - lia.
  - rewrite (proj1 (iter_xO_spec mx d)). f_equal. f_equal. lia.
Qed.

Lemma fixed56_spec (x : number) (X : Z) :
  fixed56 x = Some X ->
  exists m e,
    Prim2SF x = S754_finite false m e
    /\ 2 ^ 52 <= Z.pos m < 2 ^ 53
    /\ -48 <= e <= -46
    /\ X = Z.pos m * 2 ^ (e + 56).
Proof.
  unfold fixed56. destruct (Prim2SF x) as [| | |[] m e]; try discriminate.
  destruct (Z.pos (digits2_pos m) =? 53) eqn:Hd; [|discriminate].
  destruct (-48 <=? e) eqn:H1; [|discriminate].
  destruct (e <=? -46) eqn:H2; [|discriminate].
  cbn [andb]. intros [= <-]. exists m, e.
  pose proof (digits2_pos_bounds m) as Hb.
  apply Z.eqb_eq in Hd. rewrite Hd in Hb.
  repeat split; try lia; apply Hb.
Qed.

(** The comparison of two such values is that of their fixed-point
    forms. *)
Lemma fixed56_ltb (x y : number) (X Y : Z) :
  fixed56 x = Some X -> fixed56 y = Some Y ->
  (x <? y)%float = (X <? Y).
Proof.
  intros Hx Hy.
  destruct (fixed56_spec x X Hx) as (mx & ex & Ex & Hmx & Hex & ->).
  destruct (fixed56_spec y Y Hy) as (my & ey & Ey & Hmy & Hey & ->).
  rewrite ltb_spec, Ex, Ey. unfold SFltb. rewrite SFcompare_finite.
  change (2 ^ 52) with 4503599627370496 in *.
  change (2 ^ 53) with 9007199254740992 in *.
  assert (ex = -48 \/ ex = -47 \/ ex = -46) as Cx by lia.
  assert (ey = -48 \/ ey = -47 \/ ey = -46) as Cy by lia.
  clear Ex Ey Hx Hy Hex Hey.
  destruct (Z.compare_spec ex ey) as [Heq|Hlt|Hgt].
  - subst ey.
    assert (0 < 2 ^ (ex + 56)) as Hp by (apply Z.pow_pos_nonneg; lia).
    destruct (Z.compare_spec (Z.pos mx) (Z.pos my)) as [H|H|H]; symmetry;
      [apply Z.ltb_ge|apply Z.ltb_lt|apply Z.ltb_ge]; nia.
  - symmetry. apply Z.ltb_lt.
    destruct Cx as [->|[->| ->]], Cy as [->|[->| ->]]; try lia;
      cbn [Z.add Z.pos_sub Pos.pred_double Z.succ_double Z.pred_double Z.double Z.pow Z.pow_pos Pos.iter Z.mul Pos.mul Pos.add Pos.succ]; lia.
  - symmetry. apply Z.ltb_ge.
    destruct Cx as [->|[->| ->]], Cy as [->|[->| ->]]; try lia;
      cbn [Z.add Z.pos_sub Pos.pred_double Z.succ_double Z.pred_double Z.double Z.pow Z.pow_pos Pos.iter Z.mul Pos.mul Pos.add Pos.succ]; lia.
Qed.

(** The tolerance test of the search on two such values less than 16
    apart. *)
Lemma fixed56_tolerance (x y : number) (X Y : Z) :
  fixed56 x = Some X -> fixed56 y = Some Y ->
  Z.abs (X - Y) < 2 ^ 60 ->
  (Math_abs (x - y) <? 0.1)%float = (Z.abs (X - Y) <? tolerance56).
Proof.
  intros Hx Hy Hclose.
  destruct (fixed56_spec x X Hx) as (mx & ex & Ex & Hmx & Hex & ->).
  destruct (fixed56_spec y Y Hy) as (my & ey & Ey & Hmy & Hey & ->).
  unfold Math_abs. rewrite ltb_spec, abs_spec, sub_spec, Ex, Ey.
  clear Ex Ey Hx Hy.
  unfold SF64sub, SFsub. cbn [cond_Zopp].
  set (ez := Z.min ex ey).
  rewrite !shl_align_value by (subst ez; lia).
  assert (-48 <= ez <= -46) as Hez by (subst ez; lia).
  assert (0 < 2 ^ (ez + 56)) as Hg by (apply Z.pow_pos_nonneg; lia).
  assert (2 ^ 8 <= 2 ^ (ez + 56)) as Hg8 by (apply Z.pow_le_mono_r; lia).
  change (2 ^ 8) with 256 in Hg8. change (2 ^ 60) with 1152921504606846976 in Hclose.
  assert (2 ^ (ex + 56) = 2 ^ (ex - ez) * 2 ^ (ez + 56)) as Hpx.
  { rewrite <- Z.pow_add_r by (subst ez; lia). f_equal. lia. }
  assert (2 ^ (ey + 56) = 2 ^ (ey - ez) * 2 ^ (ez + 56)) as Hpy.
  { rewrite <- Z.pow_add_r by (subst ez; lia). f_equal. lia. }
  rewrite Hpx, Hpy in *.
  set (g := 2 ^ (ez + 56)) in *.
  set (X' := Z.pos mx * 2 ^ (ex - ez)) in *.
  set (Y' := Z.pos my * 2 ^ (ey - ez)) in *.
  assert (Z.pos mx * (2 ^ (ex - ez) * g) - Z.pos my * (2 ^ (ey - ez) * g)
          = (X' - Y') * g) as Hd by (subst X' Y'; ring).
  rewrite Hd in *. clear Hd Hpx Hpy.
  destruct (X' - Y') as [|z|z] eqn:HD; cbn [binary_normalize].
  - reflexivity.
  - rewrite binary_round_lt_tolerance.
    + rewrite Z.abs_eq by lia. reflexivity.
    + change (2 ^ 53) with 9007199254740992.
      rewrite Z.abs_eq in Hclose by lia. clear - Hclose Hg8. nia.
    + lia.
  - rewrite binary_round_lt_tolerance.
    + rewrite Z.abs_neq by lia.
      replace (- (Z.neg z * g)) with (Z.pos z * g) by lia. reflexivity.
    + change (2 ^ 53) with 9007199254740992.
      rewrite Z.abs_neq in Hclose by lia. clear - Hclose Hg8. nia.
    + lia.
Qed.

Lemma Prim2SF_30 : Prim2SF 30 = S754_finite false 8444249301319680 (-48).
Proof. vm_compute. reflexivity. Qed.

Lemma Prim2SF_85 : Prim2SF 85 = S754_finite false 5981343255101440 (-46).
Proof. vm_compute. reflexivity. Qed.

(** A value from 30 to 85 has a fixed-point form. *)
Lemma fixed56_range (v : number) :
  (30 <=? v)%float = true -> (v <=? 85)%float = true ->
  exists V, fixed56 v = Some V.
Proof.
  rewrite !leb_spec, Prim2SF_30, Prim2SF_85. unfold fixed56.
  pose proof (Prim2SF_valid v) as Hvalid.
  destruct (Prim2SF v) as [s|s| |s m e].
  - discriminate.
  - destruct s; discriminate.
  - discriminate.
  - destruct s; [discriminate|].
    unfold SFleb. rewrite !SFcompare_finite. intros Hlo Hhi.
    assert (-48 <= e) as H1
      by (destruct (Z.compare_spec (-48) e); [lia|lia|discriminate]).
    assert (e <= -46) as H2
      by (destruct (Z.compare_spec e (-46)); [lia|lia|discriminate]).
    cbn [valid_binary] in Hvalid. unfold bounded, canonical_mantissa in Hvalid.
    apply andb_prop in Hvalid as [Hc _]. apply Z.eqb_eq in Hc.
    unfold fexp, emin, prec, emax in Hc.
    assert (Z.pos (digits2_pos m) = 53) as Hd by lia.
    rewrite Hd. cbn [Z.eqb Pos.eqb andb].
    destruct (-48 <=? e) eqn:E1; [|lia].
    destruct (e <=? -46) eqn:E2; [|lia].
    eexists. reflexivity.
Qed.

(** *** The order of binary64 values *)

Lemma SFleb_not_ltb (x y : spec_float) :
  SFleb x y = true -> SFltb y x = false.
Proof.
  unfold SFleb, SFltb, SFcompare.
  destruct x as [sx|sx| |sx mx ex], y as [sy|sy| |sy my ey];
    try discriminate; try reflexivity;
    repeat match goal with s : bool |- _ => destruct s end;
    try discriminate; try reflexivity;
    destruct (Z.compare_spec ex ey), (Z.compare_spec ey ex);
    try discriminate; try reflexivity; try lia; subst;
    change (Pos.compare_cont Eq ?a ?b) with (Pos.compare a b);
    destruct (Pos.compare_spec mx my), (Pos.compare_spec my mx);
    simpl; try discriminate; try reflexivity; try lia.
Qed.

Lemma SFleb_ltb_trans (x y z : spec_float) :
  SFleb x y = true -> SFltb y z = true -> SFltb x z = true.
Proof.
  unfold SFleb, SFltb, SFcompare.
  destruct x as [sx|sx| |sx mx ex], y as [sy|sy| |sy my ey],
           z as [sz|sz| |sz mz ez];
    try discriminate; try reflexivity;
    repeat match goal with s : bool |- _ => destruct s end;
    try discriminate; try reflexivity;
    destruct (Z.compare_spec ex ey), (Z.compare_spec ey ez),
             (Z.compare_spec ex ez);
    try discriminate; try reflexivity; try lia; subst;
    change (Pos.compare_cont Eq ?a ?b) with (Pos.compare a b);
    destruct (Pos.compare_spec mx my), (Pos.compare_spec my mz),
             (Pos.compare_spec mx mz);
    simpl; try discriminate; try reflexivity; try lia.
Qed.

Lemma SFltb_leb_trans (x y z : spec_float) :
  SFltb x y = true -> SFleb y z = true -> SFltb x z = true.
Proof.
  unfold SFleb, SFltb, SFcompare.
  destruct x as [sx|sx| |sx mx ex], y as [sy|sy| |sy my ey],
           z as [sz|sz| |sz mz ez];
    try discriminate; try reflexivity;
    repeat match goal with s : bool |- _ => destruct s end;
    try discriminate; try reflexivity;
    destruct (Z.compare_spec ex ey), (Z.compare_spec ey ez),
             (Z.compare_spec ex ez);
    try discriminate; try reflexivity; try lia; subst;
    change (Pos.compare_cont Eq ?a ?b) with (Pos.compare a b);
    destruct (Pos.compare_spec mx my), (Pos.compare_spec my mz),
             (Pos.compare_spec mx mz);
    simpl; try discriminate; try reflexivity; try lia.
Qed.

(** *** The search *)

Section SearchStops.
Context {host : HostMath}.
Variables vdot distanceMeters : number.

(** The loop with what it has learnt at the ends of its bracket: a probed
    end has failed the tolerance test. *)
Lemma searchLoop_stops (fuel : nat) :
  forall low high t,
    low < high ->
    (low = 60
     \/ (aboveTarget vdot distanceMeters low = true
         /\ withinTolerance vdot distanceMeters low = false)) ->
    (high = 21600
     \/ (aboveTarget vdot distanceMeters high = false
         /\ withinTolerance vdot distanceMeters high = false)) ->
    searchLoop fuel vdot distanceMeters low high = Some t ->
    withinTolerance vdot distanceMeters t = true
    \/ ((t = 61
         \/ (aboveTarget vdot distanceMeters (t - 1) = true
             /\ withinTolerance vdot distanceMeters (t - 1) = false))
        /\ (t = 21600
            \/ (aboveTarget vdot distanceMeters t = false
                /\ withinTolerance vdot distanceMeters t = false))).
Proof.
  assert (forall low high t, low < high -> ~ high - low > 1 ->
            (low + high + 1) / 2 = t -> t = high /\ low = t - 1) as Hexit.
  { intros low high t Hlt Hw <-. assert (high = low + 1) as -> by lia.
    replace (low + (low + 1) + 1) with ((low + 1) * 2) by lia.
    rewrite Z.div_mul by lia. lia. }
  induction fuel as [|fuel IH]; intros low high t Hlt Hlow Hhigh.
  - cbn [searchLoop]. destruct (high - low >? 1) eqn:Hw; [discriminate|].
    intros [= Ht]. apply Hexit in Ht as [-> ->]; [|lia|lia]. right.
    split; [destruct Hlow as [Hl|Hl]; [left; lia|right; exact Hl]|exact Hhigh].
  - rewrite searchLoop_unfold. destruct (high - low >? 1) eqn:Hw.
    + pose proof (mid_between low high ltac:(lia)) as Hm.
      destruct (withinTolerance vdot distanceMeters ((low + high) / 2)) eqn:Hc.
      { intros [= <-]. left. exact Hc. }
      destruct (aboveTarget vdot distanceMeters ((low + high) / 2)) eqn:Ha.
      * apply IH; [lia|right; split; [exact Ha|exact Hc]|exact Hhigh].
      * apply IH; [lia|exact Hlow|right; split; [exact Ha|exact Hc]].
    + intros [= Ht]. apply Hexit in Ht as [-> ->]; [|lia|lia]. right.
      split; [destruct Hlow as [Hl|Hl]; [left; lia|right; exact Hl]|exact Hhigh].
Qed.

End SearchStops.

Lemma forallStepsFrom_spec (n : nat) (f : Z -> number)
    (P : number -> number -> bool) :
  forall start previous,
    forallStepsFrom n f start previous P = true ->
    previous = f (start - 1) ->
    forall t, start <= t < start + Z.of_nat n -> P (f (t - 1)) (f t) = true.
Proof.
  induction n as [|n IH]; intros start previous H Hp t Ht; [lia|].
  cbn [forallStepsFrom] in H. apply andb_prop in H as [H0 H].
  destruct (Z.eq_dec t start) as [->|Hne].
  - rewrite <- Hp. exact H0.
  - apply (IH (start + 1) (f start) H); [f_equal; lia|lia].
Qed.

Lemma noValueBetween_spec (upper lower e : Z) (m : positive) :
  noValueBetween upper lower e = true ->
  -56 <= e ->
  2 ^ 52 <= Z.pos m < 2 ^ 53 ->
  lower + tolerance56 <= Z.pos m * 2 ^ (e + 56) ->
  Z.pos m * 2 ^ (e + 56) <= upper - tolerance56 ->
  False.
Proof.
  unfold noValueBetween. cbv zeta.
  set (g := 2 ^ (e + 56)). intros H He Hm Hlo Hhi.
  assert (0 < g) as Hg by (apply Z.pow_pos_nonneg; lia).
  apply Z.ltb_lt in H.
  set (lo := Z.max (lower + tolerance56) (2 ^ 52 * g)) in *.
  set (hi := Z.min (upper - tolerance56) (2 ^ 53 * g - 1)) in *.
  assert (lo <= Z.pos m * g) as H1 by (subst lo; nia).
  assert (Z.pos m * g <= hi) as H2 by (subst hi; nia).
  assert ((lo + g - 1) / g <= Z.pos m) as H3.
  { apply Z.lt_succ_r. apply Z.div_lt_upper_bound; [exact Hg|]. nia. }
  nia.
Qed.

(** Between two consecutive seconds that [stepCovered] accepts the search
    cannot stop for a target from 30 to 85: the target cannot lie below the
    VDOT of the first, not below that of the second, and out of the
    tolerance of both. *)
Lemma stepCovered_sound (a b v : number) :
  stepCovered a b = true ->
  (30 <=? v)%float = true -> (v <=? 85)%float = true ->
  (v <? a)%float = true -> (Math_abs (a - v) <? 0.1)%float = false ->
  (v <? b)%float = false -> (Math_abs (b - v) <? 0.1)%float = false ->
  False.
Proof.
  unfold stepCovered. intros H Hlo Hhi Ha Hta Hb Htb.
  apply orb_prop in H as [H|H]; [apply orb_prop in H as [H|H];
                                 [apply orb_prop in H as [H|H]|]|].
  - pose proof (leb_trans _ _ _ H Hlo) as Hle.
    rewrite leb_spec in Hle. rewrite ltb_spec in Ha.
    rewrite (SFleb_not_ltb _ _ Hle) in Ha. discriminate.
  - rewrite leb_spec in Hhi. rewrite ltb_spec in H, Hb.
    rewrite (SFleb_ltb_trans _ _ _ Hhi H) in Hb. discriminate.
  - rewrite leb_spec in H. rewrite ltb_spec in Ha, Hb.
    rewrite (SFltb_leb_trans _ _ _ Ha H) in Hb. discriminate.
  - destruct (fixed56 a) as [upper|] eqn:Eu; [|discriminate].
    destruct (fixed56 b) as [lower|] eqn:El; [|discriminate].
    destruct (fixed56_range v Hlo Hhi) as [V Ev].
    apply andb_prop in H as [H H46]. apply andb_prop in H as [H H47].
    apply andb_prop in H as [Hclose H48]. apply Z.ltb_lt in Hclose.
    rewrite (fixed56_ltb v a V upper Ev Eu) in Ha. apply Z.ltb_lt in Ha.
    rewrite (fixed56_ltb v b V lower Ev El) in Hb. apply Z.ltb_ge in Hb.
    rewrite (fixed56_tolerance a v upper V Eu Ev) in Hta by lia.
    rewrite (fixed56_tolerance b v lower V El Ev) in Htb by lia.
    apply Z.ltb_ge in Hta, Htb.
    destruct (fixed56_spec v V Ev) as (m & e & _ & Hm & He & ->).
    assert (e = -48 \/ e = -47 \/ e = -46) as [->|[->| ->]] by lia;
      [apply (noValueBetween_spec _ _ _ m H48)
      |apply (noValueBetween_spec _ _ _ m H47)
      |apply (noValueBetween_spec _ _ _ m H46)]; lia.
Qed.

(** On the reference host the bracket of the search can close on no step
    of a second, at the four race distances. *)
Lemma searchCovered_table :
  forallb searchCovered [5000; 10000; 21097.5; 42195]%float = true.
Proof. vm_compute. reflexivity. Qed.

(** C4: on the reference host, for every binary64 VDOT from 30 to 85 and
    each of the distances 5000, 10000, 21097.5 and 42195 m, the VDOT of the
    time that [calculateTimeFromVDOT] returns is within 0.1 of the target,
    as binary64 arithmetic computes and compares the difference: the search
    always stops on its tolerance test. *)
Theorem calculateVDOT_round_trip (vdot distanceMeters : number) :
  distanceMeters ∈ [5000; 10000; 21097.5; 42195]%float ->
  (30 <=? vdot)%float = true -> (vdot <=? 85)%float = true ->
  let t := calculateTimeFromVDOT (host := fdlibm_host) vdot distanceMeters in
  (Math_abs (calculateVDOT (host := fdlibm_host) distanceMeters (of_Z t) - vdot)
     <? 0.1)%float = true.
Proof.
  intros Hd Hlo Hhi. cbv zeta.
  pose proof searchCovered_table as Htab.
  rewrite forallb_forall in Htab.
  specialize (Htab distanceMeters ltac:(by apply list_elem_of_In)).
  unfold searchCovered in Htab. cbv zeta in Htab.
  apply andb_prop in Htab as [Htab Hsteps]. apply andb_prop in Htab as [H61 Hlast].
  pose proof (forallStepsFrom_spec _ _ _ _ _ Hsteps ltac:(reflexivity)) as Hstep.
  cbv beta in Hstep. clear Hsteps.
  destruct (calculateTimeFromVDOT_within_15 (host := fdlibm_host) vdot distanceMeters)
    as [Hs Hb].
  set (t := calculateTimeFromVDOT vdot distanceMeters) in *. clearbody t.
  destruct (searchLoop_stops (host := fdlibm_host) vdot distanceMeters 15 60 21600 t
              ltac:(lia)
              ltac:(left; reflexivity) ltac:(left; reflexivity) Hs)
    as [Hw|[Hbelow Hat]]; [exact Hw|exfalso].
  unfold aboveTarget, withinTolerance in Hbelow, Hat.
  destruct Hat as [->|[Hat Hwt]].
  - destruct Hbelow as [Hbelow|[Hbelow _]]; [lia|].
    change (21600 - 1) with 21599 in Hbelow.
    pose proof (leb_trans _ _ _ Hlast Hlo) as Hle.
    rewrite leb_spec in Hle. rewrite ltb_spec in Hbelow.
    rewrite (SFleb_not_ltb _ _ Hle) in Hbelow. discriminate.
  - destruct Hbelow as [->|[Hbelow Hwb]].
    + rewrite leb_spec in Hhi. rewrite ltb_spec in H61, Hat.
      rewrite (SFleb_ltb_trans _ _ _ Hhi H61) in Hat. discriminate.
    + apply (stepCovered_sound _ _ vdot (Hstep t ltac:(lia)) Hlo Hhi Hbelow Hwb Hat Hwt).
Qed.

(** C4 for a VDOT of 56.9 over 10 km. *)
Lemma calculateVDOT_round_trip_witness :
  (Math_abs
     (calculateVDOT (host := fdlibm_host) 10000
        (of_Z (calculateTimeFromVDOT (host := fdlibm_host) 56.9 10000)) - 56.9)
     <? 0.1)%float = true.
Proof.
  apply (calculateVDOT_round_trip 56.9%float 10000%float).
  - apply list_elem_of_In. simpl. auto.
  - reflexivity.
  - reflexivity.
Defined.

(* ===================================================================== *)
(** ** The race time estimates                                             *)
(* ===================================================================== *)

Section Estimates.
Context {host : HostMath}.

Lemma estimate5KFrom10K_clock (timeStr : string) :
  estimate5KFrom10K timeStr
    = match parseTime timeStr with
      | None => None
      | Some parsed =>
          Some (clock (calculateTimeFromVDOT
                         (calculateVDOT (DISTANCE_METERS D10K)
                            (ParsedTime.totalSeconds parsed))
                         (DISTANCE_METERS D5K)))
      end.
Proof.
  unfold estimate5KFrom10K. destruct (parseTime timeStr) as [parsed|]; [|reflexivity].
  rewrite formatTime_whole; [reflexivity|].
  pose proof (calculateTimeFromVDOT_within_15
                (calculateVDOT (DISTANCE_METERS D10K) (ParsedTime.totalSeconds parsed))
                (DISTANCE_METERS D5K)) as [_ H].
  lia.
Qed.

Lemma estimate10KFrom5K_clock (timeStr : string) :
  estimate10KFrom5K timeStr
    = match parseTime timeStr with
      | None => None
      | Some parsed =>
          Some (clock (calculateTimeFromVDOT
                         (calculateVDOT (DISTANCE_METERS D5K)
                            (ParsedTime.totalSeconds parsed))
                         (DISTANCE_METERS D10K)))
      end.
Proof.
  unfold estimate10KFrom5K. destruct (parseTime timeStr) as [parsed|]; [|reflexivity].
  rewrite formatTime_whole; [reflexivity|].
  pose proof (calculateTimeFromVDOT_within_15
                (calculateVDOT (DISTANCE_METERS D5K) (ParsedTime.totalSeconds parsed))
                (DISTANCE_METERS D10K)) as [_ H].
  lia.
Qed.

End Estimates.

(** X5: on every host, [estimate5KFrom10K] and [estimate10KFrom5K] return
    [null] exactly for the strings that [parseTime] refuses, and otherwise a
    well-formed time: the clock string of a whole number of seconds from 61
    to 21600, which [parseTime] reads back. *)
Theorem estimate_times_well_formed `{host : HostMath} (timeStr : string) :
  (estimate5KFrom10K timeStr = None <-> parseTime timeStr = None)
  /\ (estimate10KFrom5K timeStr = None <-> parseTime timeStr = None)
  /\ forall estimate,
       estimate5KFrom10K timeStr = Some estimate
       \/ estimate10KFrom5K timeStr = Some estimate ->
       exists t, 61 <= t <= 21600 /\ estimate = clock t
                 /\ parseTime estimate = Some (clockFields t).
Proof.
  rewrite estimate5KFrom10K_clock, estimate10KFrom5K_clock.
  destruct (parseTime timeStr) as [parsed|].
  - split; [split; discriminate|]. split; [split; discriminate|].
    intros estimate [[= <-]|[= <-]];
      match goal with
      | |- context [clock (calculateTimeFromVDOT ?v ?d)] =>
          pose proof (calculateTimeFromVDOT_within_15 v d) as [_ Hb];
          exists (calculateTimeFromVDOT v d)
      end;
      (split; [exact Hb|]); (split; [reflexivity|]); apply parseTime_clock; lia.
  - split; [split; reflexivity|]. split; [split; reflexivity|].
    intros estimate [H|H]; discriminate.
Qed.

(** X5 on the reference host: a 10K in 37:00 is estimated at 17:51 over
    5 km. *)
Lemma estimate_times_well_formed_witness :
  exists t, 61 <= t <= 21600 /\ "17:51" = clock t
            /\ parseTime "17:51" = Some (clockFields t).
Proof.
  apply (proj2 (proj2 (estimate_times_well_formed (host := fdlibm_host) "37:00"))
           "17:51").
  left. vm_compute. reflexivity.
Defined.

Lemma roundTripTenths_table :
  forallb (fun d => forallFrom 551 300 (roundTripTenths d)) planDistances = true.
Proof. vm_compute. reflexivity. Qed.

(** X6: on the reference host, for every VDOT with one decimal from 30.0 to
    85.0 (the values [calculateVDOT] returns are such tenths) and each
    distance of the program, the time that [calculateTimeFromVDOT] finds has
    a VDOT within 0.1 of the target: it is the target or one of its two
    neighbours on the grid of tenths, and [Math.abs(back - vdot) <= 0.1]
    holds as JavaScript evaluates it. *)
Theorem vdot_round_trip_one_decimal (distanceMeters : number) (k : Z) :
  distanceMeters ∈ planDistances -> 300 <= k <= 850 ->
  let vdot := tenths k in
  let t := calculateTimeFromVDOT (host := fdlibm_host) vdot distanceMeters in
  let back := calculateVDOT (host := fdlibm_host) distanceMeters (of_Z t) in
  (Math_abs (back - vdot) <=? 0.1)%float = true
  /\ (back = tenths (k - 1) \/ back = vdot \/ back = tenths (k + 1)).
Proof.
  intros Hd Hk. cbv zeta.
  pose proof roundTripTenths_table as Htab.
  rewrite forallb_forall in Htab.
  specialize (Htab distanceMeters ltac:(by apply list_elem_of_In)).
  pose proof (forallFrom_spec _ _ _ Htab k ltac:(lia)) as H.
  unfold roundTripTenths in H. apply andb_prop in H as [H1 H2].
  split; [exact H1|].
  apply orb_prop in H2 as [H2|H2]; [apply orb_prop in H2 as [H2|H2]|];
    apply same_eq in H2; auto.
Qed.

(** X6 for VDOT 56.9 over 10 km. *)
Lemma vdot_round_trip_one_decimal_witness :
  let t := calculateTimeFromVDOT (host := fdlibm_host) (tenths 569) 10000%float in
  (Math_abs (calculateVDOT (host := fdlibm_host) 10000%float (of_Z t) - tenths 569)
     <=? 0.1)%float = true.
Proof.
  cbv zeta.
  apply (proj1 (vdot_round_trip_one_decimal 10000%float 569
                  ltac:(unfold planDistances; apply list_elem_of_In; simpl; auto)
                  ltac:(lia))).
Defined.

Lemma nonincreasingZFrom_spec (n : nat) (f : Z -> Z) :
  forall start previous,
    nonincreasingZFrom n f start previous = true ->
    (forall j, start <= j < start + Z.of_nat n -> f j <= previous)
    /\ (forall i j, start <= i -> i <= j -> j < start + Z.of_nat n -> f j <= f i).
Proof.
  induction n as [|n IH]; intros start previous H; [split; intros; lia|].
  cbn [nonincreasingZFrom] in H. apply andb_prop in H as [H0 H].
  apply Z.leb_le in H0.
  destruct (IH (start + 1) (f start) H) as [IH1 IH2]. split.
  - intros j Hj. destruct (Z.eq_dec j start) as [->|Hne]; [exact H0|].
    specialize (IH1 j ltac:(lia)). lia.
  - intros i j Hi Hij Hj. destruct (Z.eq_dec i start) as [->|Hne].
    + destruct (Z.eq_dec j start) as [->|Hne']; [lia|]. apply IH1. lia.
    + apply IH2; lia.
Qed.

Lemma raceTime_by_vdot_table :
  forallb (fun d => nonincreasingZFrom 550 (raceTime d) 301 (raceTime d 300))
    raceDistances = true.
Proof. vm_compute. reflexivity. Qed.

Lemma raceTime_by_distance_table :
  forallFrom 551 300
    (fun k => (raceTime D5K k <? raceTime D10K k)
              && (raceTime D10K k <? raceTime D21K k)
              && (raceTime D21K k <? raceTime D42K k)) = true.
Proof. vm_compute. reflexivity. Qed.

(** X7: on the reference host, over the VDOTs with one decimal from 30.0 to
    85.0, [estimateRaceTime] never gives a slower time to a higher VDOT, at
    any of the four distances, and at each VDOT its times rise strictly with
    the distance: 5K, 10K, half marathon, marathon. *)
Theorem race_times_ordered (k k' : Z) :
  300 <= k -> k <= k' -> k' <= 850 ->
  (forall distance,
     estimateRaceTime (host := fdlibm_host) (tenths k') distance
       <= estimateRaceTime (host := fdlibm_host) (tenths k) distance)
  /\ estimateRaceTime (host := fdlibm_host) (tenths k) D5K
       < estimateRaceTime (host := fdlibm_host) (tenths k) D10K
       < estimateRaceTime (host := fdlibm_host) (tenths k) D21K
  /\ estimateRaceTime (host := fdlibm_host) (tenths k) D21K
       < estimateRaceTime (host := fdlibm_host) (tenths k) D42K.
Proof.
  intros H1 H2 H3. fold (raceTime D5K k) (raceTime D10K k) (raceTime D21K k)
    (raceTime D42K k).
  split.
  - intros distance. fold (raceTime distance k') (raceTime distance k).
    pose proof raceTime_by_vdot_table as Htab.
    rewrite forallb_forall in Htab.
    specialize (Htab distance ltac:(destruct distance; simpl; auto)).
    apply nonincreasingZFrom_spec in Htab as [Hprev Hpairs].
    destruct (Z.eq_dec k 300) as [->|Hne].
    + destruct (Z.eq_dec k' 300) as [->|Hne']; [lia|]. apply Hprev. lia.
    + apply Hpairs; lia.
  - pose proof (forallFrom_spec _ _ _ raceTime_by_distance_table k ltac:(lia)) as H.
    cbv beta in H.
    apply andb_prop in H as [H Hc]. apply andb_prop in H as [Ha Hb].
    apply Z.ltb_lt in Ha, Hb, Hc. lia.
Qed.

(** X7 for VDOT 50.0 against 56.9. *)
Lemma race_times_ordered_witness :
  estimateRaceTime (host := fdlibm_host) (tenths 569) D10K
    <= estimateRaceTime (host := fdlibm_host) (tenths 500) D10K.
Proof.
  apply (proj1 (race_times_ordered 500 569 ltac:(lia) ltac:(lia) ltac:(lia)) D10K).
Defined.

Lemma estimate5KFrom10K_whole (t : Z) :
  0 <= t <= 21600 ->
  estimate5KFrom10K (host := fdlibm_host) (clock t)
    = Some (clock (seconds5KFrom10K t)).
Proof.
  intros Ht. rewrite estimate5KFrom10K_clock, (parseTime_clock t Ht). reflexivity.
Qed.

Lemma estimate10KFrom5K_whole (t : Z) :
  0 <= t <= 21600 ->
  estimate10KFrom5K (host := fdlibm_host) (clock t)
    = Some (clock (seconds10KFrom5K t)).
Proof.
  intros Ht. rewrite estimate10KFrom5K_clock, (parseTime_clock t Ht). reflexivity.
Qed.

Lemma estimates_compose_table :
  forallFrom 3001 1500
    (fun t =>
       let t5 := seconds5KFrom10K t in
       let t10 := seconds10KFrom5K t5 in
       (47 * t <=? 100 * t5) && (100 * t5 <=? 49 * t)
       && (100 * Z.abs (t10 - t) <=? t)) = true.
Proof. vm_compute. reflexivity. Qed.

(** X8: on the reference host, for every 10K time of whole seconds from
    25:00 to 1:15:00, [estimate5KFrom10K] returns a 5K time between 47% and
    49% of it, and [estimate10KFrom5K] takes that 5K time back to a 10K time
    within 1% of the one started from. *)
Theorem estimates_compose (t : Z) :
  1500 <= t <= 4500 ->
  exists t5 t10,
    estimate5KFrom10K (host := fdlibm_host) (clock t) = Some (clock t5)
    /\ estimate10KFrom5K (host := fdlibm_host) (clock t5) = Some (clock t10)
    /\ 47 * t <= 100 * t5 <= 49 * t
    /\ 100 * Z.abs (t10 - t) <= t.
Proof.
  intros Ht. exists (seconds5KFrom10K t), (seconds10KFrom5K (seconds5KFrom10K t)).
  pose proof (forallFrom_spec _ _ _ estimates_compose_table t ltac:(lia)) as H.
  cbv zeta in H. apply andb_prop in H as [H Hc]. apply andb_prop in H as [Ha Hb].
  apply Z.leb_le in Ha, Hb, Hc.
  assert (0 <= seconds5KFrom10K t <= 21600) as H5 by lia.
  split; [apply estimate5KFrom10K_whole; lia|].
  split; [apply estimate10KFrom5K_whole; exact H5|].
  split; [split; [exact Ha|exact Hb]|exact Hc].
Qed.

(** X8 for a 10K in 37:00. *)
Lemma estimates_compose_witness :
  exists t5 t10,
    estimate5KFrom10K (host := fdlibm_host) (clock 2220) = Some (clock t5)
    /\ estimate10KFrom5K (host := fdlibm_host) (clock t5) = Some (clock t10)
    /\ 47 * 2220 <= 100 * t5 <= 49 * 2220
    /\ 100 * Z.abs (t10 - 2220) <= 2220.
Proof. apply (estimates_compose 2220). lia. Defined.

(* ===================================================================== *)
(** ** Validated times and plan creation                                   *)
(* ===================================================================== *)

Lemma is_zero_Prim2SF (x : number) :
  is_zero x = true <-> exists s, Prim2SF x = S754_zero s.
Proof.
  unfold is_zero. rewrite FloatAxioms.eqb_spec.
  change (Prim2SF PrimFloat.zero) with (S754_zero false).
  unfold SFeqb, SFcompare.
  destruct (Prim2SF x) as [s|[]| |[] m e]; split; try discriminate; eauto;
    intros [s' H]; discriminate.
Qed.

Lemma add_zero_l (a : number) :
  Prim2SF (0 + a) = match Prim2SF a with
                    | S754_zero _ => S754_zero false
                    | y => y
                    end.
Proof.
  rewrite add_spec. change (Prim2SF 0) with (S754_zero false).
  unfold SF64add, SFadd. destruct (Prim2SF a) as [[]|[]| |]; reflexivity.
Qed.

Lemma add_neg_zero_l (a : number) : Prim2SF (neg_zero + a) = Prim2SF a.
Proof.
  rewrite add_spec. change (Prim2SF neg_zero) with (S754_zero true).
  unfold SF64add, SFadd. destruct (Prim2SF a) as [[]|[]| |]; reflexivity.
Qed.

(** The total of a two-part time as [parseTime] adds it up, with zero hours
    in front, and as [parseTimeString] does: the same number, or two
    zeros. *)
Lemma total_with_zero_hours (m s : number) :
  let a := (0 * 3600 + m * 60 + s)%float in
  let b := (m * 60 + s)%float in
  a = b \/ (is_zero a = true /\ is_zero b = true).
Proof.
  cbv zeta. change (0 * 3600)%float with 0%float.
  set (x := (m * 60)%float).
  pose proof (add_zero_l x) as Hx.
  destruct (Prim2SF x) as [sx|sx| |sx mx ex] eqn:Ex.
  - assert (0 + x = 0)%float as -> by (apply Prim2SF_inj; rewrite Hx; reflexivity).
    assert (x = SF2Prim (S754_zero sx)) as ->
      by (rewrite <- Ex; symmetry; apply SF2Prim_Prim2SF).
    destruct sx; [|left; reflexivity].
    change (SF2Prim (S754_zero true)) with neg_zero.
    pose proof (add_zero_l s) as H0. pose proof (add_neg_zero_l s) as H1.
    destruct (Prim2SF s) as [ss|ss| |ss ms es] eqn:Es.
    + right. split; apply is_zero_Prim2SF; eauto.
    + left. apply Prim2SF_inj. congruence.
    + left. apply Prim2SF_inj. congruence.
    + left. apply Prim2SF_inj. congruence.
  - left. f_equal. apply Prim2SF_inj. congruence.
  - left. f_equal. apply Prim2SF_inj. congruence.
  - left. f_equal. apply Prim2SF_inj. congruence.
Qed.

(** A time that [parseTime] accepts is one that [parseTimeString] reads,
    with the same total unless both totals are zero. *)
Lemma usableTime_of_parseTime (timeStr : string) (t : ParsedTime.t) :
  parseTime timeStr = Some t ->
  nonempty timeStr = true
  /\ usableTime timeStr
     = if truthy (ParsedTime.totalSeconds t)
       then Some (ParsedTime.totalSeconds t) else None.
Proof.
  unfold parseTime, usableTime, parseTimeString.
  destruct (nonempty timeStr); [|discriminate]. cbn [negb].
  destruct (existsb isNaN _); [discriminate|].
  destruct (map Number (split ":" timeStr)) as [|a [|b [|c [|d l]]]];
    try discriminate.
  - destruct (_ || _); [discriminate|]. intros [= <-]. split; [reflexivity|].
    cbn [ParsedTime.totalSeconds].
    change (0 + a * 60 + b)%float with (0 * 3600 + a * 60 + b)%float.
    destruct (total_with_zero_hours a b) as [->|[Ha Hb]]; [reflexivity|].
    unfold truthy. rewrite Ha, Hb, !orb_true_r. reflexivity.
  - destruct (_ || _); [discriminate|]. intros [= <-]. split; reflexivity.
Qed.

Lemma createTrainingPlan_usable `{host : HostMath} (input : UserInput.t) :
  createTrainingPlan input
    = match given (UserInput.time10K input), given (UserInput.time5K input) with
      | Some time10K, _ =>
          match usableTime time10K with
          | Some seconds =>
              let vdot := calculateVDOT (DISTANCE_METERS D10K) seconds in
              Ok (generateTrainingBlock 1 input vdot (calculatePaces vdot))
          | None => Throw (Error "Invalid 10K time format")
          end
      | None, Some time5K =>
          match usableTime time5K with
          | Some seconds =>
              let vdot := calculateVDOT (DISTANCE_METERS D5K) seconds in
              Ok (generateTrainingBlock 1 input vdot (calculatePaces vdot))
          | None => Throw (Error "Invalid 5K time format")
          end
      | None, None => Throw (Error "At least one race time is required")
      end.
Proof.
  unfold createTrainingPlan, usableTime.
  destruct (given (UserInput.time10K input)) as [t10|].
  - destruct (parseTimeString t10) as [x|]; [|reflexivity].
    destruct (truthy x); reflexivity.
  - destruct (given (UserInput.time5K input)) as [t5|]; [|reflexivity].
    destruct (parseTimeString t5) as [x|]; [|reflexivity].
    destruct (truthy x); reflexivity.
Qed.

(** X9: on every host, a time that passes the validation of the form
    ([parseTime], which [getVDOTFromRace] relies on) is never read
    differently by [createTrainingPlan], although that parses the string
    again with a parser of its own: the plan is the block generated for the
    VDOT that [getVDOTFromRace] reports, unless the total is zero, in which
    case the plan is refused as an invalid format.  The 10K time is used when
    it is given, the 5K time otherwise. *)
Theorem createTrainingPlan_validated_time `{host : HostMath}
    (input : UserInput.t) (timeStr : string) (result : VDOTResult.t) :
  (UserInput.time10K input = Some timeStr ->
   getVDOTFromRace D10K timeStr = Some result ->
   createTrainingPlan input
     = if truthy (VDOTResult.time result)
       then Ok (generateTrainingBlock 1 input (VDOTResult.vdot result)
                  (calculatePaces (VDOTResult.vdot result)))
       else Throw (Error "Invalid 10K time format"))
  /\ (given (UserInput.time10K input) = None ->
      UserInput.time5K input = Some timeStr ->
      getVDOTFromRace D5K timeStr = Some result ->
      createTrainingPlan input
        = if truthy (VDOTResult.time result)
          then Ok (generateTrainingBlock 1 input (VDOTResult.vdot result)
                     (calculatePaces (VDOTResult.vdot result)))
          else Throw (Error "Invalid 5K time format")).
Proof.
  rewrite createTrainingPlan_usable. unfold getVDOTFromRace. split.
  - intros H10. destruct (parseTime timeStr) as [t|] eqn:Ht; [|discriminate].
    intros [= <-]. destruct (usableTime_of_parseTime timeStr t Ht) as [Hn Hu].
    unfold given at 1. rewrite H10, Hn, Hu. cbn [VDOTResult.time VDOTResult.vdot].
    destruct (truthy _); reflexivity.
  - intros Hno H5. destruct (parseTime timeStr) as [t|] eqn:Ht; [|discriminate].
    intros [= <-]. destruct (usableTime_of_parseTime timeStr t Ht) as [Hn Hu].
    rewrite Hno. unfold given. rewrite H5, Hn, Hu.
    cbn [VDOTResult.time VDOTResult.vdot].
    destruct (truthy _); reflexivity.
Qed.

(** X9 for a 10K in 37:00 on the reference host. *)
Lemma createTrainingPlan_validated_time_witness :
  createTrainingPlan (host := fdlibm_host) exampleInput
    = if truthy 2220%float
      then Ok (generateTrainingBlock 1 exampleInput 56.9%float
                 (calculatePaces (host := fdlibm_host) 56.9%float))
      else Throw (Error "Invalid 10K time format").
Proof.
  apply (proj1 (createTrainingPlan_validated_time (host := fdlibm_host)
                  exampleInput "37:00" (VDOTResult.mk 56.9 D10K 2220)%float)).
  - reflexivity.
  - vm_compute. reflexivity.
Defined.

Lemma split_length (sep : ascii) (s : string) :
  length (split sep s) = S (count_char sep s).
Proof.
  induction s as [|c s IH]; [reflexivity|].
  cbn [split count_char]. destruct (Ascii.eqb c sep).
  - cbn [length]. rewrite IH. reflexivity.
  - destruct (split sep s) as [|p ps]; [discriminate|]. exact IH.
Qed.

(** X10: a time string needs one or two colons.  On every host, a string
    with none (plain seconds, say) or with three or more is refused by
    [parseTime] and by [parseTimeString] alike, and as a 10K time it makes
    [createTrainingPlan] raise "Invalid 10K time format" even when a valid 5K
    time is given with it. *)
Theorem time_strings_need_colons `{host : HostMath} (timeStr : string) :
  count_char ":" timeStr <> 1%nat -> count_char ":" timeStr <> 2%nat ->
  parseTime timeStr = None
  /\ parseTimeString timeStr = None
  /\ forall input,
       UserInput.time10K input = Some timeStr -> timeStr <> "" ->
       createTrainingPlan input = Throw (Error "Invalid 10K time format").
Proof.
  intros H1 H2.
  assert (length (map Number (split ":" timeStr)) <> 2%nat
          /\ length (map Number (split ":" timeStr)) <> 3%nat) as [L2 L3]
    by (rewrite length_map, split_length; lia).
  assert (parseTimeString timeStr = None) as Hp.
  { unfold parseTimeString. destruct (existsb isNaN _); [reflexivity|].
    destruct (map Number (split ":" timeStr)) as [|a [|b [|c [|d l]]]];
      cbn [length] in L2, L3; try reflexivity; lia. }
  split; [|split; [exact Hp|]].
  - unfold parseTime. destruct (negb (nonempty timeStr)); [reflexivity|].
    destruct (existsb isNaN _); [reflexivity|].
    destruct (map Number (split ":" timeStr)) as [|a [|b [|c [|d l]]]];
      cbn [length] in L2, L3; try reflexivity; lia.
  - intros input H10 Hne. rewrite createTrainingPlan_usable.
    unfold given at 1. rewrite H10.
    destruct timeStr as [|c r]; [congruence|]. cbn [nonempty].
    unfold usableTime. rewrite Hp. reflexivity.
Qed.

(** X10 for "2220": no colon. *)
Lemma time_strings_need_colons_witness :
  parseTime "2220" = None /\ parseTimeString "2220" = None.
Proof.
  destruct (time_strings_need_colons (host := fdlibm_host) "2220"
              ltac:(vm_compute; discriminate) ltac:(vm_compute; discriminate))
    as (H1 & H2 & _).
  split; [exact H1|exact H2].
Defined.

(* ===================================================================== *)
(** ** Pace zones                                                          *)
(* ===================================================================== *)

Lemma intervalRange_table :
  forallFrom (Z.to_nat 21540) 61
    (fun t => rangeShape 7 (intervalRange t 15 3 4)
              && rangeShape 7 (intervalRange t 21.0975 3 4)
              && rangeShape 8 (intervalRange t 30 3 5))%float = true.
Proof. vm_compute. reflexivity. Qed.

(** The three ranges of [calculateNSIntervalPaces], whatever the search
    finds. *)
Lemma calculateNSIntervalPaces_shape `{host : HostMath} (vdot : number) :
  rangeShape 7%float (IntervalPaces.short (calculateNSIntervalPaces vdot)) = true
  /\ rangeShape 7%float (IntervalPaces.medium (calculateNSIntervalPaces vdot)) = true
  /\ rangeShape 8%float (IntervalPaces.long (calculateNSIntervalPaces vdot)) = true.
Proof.
  unfold calculateNSIntervalPaces.
  cbn [IntervalPaces.short IntervalPaces.medium IntervalPaces.long].
  set (t15 := calculateTimeFromVDOT vdot 15000%float).
  set (t21 := calculateTimeFromVDOT vdot (DISTANCE_METERS D21K)).
  set (t30 := calculateTimeFromVDOT vdot 30000%float).
  assert (61 <= t15 <= 21600) as H15 by apply calculateTimeFromVDOT_within_15.
  assert (61 <= t21 <= 21600) as H21 by apply calculateTimeFromVDOT_within_15.
  assert (61 <= t30 <= 21600) as H30 by apply calculateTimeFromVDOT_within_15.
  clearbody t15 t21 t30.
  pose proof (forallFrom_spec _ _ _ intervalRange_table) as Htab.
  rewrite Z2Nat.id in Htab by lia. cbv beta in Htab.
  pose proof (Htab t15 ltac:(lia)) as A. pose proof (Htab t21 ltac:(lia)) as B.
  pose proof (Htab t30 ltac:(lia)) as C.
  apply andb_prop in A as [A _]. apply andb_prop in A as [A _].
  apply andb_prop in B as [B _]. apply andb_prop in B as [_ B].
  apply andb_prop in C as [_ C].
  repeat split; assumption.
Qed.

Lemma rangeShape_spec (width : number) (r : PaceRange.t) :
  rangeShape width r = true ->
  (PaceRange.max r - PaceRange.min r)%float = width
  /\ (PaceRange.min r <? PaceRange.max r)%float = true
  /\ (PaceRange.min r <=? midpoint r)%float = true
  /\ (midpoint r <=? PaceRange.max r)%float = true
  /\ Math_floor (PaceRange.min r) = PaceRange.min r
  /\ Math_floor (PaceRange.max r) = PaceRange.max r.
Proof.
  unfold rangeShape. intros R. repeat (apply andb_prop in R as [R ?]).
  repeat match goal with
         | H : same _ _ = true |- _ => apply same_eq in H
         end.
  repeat split; assumption.
Qed.

(** X11: on every host and for every VDOT, each interval pace range that
    [calculateNSIntervalPaces] returns runs between two whole numbers of
    seconds, [min < max], exactly 7 seconds apart for the short and the medium
    intervals and 8 for the long ones, and the rounded midpoint that a
    threshold session takes as its target pace lies inside the range. *)
Theorem calculateNSIntervalPaces_ranges `{host : HostMath} (vdot : number)
    (interval : IntervalType.t) :
  let range :=
    match interval with
    | IntervalType.short => IntervalPaces.short (calculateNSIntervalPaces vdot)
    | IntervalType.medium => IntervalPaces.medium (calculateNSIntervalPaces vdot)
    | IntervalType.long => IntervalPaces.long (calculateNSIntervalPaces vdot)
    end in
  (PaceRange.max range - PaceRange.min range)%float
    = match interval with IntervalType.long => 8%float | _ => 7%float end
  /\ (PaceRange.min range <? PaceRange.max range)%float = true
  /\ (PaceRange.min range <=? midpoint range)%float = true
  /\ (midpoint range <=? PaceRange.max range)%float = true
  /\ Math_floor (PaceRange.min range) = PaceRange.min range
  /\ Math_floor (PaceRange.max range) = PaceRange.max range.
Proof.
  cbv zeta. destruct (calculateNSIntervalPaces_shape vdot) as (A & B & C).
  destruct interval; apply rangeShape_spec; assumption.
Qed.

Lemma zonesOrdered_table :
  forallFrom 551 300
    (fun k => zonesOrdered (calculatePaces (host := fdlibm_host) (tenths k))) = true.
Proof. vm_compute. reflexivity. Qed.

Lemma zonesOrdered_spec (paces : Paces.t) :
  zonesOrdered paces = true ->
  let short := rangeOf paces IntervalType.short in
  let medium := rangeOf paces IntervalType.medium in
  let long := rangeOf paces IntervalType.long in
  (0 <? PaceRange.min short)%float = true
  /\ (PaceRange.min short <? PaceRange.min medium)%float = true
  /\ (PaceRange.min medium <? PaceRange.min long)%float = true
  /\ (PaceRange.max short <? PaceRange.max medium)%float = true
  /\ (PaceRange.max medium <? PaceRange.max long)%float = true
  /\ (PaceRange.max long <? Paces.easy paces)%float = true.
Proof.
  unfold zonesOrdered. cbv zeta. intros R. repeat (apply andb_prop in R as [R ?]).
  repeat split; assumption.
Qed.

(** X12: on the reference host, for every VDOT with one decimal from 30.0
    to 85.0, the zones of [calculatePaces] are ordered: the interval paces are
    positive and slow down from the short to the medium to the long intervals
    (both ends of their ranges), and the slowest interval pace is still
    faster than the easy pace. *)
Theorem calculatePaces_zones (k : Z) :
  300 <= k <= 850 ->
  let paces := calculatePaces (host := fdlibm_host) (tenths k) in
  let short := rangeOf paces IntervalType.short in
  let medium := rangeOf paces IntervalType.medium in
  let long := rangeOf paces IntervalType.long in
  (0 <? PaceRange.min short)%float = true
  /\ (PaceRange.min short <? PaceRange.min medium)%float = true
  /\ (PaceRange.min medium <? PaceRange.min long)%float = true
  /\ (PaceRange.max short <? PaceRange.max medium)%float = true
  /\ (PaceRange.max medium <? PaceRange.max long)%float = true
  /\ (PaceRange.max long <? Paces.easy paces)%float = true.
Proof.
  intros Hk.
  pose proof (forallFrom_spec _ _ _ zonesOrdered_table k ltac:(lia)) as H.
  cbv beta in H. apply zonesOrdered_spec. exact H.
Qed.

(** X12 at VDOT 56.9. *)
Lemma calculatePaces_zones_witness :
  let paces := calculatePaces (host := fdlibm_host) (tenths 569) in
  (PaceRange.max (rangeOf paces IntervalType.long) <? Paces.easy paces)%float = true.
Proof.
  cbv zeta.
  destruct (calculatePaces_zones 569 ltac:(lia)) as (_ & _ & _ & _ & _ & H).
  exact H.
Defined.

Lemma calculatePacesFrom10K_table :
  forallFrom (Z.to_nat 21541) 60
    (fun t =>
       let threshold := calculateThresholdPaceFrom10K (of_Z t) in
       (Math_round threshold
          <? Math_round (calculateEasyPaceFromThreshold threshold))%float) = true.
Proof. vm_compute. reflexivity. Qed.

(** X13: [calculatePacesFrom10K] on every host.  For a 10K time of whole
    seconds from one minute to six hours it returns [threshold < easy]; and
    whatever the time, its interval paces are those of VDOT 56.9, the
    constant written in the function: they do not depend on the time. *)
Theorem calculatePacesFrom10K_paces `{host : HostMath} (t : Z) :
  (60 <= t <= 21600 ->
   (Paces.threshold (calculatePacesFrom10K (of_Z t))
      <? Paces.easy (calculatePacesFrom10K (of_Z t)))%float = true)
  /\ forall time10KSeconds,
       Paces.intervals (calculatePacesFrom10K time10KSeconds)
         = calculateNSIntervalPaces 56.9%float.
Proof.
  split; [|reflexivity].
  intros Ht. unfold calculatePacesFrom10K. cbn [Paces.threshold Paces.easy].
  pose proof (forallFrom_spec _ _ _ calculatePacesFrom10K_table t
                ltac:(rewrite Z2Nat.id; lia)) as H.
  exact H.
Qed.

(** X13 for a 10K in 37:00 on the reference host. *)
Lemma calculatePacesFrom10K_paces_witness :
  (Paces.threshold (calculatePacesFrom10K (host := fdlibm_host) (of_Z 2220))
     <? Paces.easy (calculatePacesFrom10K (host := fdlibm_host) (of_Z 2220)))%float
    = true.
Proof.
  apply (proj1 (calculatePacesFrom10K_paces (host := fdlibm_host) 2220)). lia.
Defined.

Lemma wholePaces_table : forallFrom (Z.to_nat 21540) 61 wholePaces = true.
Proof. vm_compute. reflexivity. Qed.

Lemma getFormattedPaces_whole (paces : Paces.t) (threshold easy : Z) :
  0 <= threshold < 3600 -> 0 <= easy < 3600 ->
  Paces.threshold paces = of_Z threshold -> Paces.easy paces = of_Z easy ->
  FormattedPaces.threshold (getFormattedPaces paces) = clock threshold
  /\ FormattedPaces.easy (getFormattedPaces paces) = clock easy.
Proof.
  intros Ht He Et Ee. unfold getFormattedPaces.
  cbn [FormattedPaces.threshold FormattedPaces.easy]. rewrite Et, Ee.
  split; apply formatPace_whole; assumption.
Qed.

Lemma wholePaces_spec (t : Z) :
  61 <= t <= 21600 ->
  exists threshold easy : Z,
    0 <= threshold /\ threshold < easy /\ easy < 3600
    /\ Math_round (of_Z t / (15000 / 1000))%float = of_Z threshold
    /\ Math_round (calculateEasyPaceFromThreshold (of_Z t / (15000 / 1000))%float)
       = of_Z easy.
Proof.
  intros Ht.
  pose proof (forallFrom_spec _ _ _ wholePaces_table t
                ltac:(rewrite Z2Nat.id; lia)) as H.
  unfold wholePaces in H. cbv zeta in H.
  apply andb_prop in H as [H H4]. apply andb_prop in H as [H H3].
  apply andb_prop in H as [H H2]. apply andb_prop in H as [H0 H1].
  apply same_eq in H0, H1.
  eexists. eexists.
  split; [|split; [|split; [|split; [symmetry; exact H0|symmetry; exact H1]]]]; lia.
Qed.

Lemma calculatePaces_rounded `{host : HostMath} (vdot : number) :
  exists t, 61 <= t <= 21600
    /\ Paces.threshold (calculatePaces vdot)
       = Math_round (of_Z t / (15000 / 1000))%float
    /\ Paces.easy (calculatePaces vdot)
       = Math_round (calculateEasyPaceFromThreshold (of_Z t / (15000 / 1000))%float).
Proof.
  exists (calculateTimeFromVDOT (vdot * 0.88 + 5)%float 15000%float).
  split; [apply calculateTimeFromVDOT_within_15|]. split; reflexivity.
Qed.

(** X14: on every host and for every VDOT, the threshold and easy paces of
    [calculatePaces] are whole numbers of seconds, [0 <= threshold < easy <
    3600], and [getFormattedPaces] prints them as [m:ss] strings with seconds
    below 60 that [parseTime] reads back as those paces. *)
Theorem getFormattedPaces_well_formed `{host : HostMath} (vdot : number) :
  exists threshold easy : Z,
    0 <= threshold /\ threshold < easy /\ easy < 3600
    /\ Paces.threshold (calculatePaces vdot) = of_Z threshold
    /\ Paces.easy (calculatePaces vdot) = of_Z easy
    /\ FormattedPaces.threshold (getFormattedPaces (calculatePaces vdot))
       = clock threshold
    /\ FormattedPaces.easy (getFormattedPaces (calculatePaces vdot)) = clock easy
    /\ parseTime (clock threshold) = Some (clockFields threshold)
    /\ parseTime (clock easy) = Some (clockFields easy).
Proof.
  destruct (calculatePaces_rounded vdot) as (t & Ht & Et & Ee).
  destruct (wholePaces_spec t Ht) as (pt & pe & H0 & H1 & H2 & Rt & Re).
  rewrite Rt in Et. rewrite Re in Ee.
  destruct (getFormattedPaces_whole (calculatePaces vdot) pt pe
              ltac:(lia) ltac:(lia) Et Ee) as [Ft Fe].
  exists pt, pe.
  split; [exact H0|]. split; [exact H1|]. split; [exact H2|].
  split; [exact Et|]. split; [exact Ee|]. split; [exact Ft|]. split; [exact Fe|].
  split; apply parseTime_clock; lia.
Qed.

(* ===================================================================== *)
(** ** The generated plan                                                  *)
(* ===================================================================== *)

Lemma generateWeekPlan_clamped weekNumber trainingDays paces targetDistance unit :
  generateWeekPlan weekNumber trainingDays paces targetDistance unit
    = generateWeekPlan weekNumber (clampDays trainingDays) paces targetDistance unit.
Proof. unfold generateWeekPlan. rewrite getWeekStructure_clamped. reflexivity. Qed.

(** The volumes of a block are those of the block generated for the same
    distance and the clamped number of days with any paces and unit. *)
Lemma blockVolumes_generateTrainingBlock blockNumber input vdot paces :
  blockVolumes (generateTrainingBlock blockNumber input vdot paces)
    = map (fun w =>
             WeekPlan.totalVolume
               (generateWeekPlan w (clampDays (UserInput.trainingDays input))
                  examplePaces (UserInput.targetDistance input) km))
        [1; 2; 3; 4; 5; 6].
Proof.
  unfold blockVolumes, generateTrainingBlock. cbn [TrainingBlock.weeks].
  rewrite map_map. cbn [map].
  rewrite !(generateWeekPlan_clamped _ (UserInput.trainingDays input)).
  generalize (default km (UserInput.unit input)). intros unit.
  destruct (clampDays_cases (UserInput.trainingDays input)) as [->|[->|[->|[->| ->]]]];
    destruct (UserInput.targetDistance input); vm_compute; reflexivity.
Qed.

(** X15: the weekly volumes of a generated block.  Weeks 1 to 5 have one
    and the same volume and week 6, the unload week, a strictly smaller
    positive one; and the volumes depend on the target distance and on the
    clamped number of training days only, not on the VDOT, the paces, the
    unit or the block number. *)
Theorem generateTrainingBlock_volumes blockNumber input vdot paces :
  let block := generateTrainingBlock blockNumber input vdot paces in
  (exists full unload : number,
     blockVolumes block
       = [Some full; Some full; Some full; Some full; Some full; Some unload]
     /\ (0 <? unload)%float = true /\ (unload <? full)%float = true)
  /\ forall blockNumber' input' vdot' paces',
       UserInput.targetDistance input' = UserInput.targetDistance input ->
       clampDays (UserInput.trainingDays input')
         = clampDays (UserInput.trainingDays input) ->
       blockVolumes (generateTrainingBlock blockNumber' input' vdot' paces')
         = blockVolumes block.
Proof.
  cbv zeta. split.
  - rewrite blockVolumes_generateTrainingBlock.
    destruct (clampDays_cases (UserInput.trainingDays input)) as [->|[->|[->|[->| ->]]]];
      destruct (UserInput.targetDistance input);
      (eexists; eexists; split; [vm_compute; reflexivity|]); split; reflexivity.
  - intros b' i' v' p' Hd Hc. rewrite !blockVolumes_generateTrainingBlock, Hd, Hc.
    reflexivity.
Qed.

(** X15 for the example: the same volumes in miles, for other paces. *)
Lemma generateTrainingBlock_volumes_witness :
  blockVolumes
    (generateTrainingBlock 2 (UserInput.mk D10K None None 9 [] (Some mile)) 40%float
       (Paces.mk 300 400
          (IntervalPaces.mk (PaceRange.mk 280 287) (PaceRange.mk 290 297)
             (PaceRange.mk 300 308)))%float)
    = blockVolumes exampleBlock.
Proof.
  apply (proj2 (generateTrainingBlock_volumes 1 exampleInput 56.9%float examplePaces)).
  - reflexivity.
  - reflexivity.
Defined.

Lemma createSession_shape day config paces weekNumber targetDistance isTestWeek unit :
  1 <= weekNumber <= 6 -> plainConfig config = true ->
  sessionShape paces
    (createSession day config paces weekNumber targetDistance isTestWeek unit).
Proof.
  intros Hw Hc.
  assert (weekNumber = 1 \/ weekNumber = 2 \/ weekNumber = 3 \/ weekNumber = 4
          \/ weekNumber = 5 \/ weekNumber = 6) as Hcases by lia.
  destruct config as [[] interval]; try discriminate; split; try reflexivity;
    cbn [createSession SessionConfig.type SessionConfig.intervalType
         TrainingSession.type TrainingSession.duration TrainingSession.intervals
         TrainingSession.paces TrainingSession.race].
  - split; [|split; reflexivity]. eexists. split; [reflexivity|].
    destruct Hcases as [->|[->|[->|[->|[->| ->]]]]]; destruct targetDistance;
      vm_compute; split; discriminate.
  - split; [reflexivity|]. eexists. split; [reflexivity|].
    cbn [IntervalSession.reps IntervalSession.recovery IntervalSession.paceRange
         IntervalSession.type Reps.min Reps.max].
    split; [reflexivity|]. split.
    + destruct Hcases as [->|[->|[->|[->|[->| ->]]]]]; destruct targetDistance;
        destruct interval as [[]|]; vm_compute; split; discriminate.
    + split; [reflexivity|]. split; [|reflexivity].
      destruct interval as [[]|]; reflexivity.
  - split; [|split; reflexivity]. eexists. split; [reflexivity|].
    destruct Hcases as [->|[->|[->|[->|[->| ->]]]]]; destruct targetDistance;
      vm_compute; split; discriminate.
  - auto.
  - auto.
Qed.

Lemma getWeekStructure_plain (trainingDays : Z) :
  forallb plainConfig (getWeekStructure trainingDays) = true.
Proof.
  rewrite getWeekStructure_clamped.
  destruct (clampDays_cases trainingDays) as [->|[->|[->|[->| ->]]]]; reflexivity.
Qed.

Lemma generateWeekPlan_shape weekNumber trainingDays paces targetDistance unit :
  1 <= weekNumber <= 6 ->
  Forall (sessionShape paces)
    (WeekPlan.sessions
       (generateWeekPlan weekNumber trainingDays paces targetDistance unit)).
Proof.
  intros Hw. unfold generateWeekPlan. cbn [WeekPlan.sessions].
  apply Forall_lookup. intros i s. rewrite list_lookup_imap.
  destruct (getWeekStructure trainingDays !! i) as [c|] eqn:Hc; [|discriminate].
  cbn [fmap option_fmap option_map]. intros [= <-].
  destruct ((weekNumber =? 6) && (i =? 5)%nat).
  - apply createSession_shape; [exact Hw|reflexivity].
  - apply createSession_shape; [exact Hw|].
    pose proof (getWeekStructure_plain trainingDays) as Hp.
    rewrite forallb_forall in Hp. apply Hp.
    apply list_elem_of_In. eapply list_elem_of_lookup_2. exact Hc.
Qed.

Lemma generateTrainingBlock_shape blockNumber input vdot paces :
  Forall (fun week => Forall (sessionShape paces) (WeekPlan.sessions week))
    (TrainingBlock.weeks (generateTrainingBlock blockNumber input vdot paces)).
Proof.
  unfold generateTrainingBlock. cbn [TrainingBlock.weeks map].
  repeat constructor; apply generateWeekPlan_shape; lia.
Qed.

Lemma createTrainingPlan_block `{host : HostMath} (input : UserInput.t) block :
  createTrainingPlan input = Ok block ->
  block = generateTrainingBlock 1 input (TrainingBlock.vdot block)
            (calculatePaces (TrainingBlock.vdot block)).
Proof.
  rewrite createTrainingPlan_usable.
  destruct (given (UserInput.time10K input)) as [t10|].
  - destruct (usableTime t10) as [x|]; [|discriminate]. intros [= <-]. reflexivity.
  - destruct (given (UserInput.time5K input)) as [t5|]; [|discriminate].
    destruct (usableTime t5) as [x|]; [|discriminate]. intros [= <-]. reflexivity.
Qed.

Lemma createTrainingPlan_paces `{host : HostMath} (input : UserInput.t) block :
  createTrainingPlan input = Ok block ->
  TrainingBlock.paces block = calculatePaces (TrainingBlock.vdot block).
Proof.
  rewrite createTrainingPlan_usable.
  destruct (given (UserInput.time10K input)) as [t10|].
  - destruct (usableTime t10) as [x|]; [|discriminate]. intros [= <-]. reflexivity.
  - destruct (given (UserInput.time5K input)) as [t5|]; [|discriminate].
    destruct (usableTime t5) as [x|]; [|discriminate]. intros [= <-]. reflexivity.
Qed.

Lemma rangeShape_midpoint (width : number) (r : PaceRange.t) :
  rangeShape width r = true ->
  (PaceRange.min r <=? midpoint r)%float
  && (midpoint r <=? PaceRange.max r)%float = true.
Proof.
  intros R. apply rangeShape_spec in R as (_ & _ & A & B & _).
  rewrite A, B. reflexivity.
Qed.

Lemma rangeOf_calculatePaces `{host : HostMath} (vdot : number)
    (interval : IntervalType.t) :
  rangeOf (calculatePaces vdot) interval
    = match interval with
      | IntervalType.short => IntervalPaces.short (calculateNSIntervalPaces vdot)
      | IntervalType.medium => IntervalPaces.medium (calculateNSIntervalPaces vdot)
      | IntervalType.long => IntervalPaces.long (calculateNSIntervalPaces vdot)
      end.
Proof. destruct interval; reflexivity. Qed.

Lemma midpoint_in_range `{host : HostMath} (vdot : number)
    (interval : IntervalType.t) :
  (PaceRange.min (rangeOf (calculatePaces vdot) interval)
     <=? midpoint (rangeOf (calculatePaces vdot) interval))%float
  && (midpoint (rangeOf (calculatePaces vdot) interval)
        <=? PaceRange.max (rangeOf (calculatePaces vdot) interval))%float = true.
Proof.
  rewrite rangeOf_calculatePaces.
  destruct (calculateNSIntervalPaces_shape vdot) as (A & B & C).
  destruct interval; eapply rangeShape_midpoint; eassumption.
Qed.

(** X16: on every host, every session of a plan that [createTrainingPlan]
    returns holds what its type calls for.  An easy or long run has a
    duration between 30 and 130 minutes and the easy pace of the block as its
    target; a threshold session has no duration but an interval block with
    [reps.min = reps.max] between 2 and 14, 60 seconds of recovery, the pace
    range of its interval type and, as target, the rounded midpoint of that
    range, which lies inside it; a test or rest day has neither duration nor
    paces nor intervals; no session is a race; and the paces of the block are
    those of its VDOT. *)
Theorem createTrainingPlan_sessions `{host : HostMath} (input : UserInput.t) block :
  createTrainingPlan input = Ok block ->
  TrainingBlock.paces block = calculatePaces (TrainingBlock.vdot block)
  /\ Forall
       (fun week =>
          Forall
            (fun session =>
               sessionShape (TrainingBlock.paces block) session
               /\ forall sessionPaces range,
                    TrainingSession.paces session = Some sessionPaces ->
                    SessionPaces.range sessionPaces = Some range ->
                    (PaceRange.min range <=? SessionPaces.target sessionPaces)%float
                    && (SessionPaces.target sessionPaces <=? PaceRange.max range)%float
                    = true)
            (WeekPlan.sessions week))
       (TrainingBlock.weeks block).
Proof.
  intros Hb. pose proof (createTrainingPlan_paces input block Hb) as Hp.
  apply createTrainingPlan_block in Hb.
  split; [exact Hp|].
  assert (Forall (fun week =>
                    Forall (sessionShape (calculatePaces (TrainingBlock.vdot block)))
                      (WeekPlan.sessions week))
            (TrainingBlock.weeks block)) as Hs
    by (pattern block at 2; rewrite Hb; apply generateTrainingBlock_shape).
  pose proof (midpoint_in_range (TrainingBlock.vdot block)) as Hmid.
  rewrite <- Hp in Hs, Hmid. clear Hb Hp.
  eapply Forall_impl; [exact Hs|]. intros week Hweek.
  eapply Forall_impl; [exact Hweek|]. intros s Hshape. split; [exact Hshape|].
  intros sp r Hsp Hr. destruct Hshape as [_ Hshape].
  destruct (TrainingSession.type s).
  - destruct Hshape as (_ & _ & E). rewrite E in Hsp. injection Hsp as <-. discriminate.
  - destruct Hshape as (_ & i & _ & _ & _ & _ & Hrange & E).
    rewrite E in Hsp. injection Hsp as <-. cbn in Hr. injection Hr as <-.
    cbn [SessionPaces.target]. rewrite Hrange. apply Hmid.
  - destruct Hshape as (_ & _ & E). rewrite E in Hsp. injection Hsp as <-. discriminate.
  - destruct Hshape as (_ & _ & E). congruence.
  - destruct Hshape as (_ & _ & E). congruence.
  - destruct Hshape.
Qed.

(** X16 for the plan of the example on the reference host. *)
Lemma createTrainingPlan_sessions_witness :
  TrainingBlock.paces exampleBlock
    = calculatePaces (host := fdlibm_host) (TrainingBlock.vdot exampleBlock).
Proof.
  apply (proj1 (createTrainingPlan_sessions (host := fdlibm_host) exampleInput
                  exampleBlock exampleBlock_created)).
Defined.

(** X17: the number of sessions other than rest days in the weeks of a
    generated block: the clamped number of training days in weeks 1 to 5,
    and in week 6 as many, but never fewer than 4: the test day takes the
    Saturday even where the day reduction had made it a rest day, so a
    runner who asked for 3 days gets 4 in the last week. *)
Theorem generateTrainingBlock_training_days blockNumber input vdot paces :
  map (fun week => Z.of_nat (length (trainingSessions week)))
      (TrainingBlock.weeks (generateTrainingBlock blockNumber input vdot paces))
    = let days := clampDays (UserInput.trainingDays input) in
      [days; days; days; days; days; Z.max 4 days].
Proof.
  unfold generateTrainingBlock. cbn [TrainingBlock.weeks map].
  rewrite !(generateWeekPlan_clamped _ (UserInput.trainingDays input)).
  destruct (clampDays_cases (UserInput.trainingDays input)) as [->|[->|[->|[->| ->]]]];
    reflexivity.
Qed.

Lemma INTERVAL_REPS_BY_DISTANCE_length (targetDistance : Distance) :
  length (INTERVAL_REPS_BY_DISTANCE targetDistance) = 6%nat.
Proof. destruct targetDistance; reflexivity. Qed.

Lemma getIntervalReps_fallback weekNumber intervalType targetDistance :
  weekNumber < 1 \/ 6 < weekNumber ->
  getIntervalReps weekNumber intervalType targetDistance
    = getIntervalReps 1 intervalType targetDistance.
Proof.
  intros Hw. unfold getIntervalReps.
  destruct (0 <=? weekNumber - 1) eqn:H0.
  - rewrite (proj2 (lookup_ge_None _ _))
      by (rewrite INTERVAL_REPS_BY_DISTANCE_length; lia).
    destruct targetDistance; reflexivity.
  - destruct targetDistance; reflexivity.
Qed.

(** X18: the unload week.  For every week number other than 6, also one
    outside 1..6 (where [getIntervalReps] falls back on the first week), the
    repetitions, the easy run and the long run are those of week 1; in week 6
    each of them is strictly smaller; the repetitions stay between 2 and 14,
    and the easy run is always shorter than the long run. *)
Theorem unload_week weekNumber intervalType targetDistance day :
  weekNumber <> 6 ->
  getIntervalReps weekNumber intervalType targetDistance
    = getIntervalReps 1 intervalType targetDistance
  /\ getEasyDuration weekNumber targetDistance day
     = getEasyDuration 1 targetDistance day
  /\ getLongDuration weekNumber targetDistance = getLongDuration 1 targetDistance
  /\ 2 <= getIntervalReps 6 intervalType targetDistance
       < getIntervalReps weekNumber intervalType targetDistance
  /\ getIntervalReps weekNumber intervalType targetDistance <= 14
  /\ getEasyDuration 6 targetDistance day
       < getEasyDuration weekNumber targetDistance day
       < getLongDuration weekNumber targetDistance
  /\ getEasyDuration 6 targetDistance day < getLongDuration 6 targetDistance
       < getLongDuration weekNumber targetDistance.
Proof.
  intros Hw.
  assert (getIntervalReps weekNumber intervalType targetDistance
            = getIntervalReps 1 intervalType targetDistance) as Hr.
  { destruct (Z_lt_le_dec weekNumber 1) as [Hlt|Hge];
      [apply getIntervalReps_fallback; lia|].
    destruct (Z_lt_le_dec 6 weekNumber) as [Hgt|Hle];
      [apply getIntervalReps_fallback; lia|].
    assert (weekNumber = 1 \/ weekNumber = 2 \/ weekNumber = 3 \/ weekNumber = 4
            \/ weekNumber = 5) as [->|[->|[->|[->| ->]]]] by lia;
      destruct targetDistance, intervalType; reflexivity. }
  assert (getEasyDuration weekNumber targetDistance day
            = getEasyDuration 1 targetDistance day) as He.
  { unfold getEasyDuration. destruct (weekNumber =? 6) eqn:E; [lia|reflexivity]. }
  assert (getLongDuration weekNumber targetDistance
            = getLongDuration 1 targetDistance) as Hl.
  { unfold getLongDuration. destruct (weekNumber =? 6) eqn:E; [lia|reflexivity]. }
  rewrite Hr, He, Hl.
  split; [reflexivity|]. split; [reflexivity|]. split; [reflexivity|].
  destruct targetDistance, intervalType; vm_compute; repeat split; congruence.
Qed.

(** X18 for a week number outside the block. *)
Lemma unload_week_witness :
  getIntervalReps 9 IntervalType.short D10K = getIntervalReps 1 IntervalType.short D10K.
Proof. apply (proj1 (unload_week 9 IntervalType.short D10K 1 ltac:(lia))). Defined.

(** X19: [getWeekLoadPercentage] returns 100 for the weeks 1 to 5, 70 for
    week 6 and [NaN] for every other week number, where it reads past the
    ends of the table. *)
Theorem getWeekLoadPercentage_values (weekNumber : Z) :
  getWeekLoadPercentage weekNumber
    = if (1 <=? weekNumber) && (weekNumber <=? 5) then 100%float
      else if weekNumber =? 6 then 70%float
      else nan.
Proof.
  unfold getWeekLoadPercentage.
  destruct (Z_lt_le_dec weekNumber 1) as [Hlt|Hge].
  - destruct (0 <=? weekNumber - 1) eqn:H0; [lia|].
    destruct (1 <=? weekNumber) eqn:H1; [lia|]. cbn [andb].
    destruct (weekNumber =? 6) eqn:H6; [lia|]. reflexivity.
  - destruct (Z_lt_le_dec 6 weekNumber) as [Hgt|Hle].
    + destruct (0 <=? weekNumber - 1) eqn:H0; [|lia].
      rewrite (proj2 (lookup_ge_None _ _)) by (cbn [length WEEK_VOLUME_MULTIPLIERS]; lia).
      destruct (1 <=? weekNumber) eqn:H1; [|lia].
      destruct (weekNumber <=? 5) eqn:H5; [lia|]. cbn [andb].
      destruct (weekNumber =? 6) eqn:H6; [lia|]. reflexivity.
    + assert (weekNumber = 1 \/ weekNumber = 2 \/ weekNumber = 3 \/ weekNumber = 4
              \/ weekNumber = 5 \/ weekNumber = 6)
        as [->|[->|[->|[->|[->| ->]]]]] by lia; vm_compute; reflexivity.
Qed.

(* ===================================================================== *)
(** ** Race tapering: errors and the race week                             *)
(* ===================================================================== *)

(** X20: a race day two or more past the end of the race week makes
    [applyRaceTapering] throw: no race is written, and the taper loop starts
    on a day that the week does not have, so that reading the type of its
    session fails.  With weeks of seven sessions this is every [raceDay] from
    9 on, whatever the block, the race and the week of the block. *)
Theorem applyRaceTapering_throws (fuel : nat) block race raceWeek raceDay week :
  (1 <= fuel)%nat ->
  1 <= raceWeek ->
  TrainingBlock.weeks block !! Z.to_nat (raceWeek - 1) = Some week ->
  Z.of_nat (length (WeekPlan.sessions week)) + 2 <= raceDay ->
  applyRaceTapering fuel block race raceWeek raceDay
    = Some (Throw (TypeError "Cannot read properties of undefined (reading 'type')")).
Proof.
  intros Hfuel Hw Hweek Hday.
  assert (Z.to_nat (raceWeek - 1) < length (TrainingBlock.weeks block))%nat as Hl
    by (apply lookup_lt_is_Some; eauto).
  pose proof (taperDaysOf_bounds race) as Ht.
  unfold applyRaceTapering. fold (taperDaysOf race).
  destruct ((raceWeek - 1 <? 0) || _) eqn:Hg; [lia|].
  rewrite Hweek.
  destruct ((0 <=? raceDay - 1)
            && (raceDay - 1 <? Z.of_nat (length (WeekPlan.sessions week))))
    eqn:Hin; [lia|].
  destruct fuel as [|fuel]; [lia|]. cbn [taperWeeks_loop].
  destruct (0 <? taperDaysOf race) eqn:H1; [|lia].
  destruct (0 <=? raceWeek - 1) eqn:H2; [|lia]. cbn [andb].
  destruct (Z.to_nat (raceDay - 1 - 1 + 1)) as [|n] eqn:Hn; [lia|].
  cbn [taperDays_loop].
  destruct (0 <=? raceDay - 1 - 1) eqn:H3; [|lia]. rewrite H1. cbn [andb].
  rewrite (proj2 (lookup_ge_None _ _)) by lia.
  reflexivity.
Qed.

(** X20 on the example: a race on day 9 of week 2. *)
Lemma applyRaceTapering_throws_witness :
  applyRaceTapering 1 exampleBlock exampleRace 2 9
    = Some (Throw (TypeError "Cannot read properties of undefined (reading 'type')")).
Proof.
  refine (applyRaceTapering_throws 1 exampleBlock exampleRace 2 9 _ _ _ _ _).
  - lia.
  - lia.
  - reflexivity.
  - vm_compute. discriminate.
Defined.

Lemma taperSession_idempotent (session : TrainingSession.t) :
  taperSession (taperSession session) = taperSession session.
Proof.
  destruct session as [day [] title description duration intervals paces race];
    reflexivity.
Qed.

Lemma asBeforeOrTapered_refl (sessions : list TrainingSession.t) :
  Forall2 asBeforeOrTapered sessions sessions.
Proof. induction sessions; constructor; [left; reflexivity|assumption]. Qed.

Lemma asBeforeOrTapered_trans (l1 l2 l3 : list TrainingSession.t) :
  Forall2 asBeforeOrTapered l1 l2 -> Forall2 asBeforeOrTapered l2 l3 ->
  Forall2 asBeforeOrTapered l1 l3.
Proof.
  apply Forall2_trans. intros a b c [->| ->] [->| ->];
    unfold asBeforeOrTapered; rewrite ?taperSession_idempotent; auto.
Qed.

Lemma taperDays_loop_sessions (n : nat) :
  forall sessions currentDay daysToTaper sessions' currentDay' daysToTaper',
    taperDays_loop n sessions currentDay daysToTaper
      = Ok (sessions', currentDay', daysToTaper') ->
    Forall2 asBeforeOrTapered sessions sessions'.
Proof.
  induction n as [|n IH]; intros sessions cd d sessions' cd' d'; cbn [taperDays_loop].
  - intros [= <- _ _]. apply asBeforeOrTapered_refl.
  - destruct ((0 <=? cd) && (0 <? d)); [|intros [= <- _ _]; apply asBeforeOrTapered_refl].
    destruct (sessions !! Z.to_nat cd) as [s|] eqn:Hs; [|discriminate].
    intros H. apply IH in H.
    eapply asBeforeOrTapered_trans; [|exact H].
    rewrite <- (list_insert_id sessions (Z.to_nat cd) s Hs) at 1.
    apply Forall2_insert; [apply asBeforeOrTapered_refl|right; reflexivity].
Qed.

Lemma taperWeeks_loop_sessions (fuel : nat) :
  forall sessions daysToTaper currentWeek currentDay sessions',
    taperWeeks_loop fuel sessions daysToTaper currentWeek currentDay
      = Some (Ok sessions') ->
    Forall2 asBeforeOrTapered sessions sessions'.
Proof.
  induction fuel as [|fuel IH]; intros sessions d cw cd sessions'; cbn [taperWeeks_loop].
  - destruct (_ && _); [discriminate|]. intros [= <-]. apply asBeforeOrTapered_refl.
  - destruct ((0 <? d) && (0 <=? cw)); [|intros [= <-]; apply asBeforeOrTapered_refl].
    destruct (taperDays_loop _ _ _ _) as [[[s1 cd1] d1]|e] eqn:H1; [|discriminate].
    apply taperDays_loop_sessions in H1.
    destruct (_ && _); intros H; apply IH in H;
      eapply asBeforeOrTapered_trans; eauto.
Qed.

(** X21: what a call that returns has done to the race week, whatever the
    placement of the race and the number of loop iterations.  The week keeps
    its number, its flags, its number of sessions and its [totalVolume],
    which is not computed again although long runs may have been shortened.
    The session of the race day is the race; every other session is as it
    was or is its tapered version, so that easy runs, rest days and test days
    are never touched, and no session changes its day, its paces or its
    intervals. *)
Theorem applyRaceTapering_race_week (fuel : nat) block race raceWeek raceDay
    block' week :
  applyRaceTapering fuel block race raceWeek raceDay = Some (Ok block') ->
  1 <= raceWeek ->
  TrainingBlock.weeks block !! Z.to_nat (raceWeek - 1) = Some week ->
  exists week',
    TrainingBlock.weeks block' !! Z.to_nat (raceWeek - 1) = Some week'
    /\ WeekPlan.weekNumber week' = WeekPlan.weekNumber week
    /\ WeekPlan.isTestWeek week' = WeekPlan.isTestWeek week
    /\ WeekPlan.isRecoveryWeek week' = WeekPlan.isRecoveryWeek week
    /\ WeekPlan.totalVolume week' = WeekPlan.totalVolume week
    /\ length (WeekPlan.sessions week') = length (WeekPlan.sessions week)
    /\ forall (i : nat) session,
         WeekPlan.sessions week !! i = Some session ->
         exists session',
           WeekPlan.sessions week' !! i = Some session'
           /\ if Z.of_nat i =? raceDay - 1
              then session' = raceSession race raceDay
              else (session' = session \/ session' = taperSession session)
                   /\ TrainingSession.day session' = TrainingSession.day session
                   /\ TrainingSession.paces session' = TrainingSession.paces session
                   /\ TrainingSession.intervals session'
                      = TrainingSession.intervals session.
Proof.
  intros Hret Hw Hweek.
  assert (Z.to_nat (raceWeek - 1) < length (TrainingBlock.weeks block))%nat as Hl
    by (apply lookup_lt_is_Some; eauto).
  unfold applyRaceTapering in Hret.
  destruct ((raceWeek - 1 <? 0) || _) eqn:Hg; [lia|].
  rewrite Hweek in Hret.
  destruct (taperWeeks_loop _ _ _ _ _) as [[sessions'|e]|] eqn:Hloop; try discriminate.
  injection Hret as <-. cbn [TrainingBlock.weeks].
  eexists. split; [apply list_lookup_insert_eq; exact Hl|].
  cbn [WeekPlan.weekNumber WeekPlan.isTestWeek WeekPlan.isRecoveryWeek
       WeekPlan.totalVolume WeekPlan.sessions].
  do 4 (split; [reflexivity|]).
  apply taperWeeks_loop_sessions in Hloop.
  pose proof (Forall2_length _ _ _ Hloop) as Hlen.
  split.
  - rewrite <- Hlen. destruct (_ && _); rewrite ?length_insert; reflexivity.
  - intros i session Hi.
    assert (i < length (WeekPlan.sessions week))%nat as Hlt
      by (apply lookup_lt_is_Some; eauto).
    destruct (Z.of_nat i =? raceDay - 1) eqn:Heq.
    + destruct ((0 <=? raceDay - 1)
                && (raceDay - 1 <? Z.of_nat (length (WeekPlan.sessions week))))
        eqn:Hin; [|lia].
      assert (i = Z.to_nat (raceDay - 1)) as -> by lia.
      destruct (Forall2_lookup_l _ _ _ (Z.to_nat (raceDay - 1))
                  (raceSession race raceDay) Hloop) as (s' & Hs' & Hrel).
      { apply list_lookup_insert_eq. exact Hlt. }
      exists s'. split; [exact Hs'|].
      destruct Hrel as [->| ->]; reflexivity.
    + destruct (Forall2_lookup_l _ _ _ i session Hloop) as (s' & Hs' & Hrel).
      { destruct ((0 <=? raceDay - 1) && _) eqn:Hin; [|exact Hi].
        rewrite list_lookup_insert_ne by lia. exact Hi. }
      exists s'. split; [exact Hs'|]. split; [exact Hrel|].
      destruct Hrel as [->| ->]; [auto|].
      destruct session as [day [] title description duration intervals paces r];
        auto.
Qed.

(** X21 on the example: a priority race on Wednesday of week 2. *)
Lemma applyRaceTapering_race_week_witness :
  exists block' week',
    applyRaceTapering 2 exampleBlock exampleRace 2 3 = Some (Ok block')
    /\ TrainingBlock.weeks block' !! 1%nat = Some week'
    /\ WeekPlan.totalVolume week' = Some 78%float.
Proof.
  destruct (applyRaceTapering 2 exampleBlock exampleRace 2 3)
    as [[block'|e]|] eqn:Hret; try (vm_compute in Hret; discriminate).
  destruct (applyRaceTapering_race_week 2 exampleBlock exampleRace 2 3 block'
              (generateWeekPlan 2 7 examplePaces D10K km) Hret ltac:(lia)
              ltac:(reflexivity)) as (week' & Hw' & _ & _ & _ & Hv & _).
  exists block', week'. split; [reflexivity|]. split; [exact Hw'|].
  rewrite Hv. vm_compute. reflexivity.
Defined.

(* ===================================================================== *)
(** ** Locales and paths                                                   *)
(* ===================================================================== *)

Lemma split_free (sep : ascii) (s : string) :
  Forall (fun part => free_of sep part = true) (split sep s).
Proof.
  induction s as [|c s IH]; cbn [split]; [repeat constructor|].
  destruct (Ascii.eqb c sep) eqn:Hc; [constructor; [reflexivity|exact IH]|].
  destruct (split sep s) as [|p ps];
    [repeat constructor; cbn; rewrite Hc; reflexivity|].
  inversion IH; subst. constructor; [|assumption].
  cbn [free_of]. rewrite Hc. assumption.
Qed.

Lemma split_join (sep : ascii) (parts : list string) :
  Forall (fun part => free_of sep part = true) parts -> parts <> [] ->
  split sep (I18n.join (String sep "") parts) = parts.
Proof.
  induction 1 as [|p ps Hp Hps IH]; intros Hne; [congruence|].
  destruct ps as [|q ps].
  - cbn [I18n.join]. apply split_free_id. exact Hp.
  - change (I18n.join (String sep "") (p :: q :: ps))
      with (p ++ String sep (I18n.join (String sep "") (q :: ps))).
    rewrite split_app_sep by exact Hp. rewrite IH by discriminate. reflexivity.
Qed.

Lemma path_segments_segment (path : string) :
  Forall segment (I18n.path_segments path).
Proof.
  unfold I18n.path_segments.
  pose proof (split_free "/" path) as H.
  induction H as [|p ps Hp Hps IH]; cbn [List.filter]; [constructor|].
  destruct (nonempty p) eqn:Hn; [constructor; [split; assumption|exact IH]|exact IH].
Qed.

Lemma filter_nonempty_id (parts : list string) :
  Forall segment parts -> List.filter nonempty parts = parts.
Proof.
  induction 1 as [|p ps [_ Hp] Hps IH]; cbn [List.filter]; [reflexivity|].
  rewrite Hp, IH. reflexivity.
Qed.

(** A path printed from segments reads back as these segments. *)
Lemma path_segments_join (parts : list string) :
  Forall segment parts ->
  I18n.path_segments ("/" ++ I18n.join "/" parts) = parts.
Proof.
  intros H. unfold I18n.path_segments.
  change ("/" ++ I18n.join "/" parts) with (String "/" (I18n.join "/" parts)).
  cbn [split]. rewrite Ascii.eqb_refl. cbn [List.filter nonempty].
  destruct parts as [|p ps]; [reflexivity|].
  rewrite split_join; [apply filter_nonempty_id; exact H| |discriminate].
  eapply Forall_impl; [exact H|]. intros s [Hs _]. exact Hs.
Qed.

Lemma Locale_string_segment (locale : Locale.t) :
  segment (I18n.Locale_string locale).
Proof. destruct locale; split; reflexivity. Qed.

Lemma locale_of_Locale_string (locale : Locale.t) :
  I18n.locale_of (I18n.Locale_string locale) = Some locale.
Proof. destruct locale; reflexivity. Qed.

Lemma Locale_eqb_eq (a b : Locale.t) : I18n.Locale_eqb a b = true <-> a = b.
Proof. destruct a, b; cbn; split; congruence. Qed.

(** The segments of the path that [getPathInLocale] returns. *)
Lemma getPathInLocale_segments (path : string) (targetLocale : Locale.t) :
  I18n.path_segments (I18n.getPathInLocale path targetLocale)
    = if I18n.Locale_eqb (I18n.getLocaleFromPath path) targetLocale
      then I18n.path_segments path
      else I18n.Locale_string targetLocale :: path_content path.
Proof.
  unfold I18n.getPathInLocale, path_content.
  destruct (I18n.Locale_eqb _ _); [reflexivity|].
  pose proof (path_segments_segment path) as Hs.
  pose proof (Locale_string_segment targetLocale) as Hl.
  rewrite path_segments_join.
  - destruct (I18n.path_segments path) as [|first rest]; [reflexivity|].
    destruct (I18n.locale_of first); reflexivity.
  - destruct (I18n.path_segments path) as [|first rest];
      [repeat constructor; apply Hl|].
    inversion Hs; subst.
    destruct (I18n.locale_of first); constructor; assumption.
Qed.

Lemma getLocaleFromPath_target (path : string) (targetLocale : Locale.t) :
  I18n.getLocaleFromPath (I18n.getPathInLocale path targetLocale) = targetLocale.
Proof.
  unfold I18n.getLocaleFromPath at 1. rewrite getPathInLocale_segments.
  destruct (I18n.Locale_eqb _ _) eqn:He.
  - apply Locale_eqb_eq in He. exact He.
  - rewrite locale_of_Locale_string. reflexivity.
Qed.

(** X22: [getPathInLocale] changes the locale prefix and nothing else, for
    every path (empty, without a leading slash, with doubled slashes, with or
    without a locale prefix) and both locales.  [getLocaleFromPath] reads the
    target locale from the path returned; the segments that follow the locale
    prefix are those of the path given; a path already in the target locale
    is returned as it is, and any other as the target locale followed by its
    content, joined by single slashes with no trailing slash; switching to
    the same locale twice is switching once. *)
Theorem getPathInLocale_switches_locale (path : string) (targetLocale : Locale.t) :
  I18n.getLocaleFromPath (I18n.getPathInLocale path targetLocale) = targetLocale
  /\ path_content (I18n.getPathInLocale path targetLocale) = path_content path
  /\ I18n.getPathInLocale path targetLocale
     = (if I18n.Locale_eqb (I18n.getLocaleFromPath path) targetLocale then path
        else "/" ++ I18n.join "/" (I18n.Locale_string targetLocale
                                     :: path_content path))
  /\ I18n.getPathInLocale (I18n.getPathInLocale path targetLocale) targetLocale
     = I18n.getPathInLocale path targetLocale.
Proof.
  split; [apply getLocaleFromPath_target|]. split; [|split].
  - unfold path_content at 1. rewrite getPathInLocale_segments.
    destruct (I18n.Locale_eqb _ _); [reflexivity|].
    rewrite locale_of_Locale_string. reflexivity.
  - unfold I18n.getPathInLocale, path_content.
    destruct (I18n.Locale_eqb _ _); [reflexivity|].
    destruct (I18n.path_segments path) as [|first rest]; [reflexivity|].
    destruct (I18n.locale_of first); reflexivity.
  - unfold I18n.getPathInLocale at 1.
    rewrite getLocaleFromPath_target.
    destruct targetLocale; reflexivity.
Qed.

Lemma translations_table :
  forallb (fun key => forallb (fun locale => translated locale key) I18n.locales)
    translationKeys = true
  /\ map fst (I18n.ui Locale.en) = translationKeys
  /\ length translationKeys = 88%nat.
Proof. repeat split; vm_compute; reflexivity. Qed.

(** X23: the translations are complete.  The Spanish and the English
    dictionary define the same 88 keys in the same order, each with a
    non-empty text, so that [t] returns the text of the locale asked for and
    never falls back on the default locale or on the key itself. *)
Theorem translations_complete (locale : Locale.t) (key : string) :
  key ∈ translationKeys ->
  (exists text,
     I18n.entry (I18n.ui locale) key = Some text /\ text <> ""
     /\ I18n.t locale key = text)
  /\ map fst (I18n.ui Locale.en) = map fst (I18n.ui Locale.es)
  /\ length (I18n.ui Locale.es) = 88%nat.
Proof.
  intros Hkey. destruct translations_table as (Htab & Hkeys & Hlen).
  split; [|split; [exact Hkeys|]].
  - rewrite forallb_forall in Htab.
    specialize (Htab key ltac:(by apply list_elem_of_In)).
    rewrite forallb_forall in Htab.
    specialize (Htab locale ltac:(destruct locale; simpl; auto)).
    unfold translated in Htab.
    destruct (I18n.entry (I18n.ui locale) key) as [text|]; [|discriminate].
    apply andb_prop in Htab as [Hn Ht]. apply String.eqb_eq in Ht.
    exists text. split; [reflexivity|]. split; [|exact Ht].
    intros ->. discriminate.
  - unfold translationKeys in Hlen. rewrite length_map in Hlen. exact Hlen.
Qed.

(** X23 for the key of the home link, in English. *)
Lemma translations_complete_witness :
  exists text,
    I18n.entry (I18n.ui Locale.en) "nav.home" = Some text /\ text <> ""
    /\ I18n.t Locale.en "nav.home" = text.
Proof.
  apply (proj1 (translations_complete Locale.en "nav.home"
                  ltac:(apply list_elem_of_In; vm_compute; auto))).
Defined.

(* ===================================================================== *)
(** ** Race tapering: the taper window                                     *)
(* ===================================================================== *)

Lemma tapered_lookup (visited : nat -> bool) sessions (i : nat) :
  tapered visited sessions !! i
  = (fun session => if visited i then taperSession session else session)
      <$> sessions !! i.
Proof. unfold tapered. apply list_lookup_imap. Qed.

Lemma tapered_length (visited : nat -> bool) sessions :
  length (tapered visited sessions) = length sessions.
Proof. unfold tapered. apply length_imap. Qed.

Lemma tapered_none sessions : tapered (fun _ => false) sessions = sessions.
Proof.
  apply list_eq. intros i. rewrite tapered_lookup.
  destruct (sessions !! i); reflexivity.
Qed.

Lemma tapered_insert (visited : nat -> bool) sessions (k : nat) session :
  sessions !! k = Some session ->
  tapered visited (<[k := taperSession session]> sessions)
  = tapered (fun i => visited i || (i =? k)%nat) sessions.
Proof.
  intros Hk. apply list_eq. intros i. rewrite !tapered_lookup.
  destruct (Nat.eq_dec i k) as [->|Hne].
  - rewrite list_lookup_insert_eq by (apply lookup_lt_is_Some; eauto).
    rewrite Hk, Nat.eqb_refl, orb_true_r. cbn.
    destruct (visited k); rewrite ?taperSession_idempotent; reflexivity.
  - rewrite list_lookup_insert_ne by auto.
    destruct (i =? k)%nat eqn:E; [apply Nat.eqb_eq in E; contradiction|].
    rewrite orb_false_r. reflexivity.
Qed.

Lemma tapered_tapered (visited visited' : nat -> bool) sessions :
  tapered visited' (tapered visited sessions)
  = tapered (fun i => visited i || visited' i) sessions.
Proof.
  apply list_eq. intros i. rewrite !tapered_lookup.
  destruct (sessions !! i) as [s|]; [|reflexivity]. cbn.
  destruct (visited i), (visited' i); rewrite ?taperSession_idempotent; reflexivity.
Qed.

(** The days the inner loop visits, its counters on exit and whether it
    throws depend on its counters and on the number of sessions only, not
    on the sessions. *)
Lemma taperDays_loop_uniform (n : nat) (len : nat) :
  forall currentDay daysToTaper,
  exists outcome : result ((nat -> bool) * Z * Z),
    forall sessions, length sessions = len ->
      taperDays_loop n sessions currentDay daysToTaper
      = match outcome with
        | Ok (visited, currentDay', daysToTaper') =>
            Ok (tapered visited sessions, currentDay', daysToTaper')
        | Throw e => Throw e
        end.
Proof.
  induction n as [|n IH]; intros cd d.
  - exists (Ok (fun _ => false, cd, d)). intros sessions _.
    rewrite tapered_none. reflexivity.
  - cbn [taperDays_loop].
    destruct ((0 <=? cd) && (0 <? d)).
    + destruct (IH (cd - 1) (d - 1)) as [[[[visited cd'] d']|e] Hout].
      * destruct (decide (Z.to_nat cd < len)%nat) as [Hlt|Hge].
        -- exists (Ok (fun i => visited i || (i =? Z.to_nat cd)%nat, cd', d')).
           intros sessions Hlen.
           destruct (sessions !! Z.to_nat cd) as [s|] eqn:Hs.
           ++ rewrite Hout by (rewrite length_insert; exact Hlen).
              rewrite (tapered_insert _ _ _ _ Hs). reflexivity.
           ++ apply lookup_ge_None in Hs. lia.
        -- exists (Throw (TypeError "Cannot read properties of undefined (reading 'type')")).
           intros sessions Hlen.
           rewrite (proj2 (lookup_ge_None _ _)) by lia. reflexivity.
      * destruct (decide (Z.to_nat cd < len)%nat) as [Hlt|Hge].
        -- exists (Throw e). intros sessions Hlen.
           destruct (sessions !! Z.to_nat cd) as [s|] eqn:Hs.
           ++ rewrite Hout by (rewrite length_insert; exact Hlen). reflexivity.
           ++ apply lookup_ge_None in Hs. lia.
        -- exists (Throw (TypeError "Cannot read properties of undefined (reading 'type')")).
           intros sessions Hlen.
           rewrite (proj2 (lookup_ge_None _ _)) by lia. reflexivity.
    + exists (Ok (fun _ => false, cd, d)). intros sessions _.
      rewrite tapered_none. reflexivity.
Qed.

Lemma taperWeeks_loop_uniform (fuel : nat) (len : nat) :
  forall daysToTaper currentWeek currentDay,
  exists outcome : option (result (nat -> bool)),
    forall sessions, length sessions = len ->
      taperWeeks_loop fuel sessions daysToTaper currentWeek currentDay
      = match outcome with
        | Some (Ok visited) => Some (Ok (tapered visited sessions))
        | Some (Throw e) => Some (Throw e)
        | None => None
        end.
Proof.
  induction fuel as [|fuel IH]; intros d cw cd; cbn [taperWeeks_loop].
  - destruct ((0 <? d) && (0 <=? cw)).
    + exists None. reflexivity.
    + exists (Some (Ok (fun _ => false))). intros sessions _.
      rewrite tapered_none. reflexivity.
  - destruct ((0 <? d) && (0 <=? cw)).
    + destruct (taperDays_loop_uniform (Z.to_nat (cd + 1)) len cd d)
        as [[[[visited cd'] d']|e] Hdays].
      * destruct (IH d' (if (0 <? d') && (0 <? cw) then cw - 1 else cw)
                    (if (0 <? d') && (0 <? cw) then 6 else cd'))
          as [[[visited'|e]|] Hweeks].
        -- exists (Some (Ok (fun i => visited i || visited' i))).
           intros sessions Hlen. rewrite (Hdays _ Hlen).
           destruct ((0 <? d') && (0 <? cw));
             rewrite Hweeks by (rewrite tapered_length; exact Hlen);
             rewrite tapered_tapered; reflexivity.
        -- exists (Some (Throw e)).
           intros sessions Hlen. rewrite (Hdays _ Hlen).
           destruct ((0 <? d') && (0 <? cw));
             rewrite Hweeks by (rewrite tapered_length; exact Hlen); reflexivity.
        -- exists None.
           intros sessions Hlen. rewrite (Hdays _ Hlen).
           destruct ((0 <? d') && (0 <? cw));
             rewrite Hweeks by (rewrite tapered_length; exact Hlen); reflexivity.
      * exists (Some (Throw e)). intros sessions Hlen. rewrite (Hdays _ Hlen).
        reflexivity.
    + exists (Some (Ok (fun _ => false))). intros sessions _.
      rewrite tapered_none. reflexivity.
Qed.

(** X24: adding the same race twice changes nothing more.  Whenever
    [applyRaceTapering] returns a block, the same call on that block returns
    it again: the race is written over itself, and the taper visits the same
    days, which tapering leaves as they are once tapered. *)
Theorem applyRaceTapering_idempotent (fuel : nat) block race raceWeek raceDay block' :
  applyRaceTapering fuel block race raceWeek raceDay = Some (Ok block') ->
  applyRaceTapering fuel block' race raceWeek raceDay = Some (Ok block').
Proof.
  unfold applyRaceTapering. 
  destruct ((raceWeek - 1 <? 0)
            || (Z.of_nat (length (TrainingBlock.weeks block)) <=? raceWeek - 1))
    eqn:Hg.
  { intros [= <-]. rewrite Hg. reflexivity. }
  destruct (TrainingBlock.weeks block !! Z.to_nat (raceWeek - 1)) as [week0|] eqn:Hweek;
    [|discriminate].
  assert (Z.to_nat (raceWeek - 1) < length (TrainingBlock.weeks block))%nat as Hl
    by (apply lookup_lt_is_Some; eauto).
  set (taperDays := match Race.type race with A => 7 | B => 3 end).
  set (len := length (WeekPlan.sessions week0)).
  destruct (taperWeeks_loop_uniform fuel len taperDays (raceWeek - 1) (raceDay - 1 - 1))
    as [outcome Hloop].
  set (inside := (0 <=? raceDay - 1) && (raceDay - 1 <? Z.of_nat len)).
  set (sessions1 := if inside
                    then <[Z.to_nat (raceDay - 1) := raceSession race raceDay]>
                           (WeekPlan.sessions week0)
                    else WeekPlan.sessions week0).
  assert (length sessions1 = len) as Hl1.
  { subst sessions1. destruct inside; rewrite ?length_insert; reflexivity. }
  rewrite (Hloop sessions1 Hl1).
  destruct outcome as [[visited|e]|]; try discriminate.
  intros [= <-]. cbn [TrainingBlock.weeks TrainingBlock.blockNumber
                      TrainingBlock.startDate TrainingBlock.endDate
                      TrainingBlock.vdot TrainingBlock.paces].
  rewrite length_insert, Hg.
  rewrite list_lookup_insert_eq by exact Hl.
  cbn [WeekPlan.sessions WeekPlan.weekNumber WeekPlan.isTestWeek
       WeekPlan.isRecoveryWeek WeekPlan.totalVolume].
  rewrite tapered_length, Hl1. fold inside.
  assert ((if inside
           then <[Z.to_nat (raceDay - 1) := raceSession race raceDay]>
                  (tapered visited sessions1)
           else tapered visited sessions1) = tapered visited sessions1) as ->.
  { destruct inside eqn:Hin; [|reflexivity].
    apply list_insert_id. rewrite tapered_lookup. subst sessions1.
    rewrite list_lookup_insert_eq by (fold len; unfold inside in Hin; lia).
    cbn. destruct (visited _); reflexivity. }
  rewrite (Hloop (tapered visited sessions1))
    by (rewrite tapered_length; exact Hl1).
  rewrite tapered_tapered.
  assert (tapered (fun i => visited i || visited i) sessions1
          = tapered visited sessions1) as ->.
  { apply list_eq. intros i. rewrite !tapered_lookup, orb_diag. reflexivity. }
  rewrite list_insert_insert_eq. reflexivity.
Qed.

(** X24 on the example: a priority race on Wednesday of week 2, added
    twice. *)
Lemma applyRaceTapering_idempotent_witness :
  exists block',
    applyRaceTapering 2 exampleBlock exampleRace 2 3 = Some (Ok block')
    /\ applyRaceTapering 2 block' exampleRace 2 3 = Some (Ok block').
Proof.
  destruct (applyRaceTapering 2 exampleBlock exampleRace 2 3)
    as [[block'|e]|] eqn:Hret; try (vm_compute in Hret; discriminate).
  exists block'. split; [reflexivity|].
  exact (applyRaceTapering_idempotent 2 exampleBlock exampleRace 2 3 block' Hret).
Defined.

(** The outer loop on a week of seven sessions, started on the day before
    index [raceIndex]: it tapers the days before the race in the week and,
    when these are fewer than [taperDays] and there is an earlier week, as
    many days from the end of the same week as remain. *)
Lemma taperWeeks_loop_window (fuel : nat) sessions taperDays currentWeek raceIndex :
  (2 <= fuel)%nat -> length sessions = 7%nat ->
  1 <= taperDays <= 7 -> 0 <= currentWeek -> 0 <= raceIndex <= 6 ->
  1 <= currentWeek \/ taperDays <= raceIndex ->
  exists sessions',
    taperWeeks_loop fuel sessions taperDays currentWeek (raceIndex - 1)
      = Some (Ok sessions')
    /\ forall i : nat,
         sessions' !! i
           = if ((raceIndex - taperDays <=? Z.of_nat i) && (Z.of_nat i <? raceIndex))
                || (7 + raceIndex - taperDays <=? Z.of_nat i)
             then taperSession <$> sessions !! i
             else sessions !! i.
Proof.
  intros Hfuel Hlen Hd Hw Hr Hcase.
  destruct fuel as [|[|fuel]]; [lia|lia|].
  cbn [taperWeeks_loop].
  destruct (0 <? taperDays) eqn:H1; [|lia].
  destruct (0 <=? currentWeek) eqn:H2; [|lia]. cbn [andb].
  destruct (taperDays_loop_result sessions (raceIndex - 1) taperDays)
    as (s1 & -> & Hl1 & Hc1); [lia|].
  set (k := Z.max 0 (Z.min (raceIndex - 1 + 1) taperDays)) in *.
  destruct (Z.eq_dec (taperDays - k) 0) as [Hk|Hk].
  - rewrite Hk. cbn [Z.ltb Z.compare andb].
    exists s1. split; [destruct (0 <=? currentWeek); reflexivity|].
    intros i. rewrite Hc1.
    destruct (decide (i < 7)%nat) as [Hi|Hi].
    + destruct (raceIndex - 1 - k <? Z.of_nat i) eqn:E1,
               (Z.of_nat i <=? raceIndex - 1) eqn:E2,
               (raceIndex - taperDays <=? Z.of_nat i) eqn:E3,
               (Z.of_nat i <? raceIndex) eqn:E4,
               (7 + raceIndex - taperDays <=? Z.of_nat i) eqn:E5;
        cbn [andb orb]; try reflexivity; lia.
    + rewrite (proj2 (lookup_ge_None sessions i)) by lia.
      destruct (_ && _), (_ || _); reflexivity.
  - assert (0 < taperDays - k) as Hpos by lia.
    assert (1 <= currentWeek) as Hw1 by lia.
    destruct (0 <? taperDays - k) eqn:H3; [|lia].
    destruct (0 <? currentWeek) eqn:H4; [|lia]. cbn [andb].
    destruct (0 <=? currentWeek - 1) eqn:H5; [|lia].
    destruct (taperDays_loop_result s1 6 (taperDays - k)) as (s2 & Hr2 & Hl2 & Hc2);
      [lia|].
    change (Z.to_nat (6 + 1)) with 7%nat in *.
    set (k2 := Z.max 0 (Z.min (6 + 1) (taperDays - k))) in *.
    replace (taperDays - k - k2) with 0 in Hr2 by lia.
    rewrite Hr2. cbn [Z.ltb Z.compare andb].
    exists s2. rewrite taperWeeks_loop_done. split; [reflexivity|].
    intros i. rewrite Hc2, Hc1.
    destruct (decide (i < 7)%nat) as [Hi|Hi].
    + destruct (sessions !! i) as [s|]; [|destruct (_ && _), (_ && _), (_ || _); reflexivity].
      destruct (raceIndex - 1 - k <? Z.of_nat i) eqn:E1,
               (Z.of_nat i <=? raceIndex - 1) eqn:E2,
               (6 - k2 <? Z.of_nat i) eqn:E6,
               (Z.of_nat i <=? 6) eqn:E7,
               (raceIndex - taperDays <=? Z.of_nat i) eqn:E3,
               (Z.of_nat i <? raceIndex) eqn:E4,
               (7 + raceIndex - taperDays <=? Z.of_nat i) eqn:E5;
        cbn [andb orb fmap option_fmap option_map];
        rewrite ?taperSession_idempotent; try reflexivity; lia.
    + rewrite (proj2 (lookup_ge_None sessions i)) by lia.
      destruct (_ && _), (_ && _), (_ || _); reflexivity.
Qed.

(** X25: which sessions a call tapers.  For a race on day 1..7 of a week of
    seven sessions, in week 2 or later or with the whole taper in the days
    before it, the call returns; the race day holds the race session, and
    the tapered sessions are those of the [taperDays] days before the race
    counted round the race week: the days before the race and, when they
    are fewer than [taperDays], the last days of the same week, which come
    after the race.  A priority race (7 days) on any day of week 2 to 6
    therefore tapers every other session of its own week, and no call
    tapers a session of an earlier week. *)
Theorem applyRaceTapering_taper_window (fuel : nat) block race raceWeek raceDay week :
  (2 <= fuel)%nat ->
  1 <= raceWeek ->
  TrainingBlock.weeks block !! Z.to_nat (raceWeek - 1) = Some week ->
  length (WeekPlan.sessions week) = 7%nat ->
  1 <= raceDay <= 7 ->
  2 <= raceWeek \/ taperDaysOf race < raceDay ->
  exists block' week',
    applyRaceTapering fuel block race raceWeek raceDay = Some (Ok block')
    /\ TrainingBlock.weeks block' !! Z.to_nat (raceWeek - 1) = Some week'
    /\ (forall i : nat,
          i <> Z.to_nat (raceWeek - 1) ->
          TrainingBlock.weeks block' !! i = TrainingBlock.weeks block !! i)
    /\ forall i : nat,
         WeekPlan.sessions week' !! i
           = if Z.of_nat i =? raceDay - 1 then Some (raceSession race raceDay)
             else if taperWindow (taperDaysOf race) raceDay i
                  then taperSession <$> WeekPlan.sessions week !! i
                  else WeekPlan.sessions week !! i.
Proof.
  intros Hfuel Hw Hweek Hlen Hday Hcase.
  pose proof (taperDaysOf_bounds race) as Ht.
  assert (Z.to_nat (raceWeek - 1) < length (TrainingBlock.weeks block))%nat as Hl
    by (apply lookup_lt_is_Some; eauto).
  unfold applyRaceTapering. fold (taperDaysOf race).
  destruct ((raceWeek - 1 <? 0) || _) eqn:Hg; [lia|].
  rewrite Hweek.
  destruct ((0 <=? raceDay - 1)
            && (raceDay - 1 <? Z.of_nat (length (WeekPlan.sessions week))))
    eqn:Hin; [|lia].
  set (sessions1 := <[Z.to_nat (raceDay - 1) := raceSession race raceDay]>
                      (WeekPlan.sessions week)).
  destruct (taperWeeks_loop_window fuel sessions1 (taperDaysOf race) (raceWeek - 1)
              (raceDay - 1)) as (s' & -> & Hc); try lia.
  { subst sessions1. rewrite length_insert. exact Hlen. }
  eexists. eexists. split; [reflexivity|]. cbn [TrainingBlock.weeks].
  split; [apply list_lookup_insert_eq; exact Hl|].
  split; [intros i Hi; apply list_lookup_insert_ne; auto|].
  intros i. cbn [WeekPlan.sessions]. rewrite Hc. subst sessions1.
  destruct (Z.of_nat i =? raceDay - 1) eqn:Hi.
  - assert (i = Z.to_nat (raceDay - 1)) as -> by lia.
    rewrite list_lookup_insert_eq by lia.
    destruct ((raceDay - 1 - taperDaysOf race <=? _) && _ || _); reflexivity.
  - rewrite list_lookup_insert_ne by lia.
    destruct (decide (i < 7)%nat) as [Hi7|Hi7].
    + unfold taperWindow. cbv zeta.
      assert (i = 0 \/ i = 1 \/ i = 2 \/ i = 3 \/ i = 4 \/ i = 5 \/ i = 6)%nat
        as Hcases by lia.
      assert (raceDay = 1 \/ raceDay = 2 \/ raceDay = 3 \/ raceDay = 4
              \/ raceDay = 5 \/ raceDay = 6 \/ raceDay = 7) as Hdays by lia.
      assert (taperDaysOf race = 3 \/ taperDaysOf race = 7) as [-> | ->]
        by (unfold taperDaysOf; destruct (Race.type race); auto);
      destruct Hdays as [->|[->|[->|[->|[->|[->| ->]]]]]];
      destruct Hcases as [->|[->|[->|[->|[->|[->| ->]]]]]];
      try reflexivity; discriminate Hi.
    + rewrite (proj2 (lookup_ge_None (WeekPlan.sessions week) i)) by lia.
      destruct ((raceDay - 1 - taperDaysOf race <=? _) && _ || _),
               (taperWindow _ _ _); reflexivity.
Qed.

(** X25 on the example: a priority race on Wednesday of week 2 tapers the
    long run of the Sunday that follows it. *)
Lemma applyRaceTapering_taper_window_witness :
  exists block' week',
    applyRaceTapering 2 exampleBlock exampleRace 2 3 = Some (Ok block')
    /\ TrainingBlock.weeks block' !! 1%nat = Some week'
    /\ TrainingSession.title <$> WeekPlan.sessions week' !! 6%nat
       = Some "Easy Run (Taper)".
Proof.
  destruct (applyRaceTapering_taper_window 2 exampleBlock exampleRace 2 3
              (generateWeekPlan 2 7 examplePaces D10K km)
              ltac:(lia) ltac:(lia) ltac:(reflexivity) ltac:(reflexivity)
              ltac:(lia) ltac:(left; lia))
    as (block' & week' & Hret & Hw' & _ & Hs).
  exists block', week'. split; [exact Hret|]. split; [exact Hw'|].
  rewrite (Hs 6%nat). reflexivity.
Defined.

(* ===================================================================== *)
(** ** The unit of the plan                                                *)
(* ===================================================================== *)

Lemma createSession_unit day config paces weekNumber targetDistance isTestWeek
    unit unit' :
  sameButDescription
    (createSession day config paces weekNumber targetDistance isTestWeek unit)
    (createSession day config paces weekNumber targetDistance isTestWeek unit').
Proof.
  destruct config as [[] intervalType]; split; try reflexivity.
  intros H. exfalso. apply H. reflexivity.
Qed.

Lemma calculateWeekVolume_unit weekNumber sessions sessions' :
  Forall2 sameButDescription sessions sessions' ->
  calculateWeekVolume weekNumber sessions' = calculateWeekVolume weekNumber sessions.
Proof.
  intros H. unfold calculateWeekVolume. cbv zeta. f_equal. f_equal.
  generalize 0%float as total.
  induction H as [|s s' l l' [Hs _] _ IH]; intros total; [reflexivity|].
  cbn [fold_left]. rewrite IH. f_equal.
  unfold withoutDescription in Hs. injection Hs as _ Htype _ Hduration Hintervals _ _.
  rewrite Htype, Hduration, Hintervals. reflexivity.
Qed.

Lemma generateWeekPlan_unit weekNumber trainingDays paces targetDistance unit unit' :
  sameButDescriptions
    (generateWeekPlan weekNumber trainingDays paces targetDistance unit)
    (generateWeekPlan weekNumber trainingDays paces targetDistance unit').
Proof.
  assert (Forall2 sameButDescription
            (WeekPlan.sessions
               (generateWeekPlan weekNumber trainingDays paces targetDistance unit))
            (WeekPlan.sessions
               (generateWeekPlan weekNumber trainingDays paces targetDistance unit')))
    as Hs.
  { unfold generateWeekPlan. cbn [WeekPlan.sessions].
    apply Forall2_same_length_lookup_2; [rewrite !length_imap; reflexivity|].
    intros i s s'. rewrite !list_lookup_imap.
    destruct (getWeekStructure trainingDays !! i) as [config|]; [|discriminate].
    cbn [fmap option_fmap option_map].
    destruct ((weekNumber =? 6) && (i =? 5)%nat);
      intros [= <-] [= <-]; apply createSession_unit. }
  unfold sameButDescriptions. repeat split; try reflexivity; [|exact Hs].
  unfold generateWeekPlan in *. cbn [WeekPlan.totalVolume WeekPlan.sessions] in *.
  f_equal. apply calculateWeekVolume_unit. exact Hs.
Qed.

(** X26: the unit of the plan reaches the wording of the threshold sessions
    only.  The blocks generated for two inputs that differ by their unit
    have the same weekly volumes and, day by day, sessions that are equal
    but for their descriptions, and equal altogether when they are not
    threshold sessions: the numeric paces and pace ranges of the sessions
    stay in seconds per kilometre whatever the unit. *)
Theorem generateTrainingBlock_unit blockNumber input vdot paces unit :
  let block := generateTrainingBlock blockNumber input vdot paces in
  let block' := generateTrainingBlock blockNumber (withUnit input unit) vdot paces in
  TrainingBlock.blockNumber block' = TrainingBlock.blockNumber block
  /\ TrainingBlock.vdot block' = TrainingBlock.vdot block
  /\ TrainingBlock.paces block' = TrainingBlock.paces block
  /\ Forall2 sameButDescriptions (TrainingBlock.weeks block) (TrainingBlock.weeks block').
Proof.
  cbv zeta. unfold generateTrainingBlock.
  cbn [TrainingBlock.blockNumber TrainingBlock.vdot TrainingBlock.paces
       TrainingBlock.weeks withUnit UserInput.trainingDays
       UserInput.targetDistance UserInput.unit].
  repeat split.
  cbn [map]. repeat constructor; apply generateWeekPlan_unit.
Qed.

(* ===================================================================== *)
(** ** The earlier revision of the plan generator                          *)
(* ===================================================================== *)

Lemma grantedDays_cases (trainingDays : Z) :
  grantedDays trainingDays = 4 \/ grantedDays trainingDays = 5
  \/ grantedDays trainingDays = 6 \/ grantedDays trainingDays = 7.
Proof. unfold grantedDays. lia. Qed.

Lemma Earlier_getWeekStructure_granted (trainingDays : Z) :
  Earlier.getWeekStructure trainingDays
    = Earlier.getWeekStructure (grantedDays trainingDays).
Proof.
  unfold grantedDays.
  destruct (Z_le_gt_dec 7 trainingDays) as [H7|H7].
  - replace (Z.max 4 (Z.min 7 trainingDays)) with 7 by lia.
    unfold Earlier.getWeekStructure.
    destruct (7 <=? trainingDays) eqn:E; [reflexivity|lia].
  - destruct (Z_le_gt_dec trainingDays 4) as [H4|H4].
    + replace (Z.max 4 (Z.min 7 trainingDays)) with 4 by lia.
      unfold Earlier.getWeekStructure.
      destruct (7 <=? trainingDays) eqn:E; [lia|].
      cbv zeta. f_equal. f_equal. unfold Earlier.slice_from.
      cbn [length Earlier.easyDayIndices]. cbv zeta.
      destruct (- (7 - trainingDays) <? 0) eqn:E1; [|lia].
      replace (Z.max (Z.of_nat 3 + - (7 - trainingDays)) 0) with 0 by lia.
      reflexivity.
    + replace (Z.max 4 (Z.min 7 trainingDays)) with trainingDays by lia.
      reflexivity.
Qed.

(** X27: the week structure of the earlier revision.  Whatever
    [trainingDays] is, the structure keeps its 7 entries and turns into
    ['rest'] the first [min 3 (max 0 (7 - trainingDays))] of the easy days
    Friday, Wednesday, Monday (indices 4, 2, 0), leaving every other day as
    in the template: the three threshold sessions and the long run are never
    removed, so that the week has at least four training days and a request
    for three days is granted four. *)
Theorem Earlier_getWeekStructure_rest_days (trainingDays : Z) :
  let structure := Earlier.getWeekStructure trainingDays in
  let removed := take (Z.to_nat (7 - grantedDays trainingDays)) [4; 2; 0]%nat in
  length structure = 7%nat
  /\ (forall i : nat,
        structure !! i
          = if bool_decide (i ∈ removed) then
              (if bool_decide (i < 7)%nat then Some restConfig else None)
            else BASE_WEEK_STRUCTURE !! i)
  /\ Z.of_nat (length (filter (fun c => isRest c = true) structure))
       = Z.min 3 (Z.max 0 (7 - trainingDays))
  /\ Z.of_nat (length (filter (fun c => isRest c = false) structure))
       = Z.max 4 (Z.min 7 trainingDays)
  /\ forall (i : nat) config,
       BASE_WEEK_STRUCTURE !! i = Some config ->
       SessionConfig.type config <> SessionType.easy ->
       structure !! i = Some config.
Proof.
  cbv zeta. rewrite Earlier_getWeekStructure_granted.
  assert (Z.min 3 (Z.max 0 (7 - trainingDays)) = 7 - grantedDays trainingDays) as ->
    by (unfold grantedDays; lia).
  fold (grantedDays trainingDays).
  destruct (grantedDays_cases trainingDays) as [->|[->|[->| ->]]];
    (split; [reflexivity|]);
    (split; [intros i; do 8 (try destruct i as [|i]); reflexivity|]);
    (split; [reflexivity|]); (split; [reflexivity|]);
    intros i config;
    do 8 (try destruct i as [|i]); cbn; intros [= <-] H; try reflexivity;
    exfalso; apply H; reflexivity.
Qed.

Lemma Earlier_weekVolume_granted weekNumber trainingDays paces targetDistance :
  weekVolume weekNumber trainingDays paces targetDistance
    = weekVolume weekNumber (grantedDays trainingDays) paces targetDistance.
Proof.
  unfold weekVolume, Earlier.generateWeekPlan.
  rewrite Earlier_getWeekStructure_granted. reflexivity.
Qed.

Lemma Earlier_getWeekLoadPercentage_table :
  map Earlier.getWeekLoadPercentage [1; 2; 3; 4; 5; 6]
    = [80; 90; 100; 95; 100; 60]%float.
Proof. vm_compute. reflexivity. Qed.

(** X28: the progressive load of the earlier revision.  The load
    percentages of its weeks 1 to 6 are 80, 90, 100, 95, 100 and 60, and the
    volumes of the generated weeks follow them, whatever the training days,
    the paces and the target distance: a week with a lower percentage never
    has a higher volume, and has a strictly lower one except for weeks 2
    and 4, which may tie; weeks with the same percentage (3 and 5) have the
    same volume; and every volume is positive. *)
Theorem Earlier_progressive_load (weekNumber weekNumber' trainingDays : Z)
    (paces : Paces.t) (targetDistance : Distance) :
  1 <= weekNumber <= 6 -> 1 <= weekNumber' <= 6 ->
  let load := Earlier.getWeekLoadPercentage in
  let volume := fun w => weekVolume w trainingDays paces targetDistance in
  map load [1; 2; 3; 4; 5; 6] = [80; 90; 100; 95; 100; 60]%float
  /\ (0 <? volume weekNumber)%float = true
  /\ ((load weekNumber <? load weekNumber')%float = true ->
      (volume weekNumber <=? volume weekNumber')%float = true
      /\ ((weekNumber, weekNumber') <> (2, 4) ->
          (volume weekNumber <? volume weekNumber')%float = true))
  /\ ((load weekNumber =? load weekNumber')%float = true ->
      volume weekNumber = volume weekNumber').
Proof.
  intros Hw Hw'. cbv zeta.
  split; [exact Earlier_getWeekLoadPercentage_table|].
  rewrite !(Earlier_weekVolume_granted _ trainingDays).
  assert (weekNumber = 1 \/ weekNumber = 2 \/ weekNumber = 3 \/ weekNumber = 4
          \/ weekNumber = 5 \/ weekNumber = 6) as Hcases by lia.
  assert (weekNumber' = 1 \/ weekNumber' = 2 \/ weekNumber' = 3 \/ weekNumber' = 4
          \/ weekNumber' = 5 \/ weekNumber' = 6) as Hcases' by lia.
  clear Hw Hw'.
  destruct (grantedDays_cases trainingDays) as [->|[->|[->| ->]]];
    destruct targetDistance;
    destruct Hcases as [->|[->|[->|[->|[->| ->]]]]];
    destruct Hcases' as [->|[->|[->|[->|[->| ->]]]]];
    vm_compute;
    (split; [reflexivity|]);
    (split; [intros H; try discriminate H;
             (split; [reflexivity|intros H'; try reflexivity; exfalso; apply H'; reflexivity])
            |intros H; try discriminate H; reflexivity]).
Qed.

(** X28 on the example: week 1 (80 %) against week 3 (100 %) for a 10K with
    seven training days. *)
Lemma Earlier_progressive_load_witness :
  (weekVolume 1 7 examplePaces D10K <? weekVolume 3 7 examplePaces D10K)%float = true.
Proof.
  destruct (Earlier_progressive_load 1 3 7 examplePaces D10K ltac:(lia) ltac:(lia))
    as (_ & _ & H & _).
  apply H; [reflexivity|discriminate].
Defined.
